(** * The MCP protocol client and the inline agent of [mcp_time/main.go]

    A shallow embedding of the Go program: the JSON-RPC client
    ([sendRequest], [Initialize], [ListTools], [CallTool]), the tool
    registry ([AddActionGroup], [findMCPClientForTool]) and the
    conversation loop ([handleToolUse], [Invoke]), together with the
    parts of the Go standard library the program leans on
    ([strings], [bufio.Scanner], [strconv], [encoding/json]).

    Go strings are byte strings: they are [string]s whose [ascii]
    characters are the bytes.  [int] is the 64-bit signed integer.

    The sibling program with [BedrockToolHandler] has a client of the
    same text but for its [sendRequest] and its [Initialize]; they are
    in the modules [ToolHandler] and [Handler]. *)

From Stdlib Require Import String Ascii List ZArith NArith Bool Lia.
From Stdlib Require Import DecimalString DecimalZ DecimalPos.
Import ListNotations.
Set Warnings "-register-all".
Local Open Scope list_scope.
Local Open Scope string_scope.

(* ================================================================= *)
(** ** Bytes and strings *)

Module Strings.

Definition code (c : ascii) : N := N_of_ascii c.
Definition byte (n : N) : ascii := ascii_of_N n.

Definition LF : ascii := byte 10.
Definition CR : ascii := byte 13.

(** [strings.HasPrefix(s, prefix)]. *)
Definition HasPrefix (s pre : string) : bool := String.prefix pre s.

(** The slice expression [s[n:]] (the program only slices behind a
    prefix it has just tested, so the index is always in range). *)
Fixpoint drop (n : nat) (s : string) : string :=
  match n, s with
  | O, _ => s
  | S _, EmptyString => EmptyString
  | S n', String _ s' => drop n' s'
  end.

Fixpoint rev_append (s acc : string) : string :=
  match s with
  | EmptyString => acc
  | String c s' => rev_append s' (String c acc)
  end.

Definition rev (s : string) : string := rev_append s EmptyString.

(** *** [unicode.IsSpace] on UTF-8 text

    The white-space runes are U+0009..U+000D, U+0020, U+0085, U+00A0,
    U+1680, U+2000..U+200A, U+2028, U+2029, U+202F, U+205F and U+3000.
    [space_width s] is the number of bytes of the white-space rune [s]
    starts with, and 0 when it starts with none. *)

Definition is_ascii_space (b : N) : bool :=
  ((9 <=? b) && (b <=? 13) || (b =? 32))%N.

Definition is_space2 (b0 b1 : N) : bool :=
  ((b0 =? 194) && ((b1 =? 133) || (b1 =? 160)))%N.

Definition is_space3 (b0 b1 b2 : N) : bool :=
  ((b0 =? 225) && (b1 =? 154) && (b2 =? 128)
   || (b0 =? 226) && (b1 =? 128)
        && ((128 <=? b2) && (b2 <=? 138) || (b2 =? 168) || (b2 =? 169) || (b2 =? 175))
   || (b0 =? 226) && (b1 =? 129) && (b2 =? 159)
   || (b0 =? 227) && (b1 =? 128) && (b2 =? 128))%N.

Definition space_width (s : string) : nat :=
  match s with
  | String c0 t0 =>
      if is_ascii_space (code c0) then 1
      else match t0 with
           | String c1 t1 =>
               if is_space2 (code c0) (code c1) then 2
               else match t1 with
                    | String c2 _ =>
                        if is_space3 (code c0) (code c1) (code c2) then 3 else 0
                    | EmptyString => 0
                    end
           | EmptyString => 0
           end
  | EmptyString => 0
  end.

(** The same test from the end of the text, on the reversed string
    (what [utf8.DecodeLastRuneInString] sees). *)
Definition space_width_back (r : string) : nat :=
  match r with
  | String c0 t0 =>
      if is_ascii_space (code c0) then 1
      else match t0 with
           | String c1 t1 =>
               if is_space2 (code c1) (code c0) then 2
               else match t1 with
                    | String c2 _ =>
                        if is_space3 (code c2) (code c1) (code c0) then 3 else 0
                    | EmptyString => 0
                    end
           | EmptyString => 0
           end
  | EmptyString => 0
  end.

Fixpoint trim_with (width : string -> nat) (fuel : nat) (s : string) : string :=
  match fuel with
  | O => s
  | S fuel' =>
      match width s with
      | O => s
      | S w => trim_with width fuel' (drop (S w) s)
      end
  end.

Definition TrimLeftSpace (s : string) : string :=
  trim_with space_width (String.length s) s.

Definition TrimRightSpace (s : string) : string :=
  rev (trim_with space_width_back (String.length s) (rev s)).

(** [strings.TrimSpace(s)]. *)
Definition TrimSpace (s : string) : string :=
  TrimRightSpace (TrimLeftSpace s).

(** [strconv.Itoa] and the [%d] verb of [fmt]. *)
Definition Itoa (z : Z) : string := NilZero.string_of_int (Z.to_int z).

End Strings.

(* ================================================================= *)
(** ** [bufio.Scanner] with the default split function [ScanLines] *)

Module Scanner.
Import Strings.

(** [bufio.MaxScanTokenSize]: the scanner's buffer never grows beyond
    64 KiB, and a line that does not fit (with its terminator) ends the
    scan with [ErrTooLong]. *)
Definition MaxScanTokenSize : N := 65536.

(** The text up to the first line feed, and what follows it ([None]
    when the text holds no line feed). *)
Fixpoint cutLine (s : string) : string * option string :=
  match s with
  | EmptyString => (EmptyString, None)
  | String c s' =>
      if Ascii.eqb c LF then (EmptyString, Some s')
      else let (l, r) := cutLine s' in (String c l, r)
  end.

(** [dropCR]: a line loses one trailing carriage return. *)
Fixpoint dropCR (l : string) : string :=
  match l with
  | EmptyString => EmptyString
  | String c EmptyString => if Ascii.eqb c CR then EmptyString else l
  | String c l' => String c (dropCR l')
  end.

Definition tooLong (raw : string) : bool :=
  (MaxScanTokenSize <=? N.of_nat (String.length raw))%N.

(** The tokens [Scan]/[Text] deliver, in order, until [Scan] returns
    false (at the end of the input, or at a line that is too long). *)
Fixpoint scan (fuel : nat) (s : string) : list string :=
  match fuel with
  | O => []
  | S fuel' =>
      match s with
      | EmptyString => []
      | _ =>
          let (raw, rest) := cutLine s in
          if tooLong raw then []
          else dropCR raw ::
               match rest with
               | Some r => scan fuel' r
               | None => []
               end
      end
  end.

Definition lines (s : string) : list string := scan (String.length s) s.

End Scanner.

(* ================================================================= *)
(** ** [encoding/json]

    [Json.parse] is the syntax check and the scan of [json.Unmarshal]
    (RFC 8259, nesting of at most 10000 containers); string literals
    are unquoted the way the decoder does it (escapes resolved, text
    coerced to well-formed UTF-8).  A number keeps the text of its
    literal: the program never computes with a [float64], it only
    passes it on, so the literal stands for the [float64] it denotes
    (and [json.Marshal] writes the literal back). *)

Module Json.
Import Strings.

Inductive value : Type :=
| JNull
| JBool (b : bool)
| JNumber (lit : string)
| JString (s : string)
| JArray (elems : list value)
| JObject (members : list (string * value)).

Inductive error : Type :=
| SyntaxError          (* the text is not JSON *)
| UnmarshalTypeError.  (* a JSON value does not fit the Go type *)

Definition chr (c : ascii) (n : N) : bool := (code c =? n)%N.

Definition is_ws (c : ascii) : bool :=
  chr c 32 || chr c 9 || chr c 10 || chr c 13.

Definition is_digit (c : ascii) : bool :=
  ((48 <=? code c) && (code c <=? 57))%N.

Definition hex_val (c : ascii) : option N :=
  let b := code c in
  if ((48 <=? b) && (b <=? 57))%N then Some (b - 48)%N
  else if ((97 <=? b) && (b <=? 102))%N then Some (b - 87)%N
  else if ((65 <=? b) && (b <=? 70))%N then Some (b - 55)%N
  else None.

Fixpoint skip_ws (s : string) : string :=
  match s with
  | String c s' => if is_ws c then skip_ws s' else s
  | EmptyString => EmptyString
  end.

(** *** String literals *)

(** The character an escape stands for: a quote, a backslash, a slash,
    or one of b, f, n, r, t after the backslash. *)
Definition simple_escape (c : ascii) : option ascii :=
  if chr c 34 then Some (byte 34)
  else if chr c 92 then Some (byte 92)
  else if chr c 47 then Some (byte 47)
  else if chr c 98 then Some (byte 8)
  else if chr c 102 then Some (byte 12)
  else if chr c 110 then Some (byte 10)
  else if chr c 114 then Some (byte 13)
  else if chr c 116 then Some (byte 9)
  else None.

Definition hex4 (h1 h2 h3 h4 : ascii) : option N :=
  match hex_val h1, hex_val h2, hex_val h3, hex_val h4 with
  | Some a, Some b, Some c, Some d => Some (((a * 16 + b) * 16 + c) * 16 + d)%N
  | _, _, _, _ => None
  end.

(** The raw text of a string literal, from behind its opening quote up
    to its closing quote, and what follows the literal. *)
Fixpoint scan_string (s : string) : option (string * string) :=
  match s with
  | EmptyString => None
  | String c s' =>
      if chr c 34 then Some (EmptyString, s')
      else if chr c 92 then
        match s' with
        | String e s'' =>
            match simple_escape e with
            | Some _ =>
                match scan_string s'' with
                | Some (raw, rest) => Some (String c (String e raw), rest)
                | None => None
                end
            | None =>
                if chr e 117 then
                  match s'' with
                  | String h1 (String h2 (String h3 (String h4 s5))) =>
                      match hex4 h1 h2 h3 h4, scan_string s5 with
                      | Some _, Some (raw, rest) =>
                          Some (String c (String e (String h1 (String h2
                                 (String h3 (String h4 raw))))), rest)
                      | _, _ => None
                      end
                  | _ => None
                  end
                else None
            end
        | EmptyString => None
        end
      else if (code c <? 32)%N then None
      else match scan_string s' with
           | Some (raw, rest) => Some (String c raw, rest)
           | None => None
           end
  end.

(** [utf8.EncodeRune]. *)
Definition encode_rune (r : N) : string :=
  let cont (x : N) := byte (128 + N.land x 63) in
  if (r <? 128)%N then String (byte r) EmptyString
  else if (r <? 2048)%N then
    String (byte (192 + N.shiftr r 6)) (String (cont r) EmptyString)
  else if (r <? 65536)%N then
    String (byte (224 + N.shiftr r 12))
      (String (cont (N.shiftr r 6)) (String (cont r) EmptyString))
  else
    String (byte (240 + N.shiftr r 18))
      (String (cont (N.shiftr r 12))
         (String (cont (N.shiftr r 6)) (String (cont r) EmptyString))).

Definition replacement : string := encode_rune 65533.

Definition within (lo hi : N) (c : ascii) : bool :=
  ((lo <=? code c) && (code c <=? hi))%N.

(** The length of the well-formed multi-byte UTF-8 sequence [s] starts
    with, 0 when it starts with none ([utf8.DecodeRuneInString]). *)
Definition utf8_width (s : string) : nat :=
  let cont := within 128 191 in
  match s with
  | String c0 (String c1 t1) =>
      if within 194 223 c0 then (if cont c1 then 2 else 0)
      else
        match t1 with
        | String c2 t2 =>
            if chr c0 224 then (if within 160 191 c1 && cont c2 then 3 else 0)
            else if within 225 236 c0 || within 238 239 c0 then
              (if cont c1 && cont c2 then 3 else 0)
            else if chr c0 237 then (if within 128 159 c1 && cont c2 then 3 else 0)
            else
              match t2 with
              | String c3 _ =>
                  if chr c0 240 then
                    (if within 144 191 c1 && cont c2 && cont c3 then 4 else 0)
                  else if within 241 243 c0 then
                    (if cont c1 && cont c2 && cont c3 then 4 else 0)
                  else if chr c0 244 then
                    (if within 128 143 c1 && cont c2 && cont c3 then 4 else 0)
                  else 0
              | EmptyString => 0
              end
        | EmptyString => 0
        end
  | _ => 0
  end.

Fixpoint take (n : nat) (s : string) : string :=
  match n, s with
  | S n', String c s' => String c (take n' s')
  | _, _ => EmptyString
  end.

(** The rune of a [\uXXXX] escape at the head of [s]. *)
Definition getu4 (s : string) : option N :=
  match s with
  | String b (String u (String h1 (String h2 (String h3 (String h4 _))))) =>
      if chr b 92 && chr u 117 then hex4 h1 h2 h3 h4 else None
  | _ => None
  end.

Definition is_surrogate (r : N) : bool := ((55296 <=? r) && (r <? 57344))%N.

(** [utf16.DecodeRune]: a high and a low surrogate make one rune. *)
Definition decode_surrogates (r1 : N) (r2 : option N) : option N :=
  match r2 with
  | Some r2 =>
      if ((55296 <=? r1) && (r1 <? 56320) && (56320 <=? r2) && (r2 <? 57344))%N
      then Some (N.lor (N.shiftl (r1 - 55296) 10) (r2 - 56320) + 65536)%N
      else None
  | None => None
  end.

(** [unquote]: the Go string a (syntactically valid) literal denotes. *)
Fixpoint unquote (fuel : nat) (s : string) : string :=
  match fuel with
  | O => EmptyString
  | S fuel' =>
      match s with
      | EmptyString => EmptyString
      | String c s' =>
          if chr c 92 then
            match s' with
            | String e s'' =>
                match simple_escape e with
                | Some x => String x (unquote fuel' s'')
                | None =>
                    match getu4 s with
                    | Some rr =>
                        let after := drop 6 s in
                        if is_surrogate rr then
                          match decode_surrogates rr (getu4 after) with
                          | Some r => encode_rune r ++ unquote fuel' (drop 6 after)
                          | None => replacement ++ unquote fuel' after
                          end
                        else encode_rune rr ++ unquote fuel' after
                    | None => EmptyString
                    end
                end
            | EmptyString => EmptyString
            end
          else if (code c <? 128)%N then String c (unquote fuel' s')
          else
            match utf8_width s with
            | O => replacement ++ unquote fuel' s'
            | w => take w s ++ unquote fuel' (drop w s)
            end
      end
  end.

Definition unquoted (raw : string) : string := unquote (String.length raw) raw.

(** *** Number literals *)

Fixpoint span_digits (s : string) : string * string :=
  match s with
  | String c s' =>
      if is_digit c then let (ds, rest) := span_digits s' in (String c ds, rest)
      else (EmptyString, s)
  | EmptyString => (EmptyString, EmptyString)
  end.

Definition scan_int_part (s : string) : option (string * string) :=
  match s with
  | String c s' =>
      if chr c 48 then Some (String c EmptyString, s')
      else if is_digit c then Some (span_digits s)
      else None
  | EmptyString => None
  end.

Definition scan_frac_part (s : string) : option (string * string) :=
  match s with
  | String c s' =>
      if chr c 46 then
        match span_digits s' with
        | (EmptyString, _) => None
        | (ds, rest) => Some (String c ds, rest)
        end
      else Some (EmptyString, s)
  | EmptyString => Some (EmptyString, s)
  end.

Definition scan_exp_part (s : string) : option (string * string) :=
  match s with
  | String c s' =>
      if chr c 101 || chr c 69 then
        let (sign, s1) :=
          match s' with
          | String g s'' =>
              if chr g 43 || chr g 45 then (String g EmptyString, s'')
              else (EmptyString, s')
          | EmptyString => (EmptyString, s')
          end in
        match span_digits s1 with
        | (EmptyString, _) => None
        | (ds, rest) => Some (String c (sign ++ ds), rest)
        end
      else Some (EmptyString, s)
  | EmptyString => Some (EmptyString, s)
  end.

Definition scan_number (s : string) : option (string * string) :=
  let (sign, s0) :=
    match s with
    | String c s' => if chr c 45 then (String c EmptyString, s') else (EmptyString, s)
    | EmptyString => (EmptyString, s)
    end in
  match scan_int_part s0 with
  | Some (ip, s1) =>
      match scan_frac_part s1 with
      | Some (fp, s2) =>
          match scan_exp_part s2 with
          | Some (ep, s3) => Some (sign ++ ip ++ fp ++ ep, s3)
          | None => None
          end
      | None => None
      end
  | None => None
  end.

(** *** Values *)

Definition maxNestingDepth : nat := 100 * 100.

Section Containers.

(** The parser of the values one level down. *)
Variable pv : string -> option (value * string).

(** The elements of a non-empty array, up to its closing bracket. *)
Fixpoint parse_elements (fuel : nat) (s : string) : option (list value * string) :=
  match fuel with
  | O => None
  | S fuel' =>
      match pv (skip_ws s) with
      | Some (v, rest) =>
          match skip_ws rest with
          | String c rest' =>
              if chr c 44 then
                match parse_elements fuel' rest' with
                | Some (vs, r) => Some (v :: vs, r)
                | None => None
                end
              else if chr c 93 then Some ([v], rest')
              else None
          | EmptyString => None
          end
      | None => None
      end
  end.

(** The members of a non-empty object, up to its closing brace. *)
Fixpoint parse_members (fuel : nat) (s : string)
  : option (list (string * value) * string) :=
  match fuel with
  | O => None
  | S fuel' =>
      match skip_ws s with
      | String q s1 =>
          if chr q 34 then
            match scan_string s1 with
            | Some (raw, s2) =>
                match skip_ws s2 with
                | String colon s3 =>
                    if chr colon 58 then
                      match pv (skip_ws s3) with
                      | Some (v, rest) =>
                          match skip_ws rest with
                          | String c rest' =>
                              if chr c 44 then
                                match parse_members fuel' rest' with
                                | Some (ms, r) => Some ((unquoted raw, v) :: ms, r)
                                | None => None
                                end
                              else if chr c 125 then Some ([(unquoted raw, v)], rest')
                              else None
                          | EmptyString => None
                          end
                      | None => None
                      end
                    else None
                | EmptyString => None
                end
            | None => None
            end
          else None
      | EmptyString => None
      end
  end.

End Containers.

Definition scan_literal (word : string) (v : value) (s : string)
  : option (value * string) :=
  if HasPrefix s word then Some (v, drop (String.length word) s) else None.

(** A value at the head of [s] (no leading white space), with [depth]
    levels of nesting still allowed. *)
Fixpoint parse_value (depth : nat) (s : string) : option (value * string) :=
  match s with
  | EmptyString => None
  | String c s' =>
      if chr c 34 then
        match scan_string s' with
        | Some (raw, rest) => Some (JString (unquoted raw), rest)
        | None => None
        end
      else if chr c 91 then
        match depth with
        | O => None
        | S depth' =>
            match skip_ws s' with
            | String c' rest =>
                if chr c' 93 then Some (JArray [], rest)
                else
                  match parse_elements (parse_value depth') (S (String.length s')) s' with
                  | Some (vs, r) => Some (JArray vs, r)
                  | None => None
                  end
            | EmptyString => None
            end
        end
      else if chr c 123 then
        match depth with
        | O => None
        | S depth' =>
            match skip_ws s' with
            | String c' rest =>
                if chr c' 125 then Some (JObject [], rest)
                else
                  match parse_members (parse_value depth') (S (String.length s')) s' with
                  | Some (ms, r) => Some (JObject ms, r)
                  | None => None
                  end
            | EmptyString => None
            end
        end
      else if chr c 116 then scan_literal "true" (JBool true) s
      else if chr c 102 then scan_literal "false" (JBool false) s
      else if chr c 110 then scan_literal "null" JNull s
      else if chr c 45 || is_digit c then
        match scan_number s with
        | Some (lit, rest) => Some (JNumber lit, rest)
        | None => None
        end
      else None
  end.

(** The whole text is one value, white space around it allowed. *)
Definition parse (s : string) : option value :=
  match parse_value maxNestingDepth (skip_ws s) with
  | Some (v, rest) =>
      match skip_ws rest with
      | EmptyString => Some v
      | _ => None
      end
  | None => None
  end.

(** *** Go values behind [interface{}]

    What [json.Unmarshal] stores in an [interface{}]: nil, a bool, a
    [float64], a string, a [[]interface{}] or a
    [map[string]interface{}].  A map is kept as the list of its
    entries in the order of their keys, each key once; this is the
    order in which [json.Marshal] writes them. *)

Inductive any : Type :=
| Nil
| GoBool (b : bool)
| GoFloat (lit : string)
| GoString (s : string)
| GoSlice (elems : list any)
| GoMap (entries : list (string * any)).

Definition gomap : Type := list (string * any).

Section Maps.
Context {A : Type}.

(** [m[k] = v]. *)
Fixpoint map_set (k : string) (v : A) (m : list (string * A)) : list (string * A) :=
  match m with
  | [] => [(k, v)]
  | (k', v') :: m' =>
      match String.compare k k' with
      | Lt => (k, v) :: m
      | Eq => (k, v) :: m'
      | Gt => (k', v') :: map_set k v m'
      end
  end.

(** [v, ok := m[k]]. *)
Fixpoint map_get (k : string) (m : list (string * A)) : option A :=
  match m with
  | [] => None
  | (k', v) :: m' => if String.eqb k k' then Some v else map_get k m'
  end.

(** A map literal. *)
Definition map_of (entries : list (string * A)) : list (string * A) :=
  fold_left (fun m kv => map_set (fst kv) (snd kv) m) entries [].

End Maps.

(** **** Numbers *)

Fixpoint digits_value (acc : N) (s : string) : N :=
  match s with
  | String c s' => digits_value (acc * 10 + (code c - 48))%N s'
  | EmptyString => acc
  end.

Fixpoint strip_zeros (s : string) : string :=
  match s with
  | String c s' => if chr c 48 then strip_zeros s' else s
  | EmptyString => EmptyString
  end.

(** The parts of a number literal: sign, integer digits, fraction
    digits, exponent. *)
Definition number_parts (lit : string) : bool * string * string * Z :=
  let (neg, s0) :=
    match lit with
    | String c s' => if chr c 45 then (true, s') else (false, lit)
    | EmptyString => (false, lit)
    end in
  let (ip, s1) := span_digits s0 in
  let (fp, s2) :=
    match s1 with
    | String c s' => if chr c 46 then span_digits s' else (EmptyString, s1)
    | EmptyString => (EmptyString, s1)
    end in
  let ex :=
    match s2 with
    | String _ (String g s') =>
        if chr g 45 then (- Z.of_N (digits_value 0 s'))%Z
        else if chr g 43 then Z.of_N (digits_value 0 s')
        else Z.of_N (digits_value 0 (String g s'))
    | _ => 0%Z
    end in
  (neg, ip, fp, ex).

(** [strconv.ParseFloat(lit, 64)] succeeds: the number rounds to a
    finite [float64], that is, its magnitude is below
    [2^1024 - 2^970], half way between the largest [float64] and
    [2^1024]. *)
Definition float64_ok (lit : string) : bool :=
  let '(_, ip, fp, ex) := number_parts lit in
  let ds := strip_zeros (ip ++ fp) in
  let m := Z.of_N (digits_value 0 ds) in
  let e := (ex - Z.of_nat (String.length fp))%Z in
  let magnitude := (Z.of_nat (String.length ds) + e)%Z in
  let limit := (2 ^ 1024 - 2 ^ 970)%Z in
  if (m =? 0)%Z then true
  else if (magnitude <? 309)%Z then true
  else if (309 <? magnitude)%Z then false
  else if (0 <=? e)%Z then (m * 10 ^ e <? limit)%Z
  else (m <? limit * 10 ^ (- e))%Z.

(** [strconv.ParseInt(lit, 10, 64)] succeeds: the literal is an
    integer without fraction or exponent, in the range of [int]. *)
Definition int64_of_literal (lit : string) : option Z :=
  let '(neg, ip, fp, _) := number_parts lit in
  let plain := String.eqb lit ((if neg then "-" else "") ++ ip) in
  let z := Z.of_N (digits_value 0 ip) in
  let z := if neg then (- z)%Z else z in
  if plain && (- 2 ^ 63 <=? z)%Z && (z <? 2 ^ 63)%Z then Some z else None.

(** **** Decoding into [interface{}] *)

Fixpoint to_any (v : value) : option any :=
  match v with
  | JNull => Some Nil
  | JBool b => Some (GoBool b)
  | JNumber lit => if float64_ok lit then Some (GoFloat lit) else None
  | JString s => Some (GoString s)
  | JArray elems =>
      option_map GoSlice
        ((fix each (l : list value) : option (list any) :=
            match l with
            | [] => Some []
            | x :: xs =>
                match to_any x, each xs with
                | Some a, Some rest => Some (a :: rest)
                | _, _ => None
                end
            end) elems)
  | JObject members =>
      option_map GoMap
        ((fix each (l : list (string * value)) (m : gomap) : option gomap :=
            match l with
            | [] => Some m
            | (k, x) :: xs =>
                match to_any x with
                | Some a => each xs (map_set k a m)
                | None => None
                end
            end) members [])
  end.

(** **** Struct fields

    A key selects the field whose name it equals under Unicode simple
    case folding.  The field names of this program are ASCII, and the
    only other runes that fold to ASCII letters are U+017F (to S) and
    U+212A (to K). *)
Fixpoint fold_key (s : string) : string :=
  match s with
  | EmptyString => EmptyString
  | String c s' =>
      if within 97 122 c then String (byte (code c - 32)) (fold_key s')
      else
        match s' with
        | String c1 s'' =>
            if chr c 197 && chr c1 191 then String (byte 83) (fold_key s'')
            else
              match s'' with
              | String c2 s3 =>
                  if chr c 226 && chr c1 132 && chr c2 170
                  then String (byte 75) (fold_key s3)
                  else String c (fold_key s')
              | EmptyString => String c (fold_key s')
              end
        | EmptyString => String c (fold_key s')
        end
  end.

Definition field (name key : string) : bool := String.eqb (fold_key key) name.

(** A JSON value stored in a field of type [string], [int], [bool] or
    [interface{}]; [null] leaves a string, an int and a bool as they
    are. *)
Definition into_string (cur : string) (v : value) : option string :=
  match v with
  | JNull => Some cur
  | JString s => Some s
  | _ => None
  end.

Definition into_int (cur : Z) (v : value) : option Z :=
  match v with
  | JNull => Some cur
  | JNumber lit => int64_of_literal lit
  | _ => None
  end.

Definition into_bool (cur : bool) (v : value) : option bool :=
  match v with
  | JNull => Some cur
  | JBool b => Some b
  | _ => None
  end.

(** A field of type [map[string]interface{}]: an object is stored
    entry by entry into the map that is there (a new one if it is
    nil), [null] makes the map nil. *)
Definition into_map (cur : option gomap) (v : value) : option (option gomap) :=
  match v with
  | JNull => Some None
  | JObject _ =>
      match to_any v with
      | Some (GoMap m) =>
          Some (Some (fold_left (fun acc kv => map_set (fst kv) (snd kv) acc) m
                        (match cur with Some c => c | None => [] end)))
      | _ => None
      end
  | _ => None
  end.

(** The members of an object stored one after the other into a struct. *)
Fixpoint into_struct {T : Type} (store : T -> string -> value -> option T)
    (cur : T) (members : list (string * value)) : option T :=
  match members with
  | [] => Some cur
  | (k, v) :: rest =>
      match store cur k v with
      | Some cur' => into_struct store cur' rest
      | None => None
      end
  end.

(** An array stored into a slice: element [i] is decoded into the
    element the slice already has at [i], or into a zero value. *)
Fixpoint into_slice {T : Type} (elem : T -> value -> option T) (zero : T)
    (cur : list T) (elems : list value) : option (list T) :=
  match elems with
  | [] => Some []
  | v :: vs =>
      match elem (hd zero cur) v, into_slice elem zero (tl cur) vs with
      | Some x, Some xs => Some (x :: xs)
      | _, _ => None
      end
  end.

(** *** [json.Marshal] *)

Definition hex_digit (n : N) : ascii :=
  byte (if (n <? 10)%N then 48 + n else 87 + n).

Definition escape_u00 (b : N) : string :=
  "\u00" ++ String (hex_digit (N.shiftr b 4)) (String (hex_digit (N.land b 15)) EmptyString).

(** One byte below 0x80 inside a string literal (HTML-safe escaping is
    on in [json.Marshal]). *)
Definition escape_ascii (c : ascii) : string :=
  if chr c 92 then String c (String c EmptyString)
  else if chr c 34 then String (byte 92) (String c EmptyString)
  else if chr c 8 then "\b"
  else if chr c 12 then "\f"
  else if chr c 10 then "\n"
  else if chr c 13 then "\r"
  else if chr c 9 then "\t"
  else if (code c <? 32)%N || chr c 60 || chr c 62 || chr c 38 then escape_u00 (code c)
  else String c EmptyString.

Fixpoint quote_body (fuel : nat) (s : string) : string :=
  match fuel with
  | O => EmptyString
  | S fuel' =>
      match s with
      | EmptyString => EmptyString
      | String c s' =>
          if (code c <? 128)%N then escape_ascii c ++ quote_body fuel' s'
          else
            match utf8_width s with
            | O => "\ufffd" ++ quote_body fuel' s'
            | w =>
                let r := take w s in
                (if String.eqb r (encode_rune 8232) then "\u2028"
                 else if String.eqb r (encode_rune 8233) then "\u2029"
                 else r) ++ quote_body fuel' (drop w s)
            end
      end
  end.

Definition dquote : string := String (byte 34) EmptyString.

Definition quote (s : string) : string :=
  dquote ++ quote_body (String.length s) s ++ dquote.

Fixpoint marshal (v : any) : string :=
  match v with
  | Nil => "null"
  | GoBool b => if b then "true" else "false"
  | GoFloat lit => lit
  | GoString s => quote s
  | GoSlice elems =>
      "[" ++
      (fix each (l : list any) : string :=
         match l with
         | [] => EmptyString
         | x :: xs =>
             marshal x ++ match xs with [] => EmptyString | _ => "," ++ each xs end
         end) elems
      ++ "]"
  | GoMap entries =>
      "{" ++
      (fix each (l : list (string * any)) : string :=
         match l with
         | [] => EmptyString
         | (k, x) :: xs =>
             quote k ++ ":" ++ marshal x
             ++ match xs with [] => EmptyString | _ => "," ++ each xs end
         end) entries
      ++ "}"
  end.

(** *** [json.Unmarshal] *)

Inductive decoded (T : Type) : Type :=
| Decoded (x : T)
| Failed (e : error).
Arguments Decoded {T} x.
Arguments Failed {T} e.

(** [var x T; err := json.Unmarshal(data, &x)], for a type [T] with
    zero value [zero] whose values are decoded by [into]. *)
Definition Unmarshal {T : Type} (into : T -> value -> option T) (zero : T)
    (data : string) : decoded T :=
  match parse data with
  | None => Failed SyntaxError
  | Some v =>
      match into zero v with
      | Some x => Decoded x
      | None => Failed UnmarshalTypeError
      end
  end.

End Json.

Import Strings Json.

(* ================================================================= *)
(** ** MCP protocol types *)

(** [MCPRequest].  [ID] carries the tag [json:"id"], without
    [omitempty]; [Params] is an [interface{}] tagged [omitempty]. *)
Record MCPRequest : Type := {
  reqJSONRPC : string;
  reqID : Z;
  reqMethod : string;
  reqParams : any
}.

Record MCPError : Type := {
  Code : Z;
  Message : string;
  Data : any
}.

(** [MCPResponse]; [Error] is a [*MCPError], nil is [None]. *)
Record MCPResponse : Type := {
  JSONRPC : string;
  ID : Z;
  Result : any;
  Error : option MCPError
}.

Record Tool : Type := {
  Name : string;
  Description : string;
  InputSchema : option gomap
}.

Record ToolCall : Type := {
  callName : string;
  Arguments : gomap
}.

Record ContentBlock : Type := {
  Type_ : string;
  Text : string
}.

Record ToolResult : Type := {
  Content : list ContentBlock;
  IsError : bool
}.

(** *** How [encoding/json] writes and reads them *)

(** [json.Marshal(req)]: the fields in the order of the struct, each
    under its tag; only [params] can be left out (when it is nil). *)
Definition marshal_MCPRequest (req : MCPRequest) : string :=
  "{" ++ quote "jsonrpc" ++ ":" ++ quote (reqJSONRPC req)
  ++ "," ++ quote "id" ++ ":" ++ Itoa (reqID req)
  ++ "," ++ quote "method" ++ ":" ++ quote (reqMethod req)
  ++ match reqParams req with
     | Nil => EmptyString
     | params => "," ++ quote "params" ++ ":" ++ marshal params
     end
  ++ "}".

Definition zero_MCPError : MCPError := {| Code := 0; Message := ""; Data := Nil |}.

Definition zero_MCPResponse : MCPResponse :=
  {| JSONRPC := ""; ID := 0; Result := Nil; Error := None |}.

Definition zero_Tool : Tool := {| Name := ""; Description := ""; InputSchema := None |}.

Definition zero_ContentBlock : ContentBlock := {| Type_ := ""; Text := "" |}.

Definition zero_ToolResult : ToolResult := {| Content := []; IsError := false |}.

Definition store_MCPError (cur : MCPError) (key : string) (v : value) : option MCPError :=
  if field "CODE" key then
    option_map (fun x => {| Code := x; Message := Message cur; Data := Data cur |})
      (into_int (Code cur) v)
  else if field "MESSAGE" key then
    option_map (fun x => {| Code := Code cur; Message := x; Data := Data cur |})
      (into_string (Message cur) v)
  else if field "DATA" key then
    option_map (fun x => {| Code := Code cur; Message := Message cur; Data := x |})
      (to_any v)
  else Some cur.

(** A [*MCPError] field: [null] makes it nil, an object is decoded
    into the struct it points to (a new one if it is nil). *)
Definition into_MCPError_ptr (cur : option MCPError) (v : value)
  : option (option MCPError) :=
  match v with
  | JNull => Some None
  | JObject members =>
      option_map Some
        (into_struct store_MCPError
           (match cur with Some e => e | None => zero_MCPError end) members)
  | _ => None
  end.

Definition store_MCPResponse (cur : MCPResponse) (key : string) (v : value)
  : option MCPResponse :=
  if field "JSONRPC" key then
    option_map
      (fun x => {| JSONRPC := x; ID := ID cur; Result := Result cur; Error := Error cur |})
      (into_string (JSONRPC cur) v)
  else if field "ID" key then
    option_map
      (fun x => {| JSONRPC := JSONRPC cur; ID := x; Result := Result cur; Error := Error cur |})
      (into_int (ID cur) v)
  else if field "RESULT" key then
    option_map
      (fun x => {| JSONRPC := JSONRPC cur; ID := ID cur; Result := x; Error := Error cur |})
      (to_any v)
  else if field "ERROR" key then
    option_map
      (fun x => {| JSONRPC := JSONRPC cur; ID := ID cur; Result := Result cur; Error := x |})
      (into_MCPError_ptr (Error cur) v)
  else Some cur.

Definition into_MCPResponse (cur : MCPResponse) (v : value) : option MCPResponse :=
  match v with
  | JNull => Some cur
  | JObject members => into_struct store_MCPResponse cur members
  | _ => None
  end.

Definition store_Tool (cur : Tool) (key : string) (v : value) : option Tool :=
  if field "NAME" key then
    option_map
      (fun x => {| Name := x; Description := Description cur; InputSchema := InputSchema cur |})
      (into_string (Name cur) v)
  else if field "DESCRIPTION" key then
    option_map
      (fun x => {| Name := Name cur; Description := x; InputSchema := InputSchema cur |})
      (into_string (Description cur) v)
  else if field "INPUTSCHEMA" key then
    option_map
      (fun x => {| Name := Name cur; Description := Description cur; InputSchema := x |})
      (into_map (InputSchema cur) v)
  else Some cur.

Definition into_Tool (cur : Tool) (v : value) : option Tool :=
  match v with
  | JNull => Some cur
  | JObject members => into_struct store_Tool cur members
  | _ => None
  end.

Definition into_Tools (cur : list Tool) (v : value) : option (list Tool) :=
  match v with
  | JNull => Some []
  | JArray elems => into_slice into_Tool zero_Tool cur elems
  | _ => None
  end.

Definition store_ContentBlock (cur : ContentBlock) (key : string) (v : value)
  : option ContentBlock :=
  if field "TYPE" key then
    option_map (fun x => {| Type_ := x; Text := Text cur |}) (into_string (Type_ cur) v)
  else if field "TEXT" key then
    option_map (fun x => {| Type_ := Type_ cur; Text := x |}) (into_string (Text cur) v)
  else Some cur.

Definition into_ContentBlock (cur : ContentBlock) (v : value) : option ContentBlock :=
  match v with
  | JNull => Some cur
  | JObject members => into_struct store_ContentBlock cur members
  | _ => None
  end.

Definition into_ContentBlocks (cur : list ContentBlock) (v : value)
  : option (list ContentBlock) :=
  match v with
  | JNull => Some []
  | JArray elems => into_slice into_ContentBlock zero_ContentBlock cur elems
  | _ => None
  end.

Definition store_ToolResult (cur : ToolResult) (key : string) (v : value)
  : option ToolResult :=
  if field "CONTENT" key then
    option_map (fun x => {| Content := x; IsError := IsError cur |})
      (into_ContentBlocks (Content cur) v)
  else if field "ISERROR" key then
    option_map (fun x => {| Content := Content cur; IsError := x |})
      (into_bool (IsError cur) v)
  else Some cur.

Definition into_ToolResult (cur : ToolResult) (v : value) : option ToolResult :=
  match v with
  | JNull => Some cur
  | JObject members => into_struct store_ToolResult cur members
  | _ => None
  end.

Definition Unmarshal_MCPResponse : string -> decoded MCPResponse :=
  Unmarshal into_MCPResponse zero_MCPResponse.

Definition Unmarshal_Tools : string -> decoded (list Tool) :=
  Unmarshal into_Tools [].

Definition Unmarshal_ToolResult : string -> decoded ToolResult :=
  Unmarshal into_ToolResult zero_ToolResult.

(** JSON text written with apostrophes for the quotation marks. *)
Fixpoint json (s : string) : string :=
  match s with
  | EmptyString => EmptyString
  | String c s' => String (if chr c 39 then byte 34 else c) (json s')
  end.

(* ================================================================= *)
(** ** The Bedrock types the agent exchanges with the model
    (package [types] of the Bedrock runtime SDK) *)

Module types.

(** A [document.Interface]: opaque to the program, holding the
    structured input the model produced. *)
Inductive document : Type := Document (v : any).

Inductive ConversationRole : Type :=
| ConversationRoleUser
| ConversationRoleAssistant.

Inductive ToolResultContentBlock : Type :=
| ToolResultContentBlockMemberText (Value : string).

(** [ToolResultBlock{ToolUseId *string, Content, Status}]; the zero
    [Status] is the empty string. *)
Record ToolResultBlock : Type := {
  ResultToolUseId : option string;
  ResultContent : list ToolResultContentBlock;
  Status : string
}.

(** [ToolUseBlock{Input, Name *string, ToolUseId *string}]. *)
Record ToolUseBlock : Type := {
  Input : document;
  Name : option string;
  ToolUseId : option string
}.

Inductive ContentBlock : Type :=
| ContentBlockMemberText (Value : string)
| ContentBlockMemberToolUse (Value : ToolUseBlock)
| ContentBlockMemberToolResult (Value : ToolResultBlock)
| ContentBlockMemberOther.  (* the members the program does not look at *)

Record Message : Type := {
  Role : ConversationRole;
  Content : list ContentBlock
}.

Record ToolSpecification : Type := {
  SpecName : string;
  SpecDescription : string;
  SpecInputSchema : document
}.

Record ConverseInput : Type := {
  ModelId : string;
  Messages : list Message;
  System : list string;
  ToolConfig : option (list ToolSpecification)
}.

End types.

(* ================================================================= *)
(** ** Errors, the world outside the program, and the monad of the
    program's effects *)

(** Go errors.  [fmt.Errorf] without [%w] makes an error that is its
    message; with [%w] it wraps its cause behind a prefix.  The errors
    of [net/http] and of the AWS SDK carry their text, those of
    [encoding/json] are [Json.error]s. *)
Inductive error : Type :=
| errorString (msg : string)
| wrapError (msg : string) (cause : error)
| libError (msg : string)
| jsonError (e : Json.error).

(** An [*MCPClient]: nil, or the address of a client. *)
Definition ptr : Type := option nat.

(** [MCPClient]; its [http.Client] only fixes the timeout of 30
    seconds, after which an exchange fails. *)
Record MCPClient : Type := {
  baseURL : string;
  requestID : Z
}.

(** The body of an HTTP response is a stream: [io.ReadAll] delivers
    its bytes (and an error if reading breaks off) and leaves it
    drained. *)
Record Body : Type := {
  data : string;
  failure : option string
}.

Definition ReadAll (b : Body) : string * option string * Body :=
  (data b, failure b, {| data := ""; failure := failure b |}).

(** What [httpClient.Do] yields. *)
Inductive exchange : Type :=
| DoFails (msg : string)
| Responds (StatusCode : Z) (body : Body).

(** What [bedrockClient.Converse] yields. *)
Inductive converse : Type :=
| ConverseFails (msg : string)
| ConverseReturns (content : list types.ContentBlock).

(** The world: the clients the pointers point to, the URLs no request
    can be made for, what the [n]-th HTTP exchange and the [n]-th call
    of the model will yield, and the record of what was sent so far. *)
Record World : Type := {
  clients : list MCPClient;
  bad_url : string -> option string;
  network : nat -> exchange;
  sent : list (string * string);
  backend : nat -> converse;
  asked : list types.ConverseInput
}.

Inductive outcome (A : Type) : Type :=
| Ok (a : A)
| Err (e : error)
| Panic (msg : string)
| Unfinished.
Arguments Ok {A} a.
Arguments Err {A} e.
Arguments Panic {A} msg.
Arguments Unfinished {A}.

Definition M (A : Type) : Type := World -> outcome A * World.

Definition ret {A : Type} (a : A) : M A := fun w => (Ok a, w).

Definition throw {A : Type} (e : error) : M A := fun w => (Err e, w).

Definition panic {A : Type} (msg : string) : M A := fun w => (Panic msg, w).

Definition bind {A B : Type} (m : M A) (k : A -> M B) : M B :=
  fun w =>
    match m w with
    | (Ok a, w') => k a w'
    | (Err e, w') => (Err e, w')
    | (Panic msg, w') => (Panic msg, w')
    | (Unfinished, w') => (Unfinished, w')
    end.

Notation "x <- m ;; k" := (bind m (fun x => k))
  (at level 61, m at next level, right associativity).

(** [v, err := f()]: the call with its error as a value. *)
Definition try {A : Type} (m : M A) : M (A + error) :=
  fun w =>
    match m w with
    | (Ok a, w') => (Ok (inl a), w')
    | (Err e, w') => (Ok (inr e), w')
    | (Panic msg, w') => (Panic msg, w')
    | (Unfinished, w') => (Unfinished, w')
    end.

Definition nilDereference : string :=
  "runtime error: invalid memory address or nil pointer dereference".

(** [*c]. *)
Definition load (c : ptr) : M MCPClient :=
  fun w =>
    match c with
    | Some a =>
        match nth_error (clients w) a with
        | Some cl => (Ok cl, w)
        | None => (Panic nilDereference, w)
        end
    | None => (Panic nilDereference, w)
    end.

Fixpoint update {A : Type} (l : list A) (n : nat) (x : A) : list A :=
  match l, n with
  | [], _ => []
  | _ :: l', O => x :: l'
  | y :: l', S n' => y :: update l' n' x
  end.

Definition with_clients (w : World) (cs : list MCPClient) : World :=
  {| clients := cs; bad_url := bad_url w; network := network w; sent := sent w;
     backend := backend w; asked := asked w |}.

Definition with_sent (w : World) (s : list (string * string)) : World :=
  {| clients := clients w; bad_url := bad_url w; network := network w; sent := s;
     backend := backend w; asked := asked w |}.

Definition with_asked (w : World) (a : list types.ConverseInput) : World :=
  {| clients := clients w; bad_url := bad_url w; network := network w; sent := sent w;
     backend := backend w; asked := a |}.

Definition wrap64 (z : Z) : Z := ((z + 2 ^ 63) mod 2 ^ 64 - 2 ^ 63)%Z.

(** [c.requestID++], which yields the new value. *)
Definition nextRequestID (c : ptr) : M Z :=
  fun w =>
    match c with
    | Some a =>
        match nth_error (clients w) a with
        | Some cl =>
            let id := wrap64 (requestID cl + 1) in
            (Ok id,
             with_clients w
               (update (clients w) a {| baseURL := baseURL cl; requestID := id |}))
        | None => (Panic nilDereference, w)
        end
    | None => (Panic nilDereference, w)
    end.

(** [http.NewRequestWithContext(ctx, "POST", url, body)]: fails for a
    URL that does not parse. *)
Definition NewRequest (url : string) : M (option string) :=
  fun w => (Ok (bad_url w url), w).

(** [c.httpClient.Do(httpReq)]: the request goes out, and the world
    answers with its next exchange. *)
Definition Do (url body : string) : M exchange :=
  fun w => (Ok (network w (List.length (sent w))), with_sent w (sent w ++ [(url, body)])%list).

(** [a.bedrockClient.Converse(ctx, input)]. *)
Definition Converse (input : types.ConverseInput) : M converse :=
  fun w => (Ok (backend w (List.length (asked w))), with_asked w (asked w ++ [input])%list).

(* ================================================================= *)
(** ** The MCP client ([mcp_time/main.go]) *)

(** [NewMCPClient]: a new client, with its request counter at 0. *)
Definition NewMCPClient (baseURL : string) : M ptr :=
  fun w =>
    (Ok (Some (List.length (clients w))),
     with_clients w (clients w ++ [{| baseURL := baseURL; requestID := 0 |}])%list).

(** [extractSSEData]: the loop over the scanner's lines. *)
Fixpoint extractLoop (lines : list string) : string :=
  match lines with
  | [] => ""
  | line :: rest =>
      if HasPrefix line "data:" then TrimSpace (drop 5 line)
      else extractLoop rest
  end.

Definition extractSSEData (sseResponse : string) : string :=
  extractLoop (Scanner.lines sseResponse).

(** [&MCPResponse{JSONRPC: "2.0", ID: c.requestID, Result: nil}]. *)
Definition emptyResponse (id : Z) : MCPResponse :=
  {| JSONRPC := "2.0"; ID := id; Result := Nil; Error := None |}.

(** [fmt.Errorf("HTTP error: %d - %s", resp.StatusCode, string(body))]. *)
Definition httpError (status : Z) (body : string) : error :=
  errorString ("HTTP error: " ++ Itoa status ++ " - " ++ body).

(** [fmt.Errorf("MCP error %d: %s", mcpResp.Error.Code, mcpResp.Error.Message)]. *)
Definition mcpError (e : MCPError) : error :=
  errorString ("MCP error " ++ Itoa (Code e) ++ ": " ++ Message e).

(** The envelope read from [text], with the error of the Unmarshal
    wrapped behind [onFailure]; an envelope with [Error] set is an
    error. *)
Definition envelope (onFailure : string) (text : string) : M MCPResponse :=
  match Unmarshal_MCPResponse text with
  | Failed e => throw (wrapError onFailure (jsonError e))
  | Decoded mcpResp =>
      match Error mcpResp with
      | Some e => throw (mcpError e)
      | None => ret mcpResp
      end
  end.

(** [sendRequest].  ([json.Marshal] cannot fail on a request whose
    parameters are JSON values.) *)
Definition sendRequest (c : ptr) (method : string) (params : any) : M MCPResponse :=
  id <- nextRequestID c ;;
  cl <- load c ;;
  let req := {| reqJSONRPC := "2.0"; reqID := id; reqMethod := method; reqParams := params |} in
  let reqBody := marshal_MCPRequest req in
  bad <- NewRequest (baseURL cl) ;;
  match bad with
  | Some msg => throw (wrapError "failed to create HTTP request: " (libError msg))
  | None =>
      resp <- Do (baseURL cl) reqBody ;;
      match resp with
      | DoFails msg => throw (wrapError "HTTP request failed: " (libError msg))
      | Responds StatusCode respBody =>
          let '(body, err, _) := ReadAll respBody in
          match err with
          | Some msg => throw (wrapError "failed to read response: " (libError msg))
          | None =>
              if negb (StatusCode =? 200)%Z then throw (httpError StatusCode body)
              else if (String.length body =? 0)%nat then ret (emptyResponse id)
              else if HasPrefix body "event:" then
                let jsonData := extractSSEData body in
                if String.eqb jsonData "" then ret (emptyResponse id)
                else envelope "failed to unmarshal SSE JSON data: " jsonData
              else envelope "failed to unmarshal response: " body
          end
      end
  end.

Definition initializeParams : any :=
  GoMap (map_of
    [("protocolVersion", GoString "2024-11-05");
     ("capabilities",
      GoMap (map_of [("tools", GoMap (map_of [("listChanged", GoBool true)]))]));
     ("clientInfo",
      GoMap (map_of [("name", GoString "bedrock-mcp-client");
                     ("version", GoString "1.0.0")]))]).

(** The [notifyReq] of [Initialize]: a struct literal that sets no
    [ID], which is therefore 0. *)
Definition notifyReq : MCPRequest :=
  {| reqJSONRPC := "2.0"; reqID := 0; reqMethod := "notifications/initialized";
     reqParams := GoMap [] |}.

(** [Initialize] (the bytes of the notification's response are read
    and logged, nothing else). *)
Definition Initialize (c : ptr) : M unit :=
  _ <- sendRequest c "initialize" initializeParams ;;
  _ <- nextRequestID c ;;
  cl <- load c ;;
  let reqBody := marshal_MCPRequest notifyReq in
  bad <- NewRequest (baseURL cl) ;;
  match bad with
  | Some msg => throw (wrapError "failed to create notification request: " (libError msg))
  | None =>
      resp2 <- Do (baseURL cl) reqBody ;;
      match resp2 with
      | DoFails msg => throw (wrapError "notification request failed: " (libError msg))
      | Responds _ respBody =>
          let '(body, _, _) := ReadAll respBody in
          ret tt
      end
  end.

(** [ListTools]. *)
Definition ListTools (c : ptr) : M (list Tool) :=
  resp <- sendRequest c "tools/list" Nil ;;
  match Result resp with
  | GoMap resultMap =>
      match map_get "tools" resultMap with
      | Some toolsInterface =>
          let toolsBytes := marshal toolsInterface in
          match Unmarshal_Tools toolsBytes with
          | Failed e => throw (wrapError "failed to unmarshal tools: " (jsonError e))
          | Decoded tools => ret tools
          end
      | None => throw (errorString "no tools found in response")
      end
  | _ => throw (errorString "unexpected response format")
  end.

(** [CallTool]. *)
Definition CallTool (c : ptr) (toolCall : ToolCall) : M ToolResult :=
  let params :=
    GoMap (map_of [("name", GoString (callName toolCall));
                   ("arguments", GoMap (Arguments toolCall))]) in
  resp <- sendRequest c "tools/call" params ;;
  let resultBytes := marshal (Result resp) in
  match Unmarshal_ToolResult resultBytes with
  | Failed e => throw (wrapError "failed to unmarshal result: " (jsonError e))
  | Decoded result => ret result
  end.

(* ================================================================= *)
(** ** The client of the tool handler program (the [main] package
    with [BedrockToolHandler]), a sibling of the client above *)

Module ToolHandler.

(** [sendRequest]: the body is read twice, the second time from the
    drained stream; a body that is not JSON becomes a result
    [{"raw": body}]. *)
Definition sendRequest (c : ptr) (method : string) (params : any) : M MCPResponse :=
  id <- nextRequestID c ;;
  cl <- load c ;;
  let req := {| reqJSONRPC := "2.0"; reqID := id; reqMethod := method; reqParams := params |} in
  let reqBody := marshal_MCPRequest req in
  bad <- NewRequest (baseURL cl) ;;
  match bad with
  | Some msg => throw (wrapError "failed to create HTTP request: " (libError msg))
  | None =>
      resp <- Do (baseURL cl) reqBody ;;
      match resp with
      | DoFails msg => throw (wrapError "HTTP request failed: " (libError msg))
      | Responds StatusCode respBody =>
          let '(body, err, respBody) := ReadAll respBody in
          match err with
          | Some msg => throw (wrapError "failed to read response: " (libError msg))
          | None =>
              if negb (StatusCode =? 200)%Z then throw (httpError StatusCode body)
              else
                let '(body, err, _) := ReadAll respBody in
                match err with
                | Some msg => throw (wrapError "failed to read response: " (libError msg))
                | None =>
                    if (String.length body =? 0)%nat then ret (emptyResponse id)
                    else if HasPrefix body "event:" then
                      let jsonData := extractSSEData body in
                      if String.eqb jsonData "" then ret (emptyResponse id)
                      else envelope "failed to unmarshal SSE JSON data: " jsonData
                    else
                      match Unmarshal_MCPResponse body with
                      | Failed _ =>
                          ret {| JSONRPC := "2.0"; ID := id;
                                 Result := GoMap (map_of [("raw", GoString body)]);
                                 Error := None |}
                      | Decoded mcpResp =>
                          match Error mcpResp with
                          | Some e => throw (mcpError e)
                          | None => ret mcpResp
                          end
                      end
                end
          end
      end
  end.

(** [fmt.Errorf("notification error %d: %s", ...)]. *)
Definition notificationError (e : MCPError) : error :=
  errorString ("notification error " ++ Itoa (Code e) ++ ": " ++ Message e).

(** The check of the notification's response: an envelope that
    parses and has [Error] set is an error, anything else is not. *)
Definition checkNotification (text : string) : M unit :=
  match Unmarshal_MCPResponse text with
  | Decoded notifyResp =>
      match Error notifyResp with
      | Some e => throw (notificationError e)
      | None => ret tt
      end
  | Failed _ => ret tt
  end.

(** [Initialize], which parses the notification's response. *)
Definition Initialize (c : ptr) : M unit :=
  _ <- sendRequest c "initialize" initializeParams ;;
  _ <- nextRequestID c ;;
  cl <- load c ;;
  let reqBody := marshal_MCPRequest notifyReq in
  bad <- NewRequest (baseURL cl) ;;
  match bad with
  | Some msg => throw (wrapError "failed to create notification request: " (libError msg))
  | None =>
      resp2 <- Do (baseURL cl) reqBody ;;
      match resp2 with
      | DoFails msg => throw (wrapError "notification request failed: " (libError msg))
      | Responds _ respBody =>
          let '(body, err, _) := ReadAll respBody in
          match err with
          | Some msg =>
              throw (wrapError "failed to read notification response: " (libError msg))
          | None =>
              if (0 <? String.length body)%nat then
                if HasPrefix body "event:" then
                  let jsonData := extractSSEData body in
                  if negb (String.eqb jsonData "") then checkNotification jsonData
                  else ret tt
                else checkNotification body
              else ret tt
          end
      end
  end.

(** [ListTools] and [CallTool]: the text of the client above, on the
    [sendRequest] of this program. *)
Definition ListTools (c : ptr) : M (list Tool) :=
  resp <- sendRequest c "tools/list" Nil ;;
  match Result resp with
  | GoMap resultMap =>
      match map_get "tools" resultMap with
      | Some toolsInterface =>
          let toolsBytes := marshal toolsInterface in
          match Unmarshal_Tools toolsBytes with
          | Failed e => throw (wrapError "failed to unmarshal tools: " (jsonError e))
          | Decoded tools => ret tools
          end
      | None => throw (errorString "no tools found in response")
      end
  | _ => throw (errorString "unexpected response format")
  end.

Definition CallTool (c : ptr) (toolCall : ToolCall) : M ToolResult :=
  let params :=
    GoMap (map_of [("name", GoString (callName toolCall));
                   ("arguments", GoMap (Arguments toolCall))]) in
  resp <- sendRequest c "tools/call" params ;;
  let resultBytes := marshal (Result resp) in
  match Unmarshal_ToolResult resultBytes with
  | Failed e => throw (wrapError "failed to unmarshal result: " (jsonError e))
  | Decoded result => ret result
  end.

End ToolHandler.

(* ================================================================= *)
(** ** Action groups and the inline agent *)

Record ActionGroup : Type := {
  groupName : string;
  MCPClients : list ptr;
  Tools : list Tool
}.

(** [InlineAgent]; its [bedrockClient] is the model of the world. *)
Record InlineAgent : Type := {
  FoundationModel : string;
  Instruction : string;
  AgentName : string;
  ActionGroups : list ActionGroup
}.

(** The loop of [AddActionGroup] over the clients of the group, with
    the tools collected so far. *)
Fixpoint addClients (mcpClients : list ptr) (tools : list Tool) : M (list Tool) :=
  match mcpClients with
  | [] => ret tools
  | mcpClient :: rest =>
      r <- try (Initialize mcpClient) ;;
      match r with
      | inr err =>
          cl <- load mcpClient ;;
          throw (wrapError ("failed to initialize MCP client " ++ baseURL cl ++ ": ") err)
      | inl _ =>
          r <- try (ListTools mcpClient) ;;
          match r with
          | inr err =>
              cl <- load mcpClient ;;
              throw (wrapError ("failed to list tools from " ++ baseURL cl ++ ": ") err)
          | inl tools' => addClients rest (tools ++ tools')%list
          end
      end
  end.

(** [AddActionGroup]: the agent with the group appended, or the error
    that leaves the agent as it was. *)
Definition AddActionGroup (a : InlineAgent) (actionGroup : ActionGroup) : M InlineAgent :=
  tools <- addClients (MCPClients actionGroup) (Tools actionGroup) ;;
  ret {| FoundationModel := FoundationModel a;
         Instruction := Instruction a;
         AgentName := AgentName a;
         ActionGroups :=
           (ActionGroups a ++
            [{| groupName := groupName actionGroup;
                MCPClients := MCPClients actionGroup;
                Tools := tools |}])%list |}.

(** [buildToolConfig] (the document encoder accepts every schema that
    was read from JSON). *)
Definition buildToolConfig (a : InlineAgent) : list types.ToolSpecification :=
  flat_map
    (fun actionGroup =>
       map (fun tool =>
              {| types.SpecName := Name tool;
                 types.SpecDescription := Description tool;
                 types.SpecInputSchema :=
                   types.Document
                     (match InputSchema tool with Some m => GoMap m | None => Nil end) |})
           (Tools actionGroup))
    (ActionGroups a).

(** The inner loop of [findMCPClientForTool] over the tools of one
    group: [Some c] when the loop returns [c], [None] when it ends. *)
Fixpoint findInGroup (tools : list Tool) (mcpClients : list ptr) (toolName : string)
  : option ptr :=
  match tools with
  | [] => None
  | tool :: rest =>
      if String.eqb (Name tool) toolName then
        match mcpClients with
        | first :: _ => Some first
        | [] => findInGroup rest mcpClients toolName
        end
      else findInGroup rest mcpClients toolName
  end.

Fixpoint findInGroups (groups : list ActionGroup) (toolName : string) : ptr :=
  match groups with
  | [] => None
  | actionGroup :: rest =>
      match findInGroup (Tools actionGroup) (MCPClients actionGroup) toolName with
      | Some c => c
      | None => findInGroups rest toolName
      end
  end.

(** [findMCPClientForTool]. *)
Definition findMCPClientForTool (a : InlineAgent) (toolName : string) : ptr :=
  findInGroups (ActionGroups a) toolName.

(* ================================================================= *)
(** ** Tool use and the conversation loop *)

(** The values the agent keeps in its [map[string]interface{}]s: JSON
    values, a [[]map[string]interface{}], or a document of the SDK. *)
Inductive iface : Type :=
| IAny (v : any)
| IMaps (l : list gomap)
| IDocument (d : types.document).

Definition imap : Type := list (string * iface).

(** The type assertions [x.(string)], [x.(map[string]interface{})]
    and [x.([]map[string]interface{})] on the entry of a map. *)
Definition asString (x : option iface) : option string :=
  match x with
  | Some (IAny (GoString s)) => Some s
  | _ => None
  end.

Definition asMap (x : option iface) : option gomap :=
  match x with
  | Some (IAny (GoMap m)) => Some m
  | _ => None
  end.

Definition asMaps (x : option iface) : option (list gomap) :=
  match x with
  | Some (IMaps l) => Some l
  | _ => None
  end.

(** The map [handleToolUse] returns. *)
Definition toolResultMap (toolUseID : string) (content : list gomap) (status : string) : imap :=
  map_of [("toolUseId", IAny (GoString toolUseID));
          ("content", IMaps content);
          ("status", IAny (GoString status))].

Definition textBlock (text : string) : gomap := map_of [("text", GoString text)].

Section Orchestrator.

(** The text [Error()] gives for an error of [encoding/json]. *)
Variable json_error_text : Json.error -> string.

(** [err.Error()], what [%v] prints. *)
Fixpoint ErrorText (e : error) : string :=
  match e with
  | errorString msg => msg
  | wrapError msg cause => msg ++ ErrorText cause
  | libError msg => msg
  | jsonError e => json_error_text e
  end.

(** [handleToolUse]. *)
Definition handleToolUse (a : InlineAgent) (toolUse : imap) : M imap :=
  let toolUseID :=
    match asString (map_get "toolUseId" toolUse) with Some s => s | None => "" end in
  match asString (map_get "name" toolUse) with
  | None => throw (errorString "missing tool name")
  | Some name =>
      let input :=
        match asMap (map_get "input" toolUse) with Some m => m | None => [] end in
      match findMCPClientForTool a name with
      | None =>
          ret (toolResultMap toolUseID
                 [textBlock ("Tool '" ++ name ++ "' not found")] "error")
      | Some addr =>
          r <- try (CallTool (Some addr) {| callName := name; Arguments := input |}) ;;
          match r with
          | inr err =>
              ret (toolResultMap toolUseID
                     [textBlock ("Error executing tool: " ++ ErrorText err)] "error")
          | inl result =>
              ret (toolResultMap toolUseID
                     (map (fun block => textBlock (Text block)) (Content result))
                     (if IsError result then "error" else "success"))
          end
      end
  end.

(** The map [Invoke] makes of a tool-use block; [*c.Value.ToolUseId]
    and [*c.Value.Name] dereference pointers. *)
Definition toolUseOf (v : types.ToolUseBlock) : M imap :=
  match types.ToolUseId v with
  | None => panic nilDereference
  | Some toolUseId =>
      match types.Name v with
      | None => panic nilDereference
      | Some name =>
          ret (map_of [("toolUseId", IAny (GoString toolUseId));
                       ("name", IAny (GoString name));
                       ("input", IDocument (types.Input v))])
      end
  end.

(** The loop of [Invoke] over the content of the assistant's message. *)
Fixpoint scanContent (content : list types.ContentBlock) (toolUses : list imap)
    (textResponse : string) : M (list imap * string) :=
  match content with
  | [] => ret (toolUses, textResponse)
  | types.ContentBlockMemberText v :: rest =>
      scanContent rest toolUses (textResponse ++ v)
  | types.ContentBlockMemberToolUse v :: rest =>
      toolUse <- toolUseOf v ;;
      scanContent rest (toolUses ++ [toolUse])%list textResponse
  | _ :: rest => scanContent rest toolUses textResponse
  end.

(** The texts of the content maps, one after the other. *)
Fixpoint contentText (content : list gomap) (acc : string) : string :=
  match content with
  | [] => acc
  | c :: rest =>
      match map_get "text" c with
      | Some (GoString text) => contentText rest (acc ++ text)
      | _ => contentText rest acc
      end
  end.

Definition interfaceConversion : string := "interface conversion".

(** The conversion of the handler's map to the block of Bedrock. *)
Definition toolResultOf (result : imap) : M types.ContentBlock :=
  match asString (map_get "toolUseId" result) with
  | None => panic interfaceConversion
  | Some toolUseID =>
      match asMaps (map_get "content" result) with
      | None => panic interfaceConversion
      | Some content =>
          ret (types.ContentBlockMemberToolResult
                 {| types.ResultToolUseId := Some toolUseID;
                    types.ResultContent :=
                      [types.ToolResultContentBlockMemberText (contentText content "")];
                    types.Status := "" |})
      end
  end.

(** The loop of [Invoke] over the tool uses. *)
Fixpoint processToolUses (a : InlineAgent) (toolUses : list imap)
    (toolResults : list types.ContentBlock) : M (list types.ContentBlock) :=
  match toolUses with
  | [] => ret toolResults
  | toolUse :: rest =>
      r <- try (handleToolUse a toolUse) ;;
      match r with
      | inr err => throw (wrapError "tool execution failed: " err)
      | inl result =>
          toolResult <- toolResultOf result ;;
          processToolUses a rest (toolResults ++ [toolResult])%list
      end
  end.

Definition withMessages (input : types.ConverseInput) (messages : list types.Message)
  : types.ConverseInput :=
  {| types.ModelId := types.ModelId input;
     types.Messages := messages;
     types.System := types.System input;
     types.ToolConfig := types.ToolConfig input |}.

(** The conversation loop of [Invoke]; the source puts no bound on
    it, [fuel] is the number of turns it is followed for. *)
Fixpoint conversation (fuel : nat) (a : InlineAgent) (input : types.ConverseInput)
    (messages : list types.Message) : M string :=
  match fuel with
  | O => fun w => (Unfinished, w)
  | S fuel' =>
      result <- Converse input ;;
      match result with
      | ConverseFails msg => throw (wrapError "bedrock converse failed: " (libError msg))
      | ConverseReturns content =>
          let messages :=
            (messages ++ [{| types.Role := types.ConversationRoleAssistant;
                             types.Content := content |}])%list in
          scanned <- scanContent content [] "" ;;
          match fst scanned with
          | [] => ret (snd scanned)
          | toolUses =>
              toolResults <- processToolUses a toolUses [] ;;
              let messages :=
                (messages ++ [{| types.Role := types.ConversationRoleUser;
                                 types.Content := toolResults |}])%list in
              conversation fuel' a (withMessages input messages) messages
          end
      end
  end.

(** [Invoke]. *)
Definition Invoke (fuel : nat) (a : InlineAgent) (inputText : string) : M string :=
  let messages :=
    [{| types.Role := types.ConversationRoleUser;
        types.Content := [types.ContentBlockMemberText inputText] |}] in
  let toolConfig := buildToolConfig a in
  let input :=
    {| types.ModelId := FoundationModel a;
       types.Messages := messages;
       types.System := [Instruction a];
       types.ToolConfig :=
         match toolConfig with [] => None | _ => Some toolConfig end |} in
  conversation fuel a input messages.

End Orchestrator.

(* ================================================================= *)
(** ** The tool handler program: [BedrockToolHandler] and [main] *)

Module Handler.

(** [BedrockToolHandler]. *)
Record BedrockToolHandler : Type := {
  mcpClient : ptr
}.

(** [NewBedrockToolHandler]. *)
Definition NewBedrockToolHandler (mcpServerURL : string) : M BedrockToolHandler :=
  c <- NewMCPClient mcpServerURL ;;
  ret {| mcpClient := c |}.

(** [Initialize] of the handler. *)
Definition Initialize (h : BedrockToolHandler) : M (list Tool) :=
  r <- try (ToolHandler.Initialize (mcpClient h)) ;;
  match r with
  | inr err => throw (wrapError "failed to initialize MCP client: " err)
  | inl _ =>
      r <- try (ToolHandler.ListTools (mcpClient h)) ;;
      match r with
      | inr err => throw (wrapError "failed to list tools: " err)
      | inl tools => ret tools
      end
  end.

(** [ConvertToolsForBedrock]. *)
Definition ConvertToolsForBedrock (tools : list Tool) : list gomap :=
  map (fun tool =>
         map_of
           [("toolSpec",
             GoMap (map_of
               [("name", GoString (Name tool));
                ("description", GoString (Description tool));
                ("inputSchema",
                 GoMap (map_of
                   [("json",
                     match InputSchema tool with Some m => GoMap m | None => Nil end)]))]))])
      tools.

Section Program.

Variable json_error_text : Json.error -> string.

(** [HandleToolUse]. *)
Definition HandleToolUse (h : BedrockToolHandler) (toolUse : imap) : M imap :=
  let toolUseID :=
    match asString (map_get "toolUseId" toolUse) with Some s => s | None => "" end in
  match asString (map_get "name" toolUse) with
  | None => throw (errorString "missing tool name")
  | Some name =>
      let input :=
        match asMap (map_get "input" toolUse) with Some m => m | None => [] end in
      r <- try (ToolHandler.CallTool (mcpClient h) {| callName := name; Arguments := input |}) ;;
      match r with
      | inr err =>
          ret (toolResultMap toolUseID
                 [textBlock ("Error executing tool: " ++ ErrorText json_error_text err)]
                 "error")
      | inl result =>
          ret (toolResultMap toolUseID
                 (map (fun block => textBlock (Text block)) (Content result))
                 (if IsError result then "error" else "success"))
      end
  end.

(** How [main] ends: with [log.Fatal], or serving its two endpoints
    for the handler and the tools it has converted. *)
Inductive ending : Type :=
| Fatal (msg : string)
| Serving (handler : BedrockToolHandler) (bedrockTools : list gomap).

(** The loop of [main] over the endpoints: the first handler whose
    client can be initialized, nil when there is none. *)
Fixpoint connect (mcpEndpoints : list string) : M (option BedrockToolHandler) :=
  match mcpEndpoints with
  | [] => ret None
  | endpoint :: rest =>
      testHandler <- NewBedrockToolHandler endpoint ;;
      r <- try (ToolHandler.Initialize (mcpClient testHandler)) ;;
      match r with
      | inr _ => connect rest
      | inl _ => ret (Some testHandler)
      end
  end.

(** [main], up to the point where it starts to serve. *)
Definition main : M ending :=
  handler <- connect ["http://localhost:3001/mcp"] ;;
  match handler with
  | None =>
      ret (Fatal ("Could not connect to MCP server at any of the attempted endpoints. "
                  ++ "Please check:"))
  | Some handler =>
      r <- try (Initialize handler) ;;
      match r with
      | inr err => ret (Fatal ("Failed to initialize: " ++ ErrorText json_error_text err))
      | inl tools => ret (Serving handler (ConvertToolsForBedrock tools))
      end
  end.

End Program.

End Handler.

(* ================================================================= *)
(** ** The vocabulary of the statements *)

(** *** What [sendRequest] does, step by step *)

(** The world after the client at [a] has counted one request more. *)
Definition counted (w : World) (a : nat) (cl : MCPClient) : World :=
  with_clients w
    (update (clients w) a
       {| baseURL := baseURL cl; requestID := wrap64 (requestID cl + 1) |}).

(** The world after it has posted the request as well. *)
Definition posted (w : World) (a : nat) (cl : MCPClient) (method : string) (params : any)
  : World :=
  with_sent (counted w a cl)
    (sent w ++
     [(baseURL cl,
       marshal_MCPRequest
         {| reqJSONRPC := "2.0"; reqID := wrap64 (requestID cl + 1);
            reqMethod := method; reqParams := params |})])%list.

(** What an envelope that was decoded, or was not, comes to. *)
Definition enveloped (onFailure : string) (d : decoded MCPResponse) : outcome MCPResponse :=
  match d with
  | Failed je => Err (wrapError onFailure (jsonError je))
  | Decoded mcpResp =>
      match Error mcpResp with
      | Some e => Err (mcpError e)
      | None => Ok mcpResp
      end
  end.

(** What a response that was read comes to. *)
Definition received (id : Z) (StatusCode : Z) (body : string) : outcome MCPResponse :=
  if negb (StatusCode =? 200)%Z then Err (httpError StatusCode body)
  else if (String.length body =? 0)%nat then Ok (emptyResponse id)
  else if HasPrefix body "event:" then
    if String.eqb (extractSSEData body) "" then Ok (emptyResponse id)
    else enveloped "failed to unmarshal SSE JSON data: "
           (Unmarshal_MCPResponse (extractSSEData body))
  else enveloped "failed to unmarshal response: " (Unmarshal_MCPResponse body).

(** What an exchange comes to. *)
Definition answered (id : Z) (ex : exchange) : outcome MCPResponse :=
  match ex with
  | DoFails msg => Err (wrapError "HTTP request failed: " (libError msg))
  | Responds status b =>
      match failure b with
      | Some msg => Err (wrapError "failed to read response: " (libError msg))
      | None => received id status (data b)
      end
  end.

(** The text an envelope is read from: the body, or the data line of
    a body in SSE framing. *)
Definition payload (body : string) : string :=
  if HasPrefix body "event:" then extractSSEData body else body.

(** *** Lines of text *)

(** The character [c] does not occur in [s]. *)
Fixpoint free_of (c : ascii) (s : string) : bool :=
  match s with
  | EmptyString => true
  | String x s' => negb (Ascii.eqb x c) && free_of c s'
  end.

(** The text of lines that end in a line feed each. *)
Fixpoint unlines (ls : list string) : string :=
  match ls with
  | [] => ""
  | l :: rest => l ++ String LF (unlines rest)
  end.

(** A line that does not start a data field. *)
Definition plain_line (l : string) : Prop :=
  free_of LF l = true /\ HasPrefix l "data:" = false.

(** A line the scanner can hold: shorter than 64 KiB. *)
Definition fits (l : string) : Prop := Scanner.tooLong l = false.

(** *** Worlds that differ in the clients' request counters and in
    their past only *)

Definition similar (w1 w2 : World) : Prop :=
  (forall url, bad_url w1 url = bad_url w2 url)
  /\ (forall n,
        network w1 (List.length (sent w1) + n) = network w2 (List.length (sent w2) + n))
  /\ map baseURL (clients w1) = map baseURL (clients w2).

Definition rel_outcome {A : Type} (R : A -> A -> Prop) (o1 o2 : outcome A) : Prop :=
  match o1, o2 with
  | Ok a, Ok b => R a b
  | Err e1, Err e2 => e1 = e2
  | Panic m1, Panic m2 => m1 = m2
  | Unfinished, Unfinished => True
  | _, _ => False
  end.

(** Two computations that end alike in similar worlds, and leave
    similar worlds. *)
Definition related {A : Type} (R : A -> A -> Prop) (m1 m2 : M A) : Prop :=
  forall w1 w2, similar w1 w2 ->
    rel_outcome R (fst (m1 w1)) (fst (m2 w2)) /\ similar (snd (m1 w1)) (snd (m2 w2)).

(** Envelopes that agree but for their [ID]. *)
Definition same_envelope (r1 r2 : MCPResponse) : Prop :=
  JSONRPC r1 = JSONRPC r2 /\ Result r1 = Result r2 /\ Error r1 = Error r2.

(** *** The registry *)

(** Some tool of the list is called [toolName]. *)
Definition offers (toolName : string) (tools : list Tool) : bool :=
  existsb (fun tool => String.eqb (Name tool) toolName) tools.

(** What a registration knows and the agent does not keep: for every
    client of a group, the tools that client listed. *)
Definition registration : Type := list (ptr * list Tool).

(** The group [AddActionGroup] makes of a registration. *)
Definition groupOf (named : string * registration) : ActionGroup :=
  {| groupName := fst named;
     MCPClients := map fst (snd named);
     Tools := flat_map snd (snd named) |}.

(** In the words of the specification: the client that owns the first
    matching tool, in the order of the groups, then of the tools within
    each group. *)
Definition firstOwner (registered : list (string * registration)) (toolName : string)
  : ptr :=
  match find (fun served => offers toolName (snd served)) (flat_map snd registered) with
  | Some served => fst served
  | None => None
  end.

(** A group that has a tool of that name, and a client. *)
Definition answers (toolName : string) (g : ActionGroup) : bool :=
  offers toolName (Tools g) && negb (Nat.eqb (List.length (MCPClients g)) 0).

(** *** Tool use *)

Fixpoint joined (texts : list string) : string :=
  match texts with
  | [] => ""
  | text :: rest => text ++ joined rest
  end.

(** The block of Bedrock for a tool result: the id, one text, and no
    status. *)
Definition toolResultBlock (toolUseID text : string) : types.ContentBlock :=
  types.ContentBlockMemberToolResult
    {| types.ResultToolUseId := Some toolUseID;
       types.ResultContent := [types.ToolResultContentBlockMemberText text];
       types.Status := "" |}.

(** The arguments [handleToolUse] passes on. *)
Definition inputOf (toolUse : imap) : gomap :=
  match asMap (map_get "input" toolUse) with
  | Some m => m
  | None => []
  end.

(** One turn of the conversation, with [next] for the turns after it. *)
Definition turn (json_error_text : Json.error -> string)
    (next : types.ConverseInput -> list types.Message -> M string)
    (a : InlineAgent) (input : types.ConverseInput) (messages : list types.Message)
  : M string :=
  result <- Converse input ;;
  match result with
  | ConverseFails msg => throw (wrapError "bedrock converse failed: " (libError msg))
  | ConverseReturns content =>
      let messages :=
        (messages ++ [{| types.Role := types.ConversationRoleAssistant;
                         types.Content := content |}])%list in
      scanned <- scanContent content [] "" ;;
      match fst scanned with
      | [] => ret (snd scanned)
      | toolUses =>
          toolResults <- processToolUses json_error_text a toolUses [] ;;
          let messages :=
            (messages ++ [{| types.Role := types.ConversationRoleUser;
                             types.Content := toolResults |}])%list in
          next (withMessages input messages) messages
      end
  end.

(* ================================================================= *)
(** ** Servers, models and agents for the examples *)

(** A response with status 200 and the given body. *)
Definition reply (body : string) : exchange :=
  Responds 200 {| data := body; failure := None |}.

(** A world without clients, whose servers answer with [replies] (and
    refuse the connection after that) and whose model answers with
    [turns]. *)
Definition world_of (replies : list exchange) (turns : list converse) : World :=
  {| clients := [];
     bad_url := fun _ => None;
     network := fun n => nth n replies (DoFails "connection refused");
     sent := [];
     backend := fun n => nth n turns (ConverseFails "no more turns");
     asked := [] |}.

Definition localhost : string := "http://localhost:3001/mcp".

Definition newClient : MCPClient := {| baseURL := localhost; requestID := 0 |}.

(** The world after [NewMCPClient(localhost)]: the client is at
    address 0. *)
Definition one_client (replies : list exchange) : World :=
  snd (NewMCPClient localhost (world_of replies [])).

(** The texts of the errors of [encoding/json], for the examples (no
    statement depends on them). *)
Definition errorText (e : Json.error) : string :=
  match e with
  | SyntaxError => "invalid character"
  | UnmarshalTypeError => "json: cannot unmarshal"
  end.

Definition initializeReply : exchange :=
  reply (json "{'jsonrpc':'2.0','id':1,'result':{'protocolVersion':'2024-11-05','capabilities':{'tools':{}},'serverInfo':{'name':'time','version':'1.0.0'}}}").

Definition toolsReply (name : string) : exchange :=
  reply (json ("{'jsonrpc':'2.0','id':3,'result':{'tools':[{'name':'" ++ name
               ++ "','description':'','inputSchema':{'type':'object'}}]}}")).

Definition tool (name : string) : Tool :=
  {| Name := name; Description := ""; InputSchema := Some [("type", GoString "object")] |}.

Definition callReply : exchange :=
  reply (json "{'jsonrpc':'2.0','id':1,'result':{'content':[{'type':'text','text':'12:00:00Z'}]}}").

Definition timeCall : ToolCall := {| callName := "time"; Arguments := [] |}.

Definition timeResult : ToolResult :=
  {| Content := [{| Type_ := "text"; Text := "12:00:00Z" |}]; IsError := false |}.

(** A fresh client, and the same client after [Initialize], in front
    of the same server. *)
Definition freshWorld : World := one_client [toolsReply "time"].

Definition readyWorld : World :=
  snd (Initialize (Some 0) (one_client [initializeReply; reply ""; toolsReply "time"])).

Definition initializeTwice : M unit :=
  _ <- Initialize (Some 0) ;; Initialize (Some 0).

Definition twiceWorld : World :=
  one_client [initializeReply; reply ""; initializeReply; reply ""].

(** The server answers the notification with an error envelope. *)
Definition invalidRequest : MCPError :=
  {| Code := -32600; Message := "Invalid Request"; Data := Nil |}.

Definition errorReply : exchange :=
  reply (json "{'jsonrpc':'2.0','id':0,'error':{'code':-32600,'message':'Invalid Request'}}").

Definition refusedWorld : World := one_client [initializeReply; errorReply].

Definition handshakeWorld : World := one_client [initializeReply; reply ""].

Definition notificationBody : string :=
  json "{'jsonrpc':'2.0','id':0,'method':'notifications/initialized','params':{}}".

(** Statuses other than 200. *)
Definition accepted : exchange := Responds 202 {| data := ""; failure := None |}.

Definition notFound : exchange := Responds 404 {| data := "Not Found"; failure := None |}.

(** An error envelope, plain and in SSE framing. *)
Definition methodNotFound : MCPError :=
  {| Code := -32601; Message := "Method not found"; Data := Nil |}.


Definition methodNotFoundBody : string :=
  json "{'jsonrpc':'2.0','id':1,'error':{'code':-32601,'message':'Method not found'}}".


(** The SSE body of the specification's example, and one whose data
    line is blank. *)
Definition toolsPayload : string :=
  json " {'jsonrpc':'2.0','id':1,'result':{'tools':[]}}".

Definition sseBody : string :=
  unlines ["event: message"] ++ "data:" ++ toolsPayload ++ String LF "".

Definition blankDataBody : string := unlines ["event: message"; "data:  "].

(** Three servers: the first lists the tool [a], the second and the
    third list [echo].  The first two are registered as one group, the
    third as another. *)
Definition emptyAgent : InlineAgent :=
  {| FoundationModel := "us.anthropic.claude-3-5-sonnet-20241022-v2:0";
     Instruction :=
       "You are a friendly assistant for resolving user queries using available tools.";
     AgentName := "SampleAgent";
     ActionGroups := [] |}.

Definition agentOf (registered : list (string * registration)) : InlineAgent :=
  {| FoundationModel := FoundationModel emptyAgent;
     Instruction := Instruction emptyAgent;
     AgentName := AgentName emptyAgent;
     ActionGroups := map groupOf registered |}.

Definition threeServers : World :=
  world_of [initializeReply; reply ""; toolsReply "a";
            initializeReply; reply ""; toolsReply "echo";
            initializeReply; reply ""; toolsReply "echo"] [].

Definition registerThree : M InlineAgent :=
  c0 <- NewMCPClient "http://localhost:3001/mcp" ;;
  c1 <- NewMCPClient "http://localhost:3002/mcp" ;;
  c2 <- NewMCPClient "http://localhost:3003/mcp" ;;
  a <- AddActionGroup emptyAgent {| groupName := "G"; MCPClients := [c0; c1]; Tools := [] |} ;;
  AddActionGroup a {| groupName := "H"; MCPClients := [c2]; Tools := [] |}.

Definition threeRegistered : list (string * registration) :=
  [("G", [(Some 0, [tool "a"]); (Some 1, [tool "echo"])]);
   ("H", [(Some 2, [tool "echo"])])].

Definition twoGroups : list (string * registration) :=
  [("G", [(Some 0, [tool "echo"])]); ("H", [(Some 1, [tool "echo"])])].

(** A group that brings a tool and no client, and an agent that has
    this group before a group whose client has listed a tool of the
    same name. *)
Definition bareGroup : ActionGroup :=
  {| groupName := "B"; MCPClients := []; Tools := [tool "echo"] |}.

Definition bareFirst : InlineAgent :=
  {| FoundationModel := FoundationModel emptyAgent;
     Instruction := Instruction emptyAgent;
     AgentName := AgentName emptyAgent;
     ActionGroups := [bareGroup; groupOf ("H", [(Some 0, [tool "echo"])])] |}.

(** An agent with the tool [time], its server, and a model that asks
    for the tool once. *)
Definition timeToolUse : types.ToolUseBlock :=
  {| types.Input := types.Document (GoMap [("format", GoString "RFC3339")]);
     types.Name := Some "time";
     types.ToolUseId := Some "tooluse_1" |}.

Definition timeAgent : InlineAgent :=
  agentOf [("SampleActionGroup", [(Some 0, [tool "time"])])].

Definition timeWorld : World :=
  {| clients := [{| baseURL := localhost; requestID := 3 |}];
     bad_url := fun _ => None;
     network := fun n => nth n [callReply] (DoFails "connection refused");
     sent := [];
     backend := fun n =>
       nth n [ConverseReturns [types.ContentBlockMemberToolUse timeToolUse];
              ConverseReturns [types.ContentBlockMemberText "It is now 12:00:00Z"]]
         (ConverseFails "no more turns");
     asked := [] |}.

Definition userMessage (text : string) : types.Message :=
  {| types.Role := types.ConversationRoleUser;
     types.Content := [types.ContentBlockMemberText text] |}.

Definition timeToolUseMap : imap :=
  map_of [("toolUseId", IAny (GoString "tooluse_1"));
          ("name", IAny (GoString "time"));
          ("input", IDocument (types.Input timeToolUse))].

Definition unknownToolUse : imap :=
  map_of [("toolUseId", IAny (GoString "tooluse_2"));
          ("name", IAny (GoString "X"));
          ("input", IDocument (types.Document Nil))].

Definition namelessToolUse : imap :=
  map_of [("toolUseId", IAny (GoString "tooluse_3"))].

(** A tool result of two blocks, flagged as an error. *)
Definition twoBlocks : ToolResult :=
  {| Content := [{| Type_ := "text"; Text := "12:00" |};
                 {| Type_ := "text"; Text := ":00Z" |}];
     IsError := true |}.

Definition twoBlocksReply : exchange :=
  reply (json "{'jsonrpc':'2.0','id':4,'result':{'content':[{'type':'text','text':'12:00'},{'type':'text','text':':00Z'}],'isError':true}}").

Definition twoBlocksWorld : World := one_client [twoBlocksReply].

(** A model that asks for a tool without naming it. *)
Definition namelessTurn : converse :=
  ConverseReturns
    [types.ContentBlockMemberToolUse
       {| types.Input := types.Document Nil;
          types.Name := None;
          types.ToolUseId := Some "tooluse_1" |}].

Definition namelessWorld : World := world_of [] [namelessTurn].

(* ================================================================= *)
(** ** More vocabulary, and more examples *)

(** A response whose envelope answers some other request, in some
    other version of the protocol. *)
Definition staleReply : exchange :=
  reply (json "{'jsonrpc':'1.0','id':99,'result':true}").

(** The world after the client at [a] has counted once more and has
    posted the notification of [Initialize]. *)
Definition notified (w : World) (a : nat) (cl : MCPClient) : World :=
  with_sent (counted w a cl) (sent w ++ [(baseURL cl, marshal_MCPRequest notifyReq)])%list.

(** The client at [a] after it has counted [n] requests. *)
Definition after (n : nat) (cl : MCPClient) : MCPClient :=
  {| baseURL := baseURL cl;
     requestID := Nat.iter n (fun id => wrap64 (id + 1)) (requestID cl) |}.

(** The URL of the client behind a pointer (the empty text for a
    pointer to nothing). *)
Definition urlOf (w : World) (c : ptr) : string :=
  match c with
  | Some a =>
      match nth_error (clients w) a with
      | Some cl => baseURL cl
      | None => ""
      end
  | None => ""
  end.

(** [w'] is [w] after its clients have made the requests [more]: the
    clients have counted, and nothing else has changed. *)
Definition requested (more : list (string * string)) (w w' : World) : Prop :=
  bad_url w' = bad_url w /\ network w' = network w /\ backend w' = backend w
  /\ asked w' = asked w /\ map baseURL (clients w') = map baseURL (clients w)
  /\ sent w' = (sent w ++ more)%list.

(** A pointer to a client of the world. *)
Definition present (w : World) (c : ptr) : Prop :=
  exists a cl, c = Some a /\ nth_error (clients w) a = Some cl.

(** An agent all of whose clients exist. *)
Definition sound (w : World) (a : InlineAgent) : Prop :=
  Forall (fun g => Forall (present w) (MCPClients g)) (ActionGroups a).

(** The run of [AddActionGroup] over the clients of a registration,
    from the world [w] to the world [w']: each client in turn is
    initialized and then lists its tools, in the world the client
    before it has left. *)
Fixpoint listed (r : registration) (w w' : World) : Prop :=
  match r with
  | [] => w' = w
  | served :: r' =>
      exists w1 w2,
        Initialize (fst served) w = (Ok tt, w1)
        /\ ListTools (fst served) w1 = (Ok (snd served), w2)
        /\ listed r' w2 w'
  end.

(** The three requests of the registration of a client: initialize
    under the next id of the client, the notification, and tools/list
    under the third id from there (the notification has counted). *)
Definition registrationRequests (cl : MCPClient) : list (string * string) :=
  [(baseURL cl,
    marshal_MCPRequest
      {| reqJSONRPC := "2.0"; reqID := requestID (after 1 cl);
         reqMethod := "initialize"; reqParams := initializeParams |});
   (baseURL cl, marshal_MCPRequest notifyReq);
   (baseURL cl,
    marshal_MCPRequest
      {| reqJSONRPC := "2.0"; reqID := requestID (after 3 cl);
         reqMethod := "tools/list"; reqParams := Nil |})].

(** The requests of the registration of the clients of a group, one
    client after the other, when the clients of the world are [cls]:
    a client that is in the group twice goes on counting. *)
Fixpoint groupRequests (mcpClients : list ptr) (cls : list MCPClient)
  : list (string * string) :=
  match mcpClients with
  | Some a :: rest =>
      match nth_error cls a with
      | Some cl => registrationRequests cl ++ groupRequests rest (update cls a (after 3 cl))
      | None => []
      end
  | _ => []
  end.

(** The group of the example program, and a server for its client. *)
Definition sampleGroup : ActionGroup :=
  {| groupName := "SampleActionGroup"; MCPClients := [Some 0]; Tools := [] |}.

Definition timeServer : World := one_client [initializeReply; reply ""; toolsReply "time"].

(** The id [handleToolUse] reads from a tool use: the empty text when
    the map has no string under "toolUseId". *)
Definition idOf (toolUse : imap) : string :=
  match asString (map_get "toolUseId" toolUse) with
  | Some s => s
  | None => ""
  end.

(** A tool use with a name. *)
Definition named (toolUse : imap) : Prop :=
  exists name, asString (map_get "name" toolUse) = Some name.

(** The texts of the text blocks of a message, one after the other. *)
Fixpoint textOf (content : list types.ContentBlock) : string :=
  match content with
  | [] => ""
  | types.ContentBlockMemberText v :: rest => v ++ textOf rest
  | _ :: rest => textOf rest
  end.

Definition asksForTool (block : types.ContentBlock) : bool :=
  match block with
  | types.ContentBlockMemberToolUse _ => true
  | _ => false
  end.

(** The input of the first call of the model in [Invoke]. *)
Definition firstInput (a : InlineAgent) (inputText : string) : types.ConverseInput :=
  {| types.ModelId := FoundationModel a;
     types.Messages := [userMessage inputText];
     types.System := [Instruction a];
     types.ToolConfig :=
       match buildToolConfig a with
       | [] => None
       | _ => Some (buildToolConfig a)
       end |}.

(** The calls of the model that follow the call with the messages
    [prev], made in the world [w]: the model has answered that call
    with a content that asks for tools, the tool uses of the content
    have been processed, and the next call has the messages of the
    call before it, then the reply of the assistant, then one message
    of the user with the results of the tools; the other fields of
    [first] stay. *)
Fixpoint continues (json_error_text : Json.error -> string) (a : InlineAgent)
    (first : types.ConverseInput) (prev : list types.Message) (w : World)
    (inputs : list types.ConverseInput) : Prop :=
  match inputs with
  | [] => True
  | input :: rest =>
      exists content scanned toolResults w1 w2,
        Converse (withMessages first prev) w = (Ok (ConverseReturns content), w1)
        /\ scanContent content [] "" w1 = (Ok scanned, w1)
        /\ fst scanned <> []
        /\ processToolUses json_error_text a (fst scanned) [] w1 = (Ok toolResults, w2)
        /\ input =
           withMessages first
             (prev ++
              [{| types.Role := types.ConversationRoleAssistant; types.Content := content |};
               {| types.Role := types.ConversationRoleUser;
                  types.Content := toolResults |}])%list
        /\ continues json_error_text a first (types.Messages input) w2 rest
  end.

(** What an exchange comes to in the [sendRequest] of the tool handler
    program: the body of a response with status 200 is not seen. *)
Definition drained (id : Z) (ex : exchange) : outcome MCPResponse :=
  match ex with
  | DoFails msg => Err (wrapError "HTTP request failed: " (libError msg))
  | Responds status b =>
      match failure b with
      | Some msg => Err (wrapError "failed to read response: " (libError msg))
      | None =>
          if negb (status =? 200)%Z then Err (httpError status (data b))
          else Ok (emptyResponse id)
      end
  end.

(** What the response to the notification comes to there. *)
Definition checked (text : string) : outcome unit :=
  match Unmarshal_MCPResponse text with
  | Decoded notifyResp =>
      match Error notifyResp with
      | Some e => Err (ToolHandler.notificationError e)
      | None => Ok tt
      end
  | Failed _ => Ok tt
  end.

(** A model that answers with two texts and a block of another kind. *)
Definition greetingWorld : World :=
  world_of []
    [ConverseReturns [types.ContentBlockMemberText "Hello"; types.ContentBlockMemberOther;
                      types.ContentBlockMemberText " there"]].

(** A handler for the client at address 0, and a tool use with a map
    as its input. *)
Definition timeHandler : Handler.BedrockToolHandler :=
  {| Handler.mcpClient := Some 0 |}.

Definition echoToolUse : imap :=
  map_of [("toolUseId", IAny (GoString "tooluse_9"));
          ("name", IAny (GoString "echo"));
          ("input", IAny (GoMap [("text", GoString "hi")]))].

(** A line of [n] bytes, and an SSE body whose data line has 64 KiB. *)
Fixpoint filler (n : nat) : string :=
  match n with
  | O => EmptyString
  | S n' => String "x" (filler n')
  end.

Definition longLine : string := "data: " ++ filler (N.to_nat Scanner.MaxScanTokenSize).

Definition longBody : string := unlines ["event: message"] ++ longLine ++ String LF "".



(* ================================================================= *)
(** ** Values that [json.Marshal] and [json.Unmarshal] carry
    unchanged *)

(** A text of ASCII bytes. *)
Fixpoint asciiText (s : string) : bool :=
  match s with
  | EmptyString => true
  | String c s' => (code c <? 128)%N && asciiText s'
  end.

(** A value made of nil, booleans, texts of ASCII bytes, slices and
    maps, nested at most [d] deep, whose maps have texts of ASCII
    bytes as keys, in the order of the keys, each key once. *)
Fixpoint plain (d : nat) (v : any) : Prop :=
  match v with
  | Nil | GoBool _ => True
  | GoFloat _ => False
  | GoString s => asciiText s = true
  | GoSlice elems =>
      match d with
      | O => False
      | S d' => Forall (plain d') elems
      end
  | GoMap entries =>
      match d with
      | O => False
      | S d' =>
          Forall (fun entry => asciiText (fst entry) = true /\ plain d' (snd entry)) entries
          /\ map_of entries = entries
      end
  end.

(** The JSON value [json.Marshal] writes for a value. *)
Fixpoint value_of (v : any) : value :=
  match v with
  | Nil => JNull
  | GoBool b => JBool b
  | GoFloat lit => JNumber lit
  | GoString s => JString s
  | GoSlice elems => JArray (map value_of elems)
  | GoMap entries =>
      JObject (map (fun entry => match entry with (k, x) => (k, value_of x) end) entries)
  end.

(** The elements of a slice and the entries of a map as
    [json.Marshal] writes them between the brackets. *)
Fixpoint elementsText (elems : list any) : string :=
  match elems with
  | [] => EmptyString
  | x :: xs =>
      marshal x ++ match xs with [] => EmptyString | _ => "," ++ elementsText xs end
  end.

Fixpoint entriesText (entries : list (string * any)) : string :=
  match entries with
  | [] => EmptyString
  | (k, x) :: xs =>
      quote k ++ ":" ++ marshal x
      ++ match xs with [] => EmptyString | _ => "," ++ entriesText xs end
  end.

(** A text that begins with a character that is neither white space
    nor a bracket that closes, as every text [json.Marshal] writes
    does. *)
Definition opens (s : string) : Prop :=
  exists c s', s = String c s' /\ is_ws c = false /\ chr c 93 = false /\ chr c 125 = false.

(** The values [json.Unmarshal] stores in an [interface{}] for the
    JSON object of a content block and for that of a tool (a tool
    without a schema has [null] under [inputSchema]). *)
Definition blockValue (b : ContentBlock) : any :=
  GoMap [("text", GoString (Text b)); ("type", GoString (Type_ b))].

Definition toolValue (t : Tool) : any :=
  GoMap [("description", GoString (Description t));
         ("inputSchema", match InputSchema t with Some m => GoMap m | None => Nil end);
         ("name", GoString (Name t))].

(* ================================================================= *)
(** ** Lists, texts and numbers *)

Lemma nth_error_update_same {A : Type} (l : list A) n x y :
  nth_error l n = Some y -> nth_error (update l n x) n = Some x.
Proof.
  revert n; induction l as [|z l IH]; intros [|n] H; simpl in *; try discriminate; auto.
Qed.

Lemma nth_error_map_eq {A B : Type} (f : A -> B) l1 l2 n :
  map f l1 = map f l2 ->
  match nth_error l1 n, nth_error l2 n with
  | Some x, Some y => f x = f y
  | None, None => True
  | _, _ => False
  end.
Proof.
  revert l2 n; induction l1 as [|x l1 IH]; intros [|y l2] [|n] H; simpl in *;
    try discriminate; auto; injection H as Hx Hl; auto.
  now apply IH.
Qed.

Lemma map_update_same {A B : Type} (f : A -> B) l n x y :
  nth_error l n = Some y -> f x = f y -> map f (update l n x) = map f l.
Proof.
  revert n; induction l as [|z l IH]; intros [|n] H E; simpl in *; try discriminate.
  - injection H as ->. now rewrite E.
  - f_equal. now apply IH.
Qed.

Lemma append_length (s t : string) :
  String.length (s ++ t) = String.length s + String.length t.
Proof. induction s; simpl; auto. Qed.

Lemma append_nil_r (s : string) : s ++ "" = s.
Proof. induction s; simpl; congruence. Qed.

Lemma append_assoc (s t u : string) : (s ++ t) ++ u = s ++ t ++ u.
Proof. induction s; simpl; congruence. Qed.

Lemma prefix_nil s : String.prefix "" s = true.
Proof. destruct s; reflexivity. Qed.

Lemma length_zero (s : string) : (String.length s =? 0)%nat = true -> s = "".
Proof. destruct s; simpl; [auto|discriminate]. Qed.

Lemma split_at_first c s1 s2 r1 r2 :
  free_of c s1 = true -> free_of c s2 = true ->
  s1 ++ String c r1 = s2 ++ String c r2 -> s1 = s2 /\ r1 = r2.
Proof.
  revert s2; induction s1 as [|x s1 IH]; intros [|y s2] F1 F2 H; simpl in *.
  - injection H as H; auto.
  - injection H as Hc H. subst y. rewrite Ascii.eqb_refl in F2. discriminate.
  - injection H as Hc H. subst x. rewrite Ascii.eqb_refl in F1. discriminate.
  - injection H as Hc H. subst y.
    apply andb_true_iff in F1 as [_ F1]. apply andb_true_iff in F2 as [_ F2].
    destruct (IH s2 F1 F2 H) as [-> ->]. auto.
Qed.

Lemma to_int_not_nil z :
  Z.to_int z <> Decimal.Pos Decimal.Nil /\ Z.to_int z <> Decimal.Neg Decimal.Nil.
Proof.
  destruct z as [|p|p]; simpl; split; try discriminate; intro H; injection H as H;
    exact (DecimalPos.Unsigned.to_uint_nonnil p H).
Qed.

(** [Itoa] writes different numbers differently, and never a colon. *)
Lemma Itoa_inj a b : Itoa a = Itoa b -> a = b.
Proof.
  unfold Itoa. intro H. apply DecimalZ.to_int_inj.
  destruct (to_int_not_nil a) as [A1 A2], (to_int_not_nil b) as [B1 B2].
  pose proof (NilZero.isi _ A1 A2) as Ia. pose proof (NilZero.isi _ B1 B2) as Ib.
  rewrite H in Ia. rewrite Ia in Ib. now injection Ib.
Qed.

Lemma digits_free_of_colon u : free_of ":" (NilEmpty.string_of_uint u) = true.
Proof. induction u; simpl; auto. Qed.

Lemma Itoa_free_of_colon z : free_of ":" (Itoa z) = true.
Proof.
  unfold Itoa. destruct (Z.to_int z) as [u|u]; simpl; destruct u; simpl;
    auto using digits_free_of_colon.
Qed.

(** The error of an envelope tells its code and its message, and is
    no error of the transport. *)
Lemma mcpError_inj e e' :
  mcpError e = mcpError e' -> Code e = Code e' /\ Message e = Message e'.
Proof.
  unfold mcpError. intro H. injection H as H.
  destruct (split_at_first ":" _ _ _ _ (Itoa_free_of_colon _) (Itoa_free_of_colon _) H)
    as [Hc Hm].
  split; [now apply Itoa_inj | now injection Hm].
Qed.

Lemma mcpError_not_httpError e s b : mcpError e <> httpError s b.
Proof. unfold mcpError, httpError. simpl. discriminate. Qed.

Lemma Err_mcpError_inj (A : Type) e e' :
  @Err A (mcpError e) = Err (mcpError e') ->
  Code e = Code e' /\ Message e = Message e'.
Proof.
  generalize (mcpError_inj e e').
  generalize (mcpError e) (mcpError e'). intros x y H E. injection E as E. auto.
Qed.

Lemma Err_mcpError_not_httpError (A : Type) e s b : @Err A (mcpError e) <> Err (httpError s b).
Proof.
  generalize (mcpError_not_httpError e s b).
  generalize (mcpError e) (httpError s b). intros x y N E. injection E as E. auto.
Qed.

(* ================================================================= *)
(** ** The steps of [sendRequest] *)

Section Projections.
Variables (w : World) (cs : list MCPClient) (s : list (string * string)).
Lemma clients_with_clients : clients (with_clients w cs) = cs.
Proof. reflexivity. Qed.
Lemma bad_url_with_clients : bad_url (with_clients w cs) = bad_url w.
Proof. reflexivity. Qed.
Lemma network_with_clients : network (with_clients w cs) = network w.
Proof. reflexivity. Qed.
Lemma sent_with_clients : sent (with_clients w cs) = sent w.
Proof. reflexivity. Qed.
Lemma clients_with_sent : clients (with_sent w s) = clients w.
Proof. reflexivity. Qed.
Lemma bad_url_with_sent : bad_url (with_sent w s) = bad_url w.
Proof. reflexivity. Qed.
Lemma network_with_sent : network (with_sent w s) = network w.
Proof. reflexivity. Qed.
Lemma sent_with_sent : sent (with_sent w s) = s.
Proof. reflexivity. Qed.
End Projections.

Create Rewrite HintDb world.
#[local] Hint Rewrite clients_with_clients bad_url_with_clients network_with_clients
  sent_with_clients clients_with_sent bad_url_with_sent network_with_sent
  sent_with_sent : world.

Lemma envelope_enveloped onFailure text w :
  envelope onFailure text w = (enveloped onFailure (Unmarshal_MCPResponse text), w).
Proof.
  unfold envelope, enveloped. destruct (Unmarshal_MCPResponse text) as [r|je]; [|reflexivity].
  destruct (Error r); reflexivity.
Qed.

(** The run of [sendRequest] for a client that exists. *)
Lemma sendRequest_run w a cl method params :
  nth_error (clients w) a = Some cl ->
  sendRequest (Some a) method params w =
  match bad_url w (baseURL cl) with
  | Some msg =>
      (Err (wrapError "failed to create HTTP request: " (libError msg)), counted w a cl)
  | None =>
      (answered (wrap64 (requestID cl + 1)) (network w (List.length (sent w))),
       posted w a cl method params)
  end.
Proof.
  intros Hcl.
  unfold sendRequest, bind, nextRequestID, load, NewRequest, Do.
  rewrite Hcl. cbv beta iota. autorewrite with world.
  rewrite (nth_error_update_same _ _ _ _ Hcl).
  cbv beta iota. cbn [baseURL]. autorewrite with world.
  destruct (bad_url w (baseURL cl)); [reflexivity|].
  cbv beta iota. autorewrite with world.
  destruct (network w (List.length (sent w))) as [msg|status [body [msg|]]];
    try reflexivity.
  unfold answered, received, posted, counted. cbn [ReadAll failure data].
  destruct (negb (status =? 200)%Z); [reflexivity|].
  destruct (String.length body =? 0)%nat; [reflexivity|].
  destruct (HasPrefix body "event:"); [|apply envelope_enveloped].
  destruct (String.eqb (extractSSEData body) ""); [reflexivity|apply envelope_enveloped].
Qed.

Lemma sendRequest_unallocated w a method params :
  nth_error (clients w) a = None ->
  sendRequest (Some a) method params w = (Panic nilDereference, w).
Proof.
  intros Hcl. unfold sendRequest, bind, nextRequestID. now rewrite Hcl.
Qed.

Lemma sendRequest_nil w method params :
  sendRequest None method params w = (Panic nilDereference, w).
Proof. reflexivity. Qed.

(** The run for a response that was read. *)
Lemma sendRequest_responds w a cl method params status body :
  nth_error (clients w) a = Some cl ->
  bad_url w (baseURL cl) = None ->
  network w (List.length (sent w)) = Responds status {| data := body; failure := None |} ->
  sendRequest (Some a) method params w =
  (received (wrap64 (requestID cl + 1)) status body, posted w a cl method params).
Proof.
  intros Hcl Hurl Hnet. rewrite (sendRequest_run _ _ _ _ _ Hcl), Hurl, Hnet. reflexivity.
Qed.

(** X3.  A request that is not a notification goes to the URL of the
    client with the version 2.0, the client's next request id and the
    method; its parameters are left out when they are nil. *)
Lemma sendRequest_posts_id w a cl method params :
  nth_error (clients w) a = Some cl ->
  bad_url w (baseURL cl) = None ->
  sent (snd (sendRequest (Some a) method params w)) =
  (sent w ++
   [(baseURL cl,
     ("{" ++ quote "jsonrpc" ++ ":" ++ quote "2.0"
      ++ "," ++ quote "id" ++ ":" ++ Itoa (wrap64 (requestID cl + 1))
      ++ "," ++ quote "method" ++ ":" ++ quote method
      ++ match params with
         | Nil => EmptyString
         | _ => "," ++ quote "params" ++ ":" ++ marshal params
         end
      ++ "}")%string)])%list.
Proof.
  intros Hcl Hurl. rewrite (sendRequest_run _ _ _ _ _ Hcl), Hurl.
  unfold posted, marshal_MCPRequest.
  cbn [snd sent with_sent reqJSONRPC reqID reqMethod reqParams].
  now destruct params.
Qed.

(* ================================================================= *)
(** ** Responses of the transport *)

Lemma received_not_httpError id body s b : received id 200 body <> Err (httpError s b).
Proof.
  unfold received. cbn [Z.eqb Pos.eqb negb].
  assert (forall msg d, enveloped msg d <> Err (httpError s b)) as K.
  { intros msg [r|je]; cbn [enveloped]; [|discriminate].
    destruct (Error r) as [e|]; [apply Err_mcpError_not_httpError|discriminate]. }
  destruct (String.length body =? 0)%nat; [discriminate|].
  destruct (HasPrefix body "event:"); [|apply K].
  destruct (String.eqb _ ""); [discriminate|apply K].
Qed.

(** Claim C5, as the code has it: given a response that was read,
    [sendRequest] fails with the error of the transport, which carries
    the status and the body, exactly when the status is not 200 (and
    not: when it is outside 200..299); with status 200 the call never
    ends in that error, the body is read as an envelope. *)
Theorem sendRequest_http_error w a cl method params status body :
  nth_error (clients w) a = Some cl ->
  bad_url w (baseURL cl) = None ->
  network w (List.length (sent w)) = Responds status {| data := body; failure := None |} ->
  (fst (sendRequest (Some a) method params w) = Err (httpError status body)
   <-> status <> 200%Z)
  /\ (status = 200%Z ->
      fst (sendRequest (Some a) method params w)
      = received (wrap64 (requestID cl + 1)) 200 body
      /\ forall s b, fst (sendRequest (Some a) method params w) <> Err (httpError s b)).
Proof.
  intros Hcl Hurl Hnet. rewrite (sendRequest_responds _ _ _ _ _ _ _ Hcl Hurl Hnet).
  cbn [fst]. split.
  - destruct (Z.eq_dec status 200) as [->|NE].
    + split; [intro H; now elim (received_not_httpError _ _ _ _ H)|intro H; now elim H].
    + split; [auto|intros _]. unfold received.
      destruct (Z.eqb_spec status 200) as [E|_]; [contradiction|reflexivity].
  - intros ->. split; [reflexivity|]. intros s b. apply received_not_httpError.
Qed.

Lemma sendRequest_http_error_witness :
  fst (sendRequest (Some 0) "tools/list" Nil (one_client [notFound]))
  = Err (httpError 404 "Not Found").
Proof.
  apply (proj1 (sendRequest_http_error (one_client [notFound]) 0 newClient
                  "tools/list" Nil 404 "Not Found" eq_refl eq_refl eq_refl)).
  discriminate.
Defined.

(** Claim C5, as it is stated, fails: 202 is a status in 200..299, and
    [sendRequest] answers it with the error of the transport. *)
Lemma accepted_is_an_error :
  (200 <= 202 < 300)%Z
  /\ fst (sendRequest (Some 0) "notifications/initialized" Nil (one_client [accepted]))
     = Err (httpError 202 "").
Proof. split; [lia|reflexivity]. Qed.

(* ================================================================= *)
(** ** Envelopes with an error *)

Lemma Unmarshal_empty : Unmarshal_MCPResponse "" = Failed SyntaxError.
Proof. reflexivity. Qed.

Lemma enveloped_mcpError msg d e' :
  enveloped msg d = Err (mcpError e') ->
  exists resp e,
    d = Decoded resp /\ Error resp = Some e /\ Code e = Code e' /\ Message e = Message e'.
Proof.
  destruct d as [r|je]; cbn [enveloped]; [|discriminate].
  destruct (Error r) as [e|] eqn:He; [|discriminate].
  intro H. apply Err_mcpError_inj in H. exists r, e. tauto.
Qed.

(** X7.  The other way round: the error of the protocol comes from
    nothing but a response with status 200 whose envelope has its
    error field set, with that code and message. *)
Lemma protocol_error_only_from_envelope w c method params e' :
  fst (sendRequest c method params w) = Err (mcpError e') ->
  exists body resp e,
    network w (List.length (sent w)) = Responds 200 {| data := body; failure := None |}
    /\ Unmarshal_MCPResponse (payload body) = Decoded resp
    /\ Error resp = Some e
    /\ Code e = Code e' /\ Message e = Message e'.
Proof.
  destruct c as [a|]; [|discriminate].
  destruct (nth_error (clients w) a) as [cl|] eqn:Hcl;
    [|rewrite (sendRequest_unallocated _ _ _ _ Hcl); discriminate].
  rewrite (sendRequest_run _ _ _ _ _ Hcl).
  destruct (bad_url w (baseURL cl)); [discriminate|].
  destruct (network w (List.length (sent w))) as [msg|status [body [msg|]]];
    try discriminate.
  cbn [fst answered failure data]. unfold received.
  destruct (Z.eqb_spec status 200) as [->|NE]; cbn [negb];
    [|intro H; symmetry in H; now elim (Err_mcpError_not_httpError _ _ _ _ H)].
  destruct (String.length body =? 0)%nat; [discriminate|].
  destruct (HasPrefix body "event:") eqn:P.
  - destruct (String.eqb _ ""); [discriminate|]. intro H.
    destruct (enveloped_mcpError _ _ _ H) as (r & e & Hd & He & Hc & Hm).
    exists body, r, e. unfold payload. rewrite P. auto.
  - intro H. destruct (enveloped_mcpError _ _ _ H) as (r & e & Hd & He & Hc & Hm).
    exists body, r, e. unfold payload. rewrite P. auto.
Qed.

(* ================================================================= *)
(** ** The line scanner and the data line of an SSE body *)

Import Scanner.

Lemma cutLine_line l r :
  free_of LF l = true -> cutLine (l ++ String LF r) = (l, Some r).
Proof.
  induction l as [|c l IH]; simpl; intro F.
  - reflexivity.
  - apply andb_true_iff in F as [N F]. apply negb_true_iff in N. rewrite N.
    rewrite (IH F). reflexivity.
Qed.

Lemma cutLine_last l : free_of LF l = true -> cutLine l = (l, None).
Proof.
  induction l as [|c l IH]; simpl; intro F.
  - reflexivity.
  - apply andb_true_iff in F as [N F]. apply negb_true_iff in N. rewrite N.
    rewrite (IH F). reflexivity.
Qed.

Lemma scan_line f l r :
  free_of LF l = true ->
  scan (S f) (l ++ String LF r) = if tooLong l then [] else dropCR l :: scan f r.
Proof.
  intro F. cbn [scan]. rewrite (cutLine_line l r F).
  destruct l; reflexivity.
Qed.

Lemma scan_last f l :
  free_of LF l = true -> l <> "" ->
  scan (S f) l = if tooLong l then [] else [dropCR l].
Proof.
  intros F N. cbn [scan]. rewrite (cutLine_last l F).
  destruct l; [contradiction|reflexivity].
Qed.

(** Dropping the carriage return does not touch a prefix that has
    none. *)
Lemma prefix_dropCR p l :
  free_of CR p = true -> p <> "" -> String.prefix p (dropCR l) = String.prefix p l.
Proof.
  revert l; induction p as [|a p IH]; intros l F N; [contradiction|].
  simpl in F. apply andb_true_iff in F as [Na F]. apply negb_true_iff in Na.
  destruct l as [|b [|c l]].
  - reflexivity.
  - cbn [dropCR]. destruct (Ascii.eqb_spec b CR) as [->|Nb]; [|reflexivity].
    cbn [String.prefix]. destruct (ascii_dec a CR) as [->|]; [|reflexivity].
    rewrite Ascii.eqb_refl in Na. discriminate.
  - change (dropCR (String b (String c l))) with (String b (dropCR (String c l))).
    cbn [String.prefix]. destruct (ascii_dec a b); [|reflexivity].
    destruct p as [|a' p]; [now rewrite !prefix_nil|]. apply IH; [exact F|discriminate].
Qed.

Lemma HasPrefix_dropCR l : HasPrefix (dropCR l) "data:" = HasPrefix l "data:".
Proof. unfold HasPrefix. apply prefix_dropCR; [reflexivity|discriminate]. Qed.

Lemma HasPrefix_data rest : HasPrefix ("data:" ++ rest) "data:" = true.
Proof.
  unfold HasPrefix. simpl.
  repeat match goal with
         | |- context [ascii_dec ?x ?y] => destruct (ascii_dec x y); [|congruence]
         end.
  apply prefix_nil.
Qed.

Lemma drop_dropCR_data rest : drop 5 (dropCR ("data:" ++ rest)) = dropCR rest.
Proof. destruct rest; reflexivity. Qed.

Lemma extractLoop_data f rest tail :
  free_of LF rest = true -> fits ("data:" ++ rest) ->
  (tail = "" \/ exists t, tail = String LF t) ->
  extractLoop (scan (S f) ("data:" ++ rest ++ tail)) = TrimSpace (dropCR rest).
Proof.
  intros Hrest Hfit Htail.
  assert (free_of LF ("data:" ++ rest) = true) as Fd by exact Hrest.
  destruct Htail as [->|[t ->]].
  - rewrite append_nil_r. rewrite scan_last; [|exact Fd|discriminate].
    rewrite Hfit. cbn [extractLoop]. rewrite HasPrefix_dropCR, HasPrefix_data.
    now rewrite drop_dropCR_data.
  - rewrite <- append_assoc. rewrite scan_line by exact Fd.
    rewrite Hfit. cbn [extractLoop]. rewrite HasPrefix_dropCR, HasPrefix_data.
    now rewrite drop_dropCR_data.
Qed.

Lemma extractLoop_first_data ls rest tail :
  Forall (fun l => plain_line l /\ fits l) ls ->
  free_of LF rest = true -> fits ("data:" ++ rest) ->
  (tail = "" \/ exists t, tail = String LF t) ->
  forall f, String.length (unlines ls ++ "data:" ++ rest ++ tail) <= f ->
  extractLoop (scan f (unlines ls ++ "data:" ++ rest ++ tail)) = TrimSpace (dropCR rest).
Proof.
  intros Hls Hrest Hfit Htail.
  induction Hls as [|l ls [[Fl Pl] Sl] _ IH]; intros f Hf.
  - change (unlines [] ++ "data:" ++ rest ++ tail) with ("data:" ++ rest ++ tail) in *.
    destruct f as [|f]; [simpl in Hf; lia|].
    now apply extractLoop_data.
  - cbn [unlines] in *. rewrite append_assoc in *.
    change (String LF (unlines ls) ++ "data:" ++ rest ++ tail)
      with (String LF (unlines ls ++ "data:" ++ rest ++ tail)) in *.
    rewrite append_length in Hf. cbn [String.length] in Hf.
    destruct f as [|f]; [lia|].
    rewrite scan_line by exact Fl. rewrite Sl. cbn [extractLoop].
    rewrite HasPrefix_dropCR, Pl. apply IH. lia.
Qed.

(** The first data line of a body whose lines up to it fit the
    scanner. *)
Lemma extract_first_data ls rest tail :
  Forall (fun l => plain_line l /\ fits l) ls ->
  free_of LF rest = true -> fits ("data:" ++ rest) ->
  (tail = "" \/ exists t, tail = String LF t) ->
  extractSSEData (unlines ls ++ "data:" ++ rest ++ tail) = TrimSpace (dropCR rest).
Proof.
  intros. unfold extractSSEData, lines. now apply extractLoop_first_data.
Qed.

(** A body without a data line. *)
Lemma extract_no_data ls last :
  Forall plain_line ls -> plain_line last ->
  extractSSEData (unlines ls ++ last) = "".
Proof.
  intros Hls [Fl Pl]. unfold extractSSEData, lines.
  generalize (String.length (unlines ls ++ last)).
  induction Hls as [|l ls [Fl' Pl'] _ IH]; intros f.
  - cbn [unlines append]. destruct f as [|f]; [reflexivity|].
    destruct last as [|c last]; [reflexivity|].
    rewrite scan_last; [|exact Fl|discriminate].
    destruct (tooLong _); [reflexivity|]. cbn [extractLoop].
    now rewrite HasPrefix_dropCR, Pl.
  - cbn [unlines]. rewrite append_assoc. cbn [append].
    destruct f as [|f]; [reflexivity|].
    rewrite scan_line by exact Fl'.
    destruct (tooLong l); [reflexivity|]. cbn [extractLoop].
    rewrite HasPrefix_dropCR, Pl'. apply IH.
Qed.

(** A line of 64 KiB or more ends the scan: no line after it is seen,
    and neither is the line itself. *)
Lemma extract_too_long ls l rest :
  Forall plain_line ls -> free_of LF l = true -> tooLong l = true ->
  extractSSEData (unlines ls ++ l ++ String LF rest) = "".
Proof.
  intros Hls Fl Tl. unfold extractSSEData, lines.
  generalize (String.length (unlines ls ++ l ++ String LF rest)).
  induction Hls as [|l' ls [Fl' Pl'] _ IH]; intros f.
  - cbn [unlines append]. destruct f as [|f]; [reflexivity|].
    rewrite scan_line by exact Fl. now rewrite Tl.
  - cbn [unlines]. rewrite append_assoc. cbn [append].
    destruct f as [|f]; [reflexivity|].
    rewrite scan_line by exact Fl'.
    destruct (tooLong l'); [reflexivity|]. cbn [extractLoop].
    rewrite HasPrefix_dropCR, Pl'. apply IH.
Qed.

(** X8.  So [sendRequest] answers an SSE body with a line of 64 KiB
    or more, before which there is no data line, with a null result,
    whatever that line and the lines after it hold. *)
Lemma sendRequest_too_long w a cl method params ls l rest :
  nth_error (clients w) a = Some cl ->
  bad_url w (baseURL cl) = None ->
  network w (List.length (sent w))
  = Responds 200 {| data := unlines ls ++ l ++ String LF rest; failure := None |} ->
  HasPrefix (unlines ls ++ l ++ String LF rest) "event:" = true ->
  Forall plain_line ls -> free_of LF l = true -> tooLong l = true ->
  fst (sendRequest (Some a) method params w) = Ok (emptyResponse (wrap64 (requestID cl + 1))).
Proof.
  intros Hcl Hurl Hnet Hev Hls Fl Tl.
  rewrite (sendRequest_responds _ _ _ _ _ _ _ Hcl Hurl Hnet).
  unfold received. cbn [fst Z.eqb Pos.eqb negb]. rewrite Hev.
  rewrite (extract_too_long _ _ _ Hls Fl Tl).
  now destruct (String.length _ =? 0)%nat.
Qed.




(** Claim C7, as the code has it.  For a body that begins with
    "event:": when its lines up to the first one that begins with
    "data:" are shorter than 64 KiB each, [sendRequest] takes the rest
    of that line (without the carriage return that may end it),
    trimmed; if that text is empty the call succeeds with a null
    result, otherwise the text is read as the envelope.  When no line
    begins with "data:", the call succeeds with a null result. *)
Theorem sendRequest_sse w a cl method params body :
  nth_error (clients w) a = Some cl ->
  bad_url w (baseURL cl) = None ->
  network w (List.length (sent w)) = Responds 200 {| data := body; failure := None |} ->
  HasPrefix body "event:" = true ->
  (forall ls rest tail,
      body = unlines ls ++ "data:" ++ rest ++ tail ->
      Forall (fun l => plain_line l /\ fits l) ls ->
      free_of LF rest = true -> fits ("data:" ++ rest) ->
      (tail = "" \/ exists t, tail = String LF t) ->
      fst (sendRequest (Some a) method params w) =
      if String.eqb (TrimSpace (dropCR rest)) ""
      then Ok (emptyResponse (wrap64 (requestID cl + 1)))
      else enveloped "failed to unmarshal SSE JSON data: "
             (Unmarshal_MCPResponse (TrimSpace (dropCR rest))))
  /\ (forall ls last,
      body = unlines ls ++ last ->
      Forall plain_line ls -> plain_line last ->
      fst (sendRequest (Some a) method params w) =
      Ok (emptyResponse (wrap64 (requestID cl + 1)))).
Proof.
  intros Hcl Hurl Hnet Hev.
  rewrite (sendRequest_responds _ _ _ _ _ _ _ Hcl Hurl Hnet).
  unfold received. cbn [fst Z.eqb Pos.eqb negb]. rewrite Hev.
  assert ((String.length body =? 0)%nat = false) as L.
  { destruct body; [discriminate Hev|reflexivity]. }
  rewrite L. split.
  - intros ls rest tail -> Hls Hrest Hfit Htail.
    now rewrite (extract_first_data _ _ _ Hls Hrest Hfit Htail).
  - intros ls last -> Hls Hlast.
    now rewrite (extract_no_data _ _ Hls Hlast).
Qed.

Lemma sendRequest_sse_witness :
  fst (sendRequest (Some 0) "tools/list" Nil (one_client [reply sseBody])) =
  Ok {| JSONRPC := "2.0"; ID := 1; Result := GoMap [("tools", GoSlice [])]; Error := None |}.
Proof.
  destruct (sendRequest_sse (one_client [reply sseBody]) 0 newClient "tools/list" Nil
              sseBody eq_refl eq_refl eq_refl eq_refl) as [first_data _].
  rewrite (first_data ["event: message"] toolsPayload (String LF "") eq_refl).
  - reflexivity.
  - repeat constructor.
  - reflexivity.
  - reflexivity.
  - right. now exists "".
Defined.

(** Claim C7, as it is stated, fails: the body has a line that begins
    with "data:", the rest of that line, trimmed, is the empty text,
    which is no envelope, and [sendRequest] succeeds with a null
    result. *)
Lemma sendRequest_sse_empty_data :
  HasPrefix blankDataBody "event:" = true
  /\ Scanner.lines blankDataBody = ["event: message"; "data:  "]
  /\ TrimSpace (drop 5 "data:  ") = ""
  /\ Unmarshal_MCPResponse "" = Failed SyntaxError
  /\ fst (sendRequest (Some 0) "tools/list" Nil (one_client [reply blankDataBody])) =
     Ok (emptyResponse 1).
Proof. repeat split. Qed.

(* ================================================================= *)
(** ** The client has no state of the protocol *)

Lemma related_ret {A : Type} (R : A -> A -> Prop) a b : R a b -> related R (ret a) (ret b).
Proof. intros H w1 w2 S. split; [exact H|exact S]. Qed.

Lemma related_throw {A : Type} (R : A -> A -> Prop) e : related R (throw e) (throw e).
Proof. intros w1 w2 S. split; [reflexivity|exact S]. Qed.

Lemma related_bind {A B : Type} (R : A -> A -> Prop) (S : B -> B -> Prop) m1 m2 k1 k2 :
  related R m1 m2 ->
  (forall a b, R a b -> related S (k1 a) (k2 b)) ->
  related S (bind m1 k1) (bind m2 k2).
Proof.
  intros Hm Hk w1 w2 Hw. unfold bind.
  destruct (Hm w1 w2 Hw) as [Ho Hs].
  destruct (m1 w1) as [[a| |?|] w1'], (m2 w2) as [[b| |?|] w2'];
    cbn [fst snd rel_outcome] in *; try contradiction; auto.
  now apply Hk.
Qed.

Lemma related_nextRequestID c :
  related (fun _ _ => True) (nextRequestID c) (nextRequestID c).
Proof.
  intros w1 w2 (Hu & Hn & Hc). unfold nextRequestID. destruct c as [a|].
  - pose proof (nth_error_map_eq baseURL _ _ a Hc) as H.
    destruct (nth_error (clients w1) a) as [c1|] eqn:E1,
             (nth_error (clients w2) a) as [c2|] eqn:E2; try contradiction.
    + split; [exact I|]. cbn [snd]. repeat split; autorewrite with world; auto.
      rewrite (map_update_same baseURL _ _ _ _ E1), (map_update_same baseURL _ _ _ _ E2);
        auto.
    + split; [reflexivity|]. repeat split; auto.
  - split; [reflexivity|]. repeat split; auto.
Qed.

Lemma related_load c : related (fun c1 c2 => baseURL c1 = baseURL c2) (load c) (load c).
Proof.
  intros w1 w2 (Hu & Hn & Hc). unfold load. destruct c as [a|].
  - pose proof (nth_error_map_eq baseURL _ _ a Hc) as H.
    destruct (nth_error (clients w1) a), (nth_error (clients w2) a); try contradiction;
      (split; [auto; reflexivity|repeat split; auto]).
  - split; [reflexivity|repeat split; auto].
Qed.

Lemma related_NewRequest url : related eq (NewRequest url) (NewRequest url).
Proof. intros w1 w2 S. split; [apply S|exact S]. Qed.

Lemma related_Do url body1 body2 : related eq (Do url body1) (Do url body2).
Proof.
  intros w1 w2 (Hu & Hn & Hc). unfold Do. cbn [fst snd rel_outcome]. split.
  - specialize (Hn 0). now rewrite !Nat.add_0_r in Hn.
  - repeat split; autorewrite with world; auto.
    intro n. rewrite !length_app. cbn [List.length].
    replace (List.length (sent w1) + 1 + n) with (List.length (sent w1) + S n) by lia.
    replace (List.length (sent w2) + 1 + n) with (List.length (sent w2) + S n) by lia.
    apply Hn.
Qed.

Lemma related_envelope msg text :
  related same_envelope (envelope msg text) (envelope msg text).
Proof.
  intros w1 w2 S. rewrite !envelope_enveloped. cbn [fst snd]. split; [|exact S].
  destruct (enveloped msg (Unmarshal_MCPResponse text)); cbn [rel_outcome]; auto.
  now repeat split.
Qed.

Lemma related_sendRequest c method params :
  related same_envelope (sendRequest c method params) (sendRequest c method params).
Proof.
  unfold sendRequest.
  eapply related_bind; [apply related_nextRequestID|]. intros id1 id2 _.
  eapply related_bind; [apply related_load|]. intros cl1 cl2 E. rewrite E.
  eapply related_bind; [apply related_NewRequest|]. intros ? bad ->.
  destruct bad; [apply related_throw|].
  eapply related_bind; [apply related_Do|]. intros ? ex ->.
  destruct ex as [msg|status b]; [apply related_throw|].
  destruct (ReadAll b) as [[body err] b']. destruct err; [apply related_throw|].
  destruct (negb _); [apply related_throw|].
  destruct (_ =? 0)%nat; [apply related_ret; now repeat split|].
  destruct (HasPrefix _ _); [|apply related_envelope].
  destruct (String.eqb _ _); [apply related_ret; now repeat split|apply related_envelope].
Qed.

Lemma related_ListTools c : related eq (ListTools c) (ListTools c).
Proof.
  unfold ListTools.
  eapply related_bind; [apply related_sendRequest|]. intros r1 r2 (_ & -> & _).
  destruct (Result r2); try apply related_throw.
  destruct (map_get _ _); [|apply related_throw].
  destruct (Unmarshal_Tools _); [now apply related_ret|apply related_throw].
Qed.

Lemma related_CallTool c toolCall : related eq (CallTool c toolCall) (CallTool c toolCall).
Proof.
  unfold CallTool.
  eapply related_bind; [apply related_sendRequest|]. intros r1 r2 (_ & -> & _).
  destruct (Unmarshal_ToolResult _); [now apply related_ret|apply related_throw].
Qed.

Lemma related_Initialize c : related eq (Initialize c) (Initialize c).
Proof.
  unfold Initialize.
  eapply related_bind; [apply related_sendRequest|]. intros _ _ _.
  eapply related_bind; [apply related_nextRequestID|]. intros _ _ _.
  eapply related_bind; [apply related_load|]. intros cl1 cl2 E. rewrite E.
  eapply related_bind; [apply related_NewRequest|]. intros ? bad ->.
  destruct bad; [apply related_throw|].
  eapply related_bind; [apply related_Do|]. intros ? ex ->.
  destruct ex as [msg|status b]; [apply related_throw|].
  destruct (ReadAll b) as [[body err] b']. now apply related_ret.
Qed.

Lemma rel_outcome_eq {A : Type} (o1 o2 : outcome A) : rel_outcome eq o1 o2 -> o1 = o2.
Proof. destruct o1, o2; cbn; intros; subst; auto; contradiction. Qed.

(** Claim C1, as the code has it: the client keeps no state of the
    protocol.  In two worlds that differ only in what was called on
    the clients before (their request counters, the requests already
    sent) and whose servers will answer alike, [ListTools], [CallTool]
    and [Initialize] end alike: none of them looks at whether
    [Initialize] has run. *)
Theorem client_keeps_no_protocol_state w1 w2 c :
  similar w1 w2 ->
  fst (ListTools c w1) = fst (ListTools c w2)
  /\ (forall toolCall, fst (CallTool c toolCall w1) = fst (CallTool c toolCall w2))
  /\ fst (Initialize c w1) = fst (Initialize c w2).
Proof.
  intro S. repeat split; intros; apply rel_outcome_eq.
  - apply (related_ListTools c w1 w2 S).
  - apply (related_CallTool c toolCall w1 w2 S).
  - apply (related_Initialize c w1 w2 S).
Qed.

Lemma similar_fresh_ready : similar freshWorld readyWorld.
Proof. repeat split. Qed.

Lemma client_keeps_no_protocol_state_witness :
  similar freshWorld readyWorld
  /\ fst (ListTools (Some 0) freshWorld) = Ok [tool "time"]
  /\ fst (ListTools (Some 0) readyWorld) = Ok [tool "time"].
Proof.
  split; [exact similar_fresh_ready|].
  destruct (client_keeps_no_protocol_state freshWorld readyWorld (Some 0)
              similar_fresh_ready) as [H _].
  split; [reflexivity|]. rewrite <- H. reflexivity.
Defined.

(** Claim C1, as it is stated, fails: on a client that was never
    initialized [ListTools] and [CallTool] succeed, and so does a
    second [Initialize]. *)
Lemma no_state_check_in_client :
  fst (ListTools (Some 0) freshWorld) = Ok [tool "time"]
  /\ fst (CallTool (Some 0) timeCall (one_client [callReply])) = Ok timeResult
  /\ fst (initializeTwice twiceWorld) = Ok tt.
Proof. repeat split. Qed.

(* ================================================================= *)
(** ** The notification of [Initialize] *)

(** Claim C2: the notification leaves the client with the field
    ["id":0].  ([notifyReq] sets no [ID], and the tag of [ID] has no
    [omitempty].) *)
Lemma notification_is_sent_with_id :
  marshal_MCPRequest notifyReq = notificationBody
  /\ nth_error (sent (snd (Initialize (Some 0) handshakeWorld))) 1
     = Some (localhost, notificationBody)
  /\ Json.parse notificationBody =
     Some (JObject [("jsonrpc", JString "2.0"); ("id", JNumber "0");
                    ("method", JString "notifications/initialized");
                    ("params", JObject [])]).
Proof. repeat split. Qed.

(** Claim C4: [Initialize] succeeds although the response to the
    notification is an error envelope that parses; the [Initialize] of
    the tool handler program returns that error. *)
Lemma notification_error_is_ignored :
  fst (Initialize (Some 0) refusedWorld) = Ok tt
  /\ fst (ToolHandler.Initialize (Some 0) refusedWorld)
     = Err (ToolHandler.notificationError invalidRequest).
Proof. split; reflexivity. Qed.

(** Whatever the response to the notification is, [Initialize] fails
    only for the initialize request or for the transport of the
    notification. *)
Lemma Initialize_errors c w e :
  fst (Initialize c w) = Err e ->
  fst (sendRequest c "initialize" initializeParams w) = Err e
  \/ (exists msg, e = wrapError "failed to create notification request: " (libError msg))
  \/ (exists msg, e = wrapError "notification request failed: " (libError msg)).
Proof.
  unfold Initialize. unfold bind at 1.
  destruct (sendRequest c "initialize" initializeParams w) as [[r|e'|p|] w1];
    cbn [fst]; [|intro H; left; now injection H as ->|discriminate|discriminate].
  unfold bind, nextRequestID, load, NewRequest, Do.
  destruct c as [a|]; [|discriminate].
  destruct (nth_error (clients w1) a) as [cl|] eqn:Hcl; [|discriminate].
  cbv beta iota. autorewrite with world. rewrite (nth_error_update_same _ _ _ _ Hcl).
  cbv beta iota. cbn [baseURL]. autorewrite with world.
  destruct (bad_url w1 (baseURL cl)) as [msg|].
  - intro H. injection H as <-. right. left. now exists msg.
  - cbv beta iota. autorewrite with world.
    destruct (network w1 (List.length (sent w1))) as [msg|status b].
    + intro H. injection H as <-. right. right. now exists msg.
    + destruct (ReadAll b) as [[body err] b']. discriminate.
Qed.

(** The [sendRequest] of the tool handler program reads the body a
    second time, from the drained stream: whatever a response with
    status 200 holds, the call succeeds with a null result. *)
Lemma ToolHandler_sendRequest_reads_nothing w a cl method params body :
  nth_error (clients w) a = Some cl ->
  bad_url w (baseURL cl) = None ->
  network w (List.length (sent w)) = Responds 200 {| data := body; failure := None |} ->
  fst (ToolHandler.sendRequest (Some a) method params w)
  = Ok (emptyResponse (wrap64 (requestID cl + 1))).
Proof.
  intros Hcl Hurl Hnet.
  unfold ToolHandler.sendRequest, bind, nextRequestID, load, NewRequest, Do.
  rewrite Hcl. cbv beta iota. autorewrite with world.
  rewrite (nth_error_update_same _ _ _ _ Hcl).
  cbv beta iota. cbn [baseURL]. autorewrite with world. rewrite Hurl.
  cbv beta iota. autorewrite with world. rewrite Hnet.
  reflexivity.
Qed.

(* ================================================================= *)
(** ** The tool registry *)

Lemma findInGroup_offers tools mcpClients toolName :
  findInGroup tools mcpClients toolName =
  if offers toolName tools then
    match mcpClients with
    | first :: _ => Some first
    | [] => None
    end
  else None.
Proof.
  induction tools as [|t tools IH]; cbn [findInGroup offers existsb]; [reflexivity|].
  fold (offers toolName tools).
  destruct (String.eqb (Name t) toolName); cbn [orb]; [|exact IH].
  destruct mcpClients; [|reflexivity]. rewrite IH. now destruct (offers toolName tools).
Qed.

Lemma findInGroups_first groups toolName :
  findInGroups groups toolName =
  match find (answers toolName) groups with
  | Some g => hd None (MCPClients g)
  | None => None
  end.
Proof.
  induction groups as [|g groups IH]; cbn [findInGroups find]; [reflexivity|].
  rewrite findInGroup_offers. unfold answers at 1.
  destruct (offers toolName (Tools g)); cbn [andb]; [|exact IH].
  destruct (MCPClients g) as [|first others] eqn:E; cbn [List.length Nat.eqb negb];
    [exact IH|]. now rewrite E.
Qed.

Lemma findInGroups_single registered toolName :
  Forall (fun named => List.length (snd named) <= 1) registered ->
  findInGroups (map groupOf registered) toolName = firstOwner registered toolName.
Proof.
  unfold firstOwner.
  induction 1 as [|[name r] registered Hr _ IH]; [reflexivity|].
  cbn [map findInGroups flat_map snd].
  rewrite findInGroup_offers.
  destruct r as [|[c tools] [|? r]]; cbn [snd List.length] in Hr; [| |lia].
  - cbn. exact IH.
  - unfold groupOf at 1 2. cbn [Tools MCPClients flat_map map fst snd app find].
    rewrite List.app_nil_r.
    destruct (offers toolName tools); [reflexivity|exact IH].
Qed.

(** Claim C3, as the code has it: [findMCPClientForTool] returns the
    first client of the first group, in the order of registration,
    that has a tool of that name and a client at all (a group that
    brings tools and no client is passed over); this is the client
    that listed the first matching tool when the groups are those of
    registrations with one client at most each. *)
Theorem findMCPClientForTool_first_group a toolName :
  findMCPClientForTool a toolName =
    match find (answers toolName) (ActionGroups a) with
    | Some g => hd None (MCPClients g)
    | None => None
    end
  /\ (forall registered,
        ActionGroups a = map groupOf registered ->
        Forall (fun named => List.length (snd named) <= 1) registered ->
        findMCPClientForTool a toolName = firstOwner registered toolName).
Proof.
  split; [apply findInGroups_first|].
  intros registered E H. unfold findMCPClientForTool. rewrite E.
  now apply findInGroups_single.
Qed.

(** A group with a tool and no client is accepted by [AddActionGroup]
    and passed over by [findMCPClientForTool]; and the first of two
    groups with one client each answers. *)
Lemma findMCPClientForTool_first_group_witness :
  (forall w, fst (AddActionGroup emptyAgent bareGroup w)
             = Ok {| FoundationModel := FoundationModel emptyAgent;
                     Instruction := Instruction emptyAgent;
                     AgentName := AgentName emptyAgent;
                     ActionGroups := [bareGroup] |})
  /\ findMCPClientForTool bareFirst "echo" = Some 0
  /\ findMCPClientForTool (agentOf twoGroups) "echo" = Some 0
  /\ firstOwner twoGroups "echo" = Some 0.
Proof.
  split; [reflexivity|].
  split; [exact (proj1 (findMCPClientForTool_first_group bareFirst "echo"))|].
  rewrite (proj2 (findMCPClientForTool_first_group (agentOf twoGroups) "echo")
             twoGroups eq_refl).
  - split; reflexivity.
  - repeat constructor.
Defined.

(** Claim C3, as it is stated, fails.  Three servers are registered in
    two groups; the tool [echo] is listed by the second client of the
    first group and by the client of the second group.  The first
    matching tool is the one of the second client, and
    [findMCPClientForTool] returns the first client, which has no such
    tool. *)
Lemma first_client_is_not_the_owner :
  fst (registerThree threeServers) = Ok (agentOf threeRegistered)
  /\ findMCPClientForTool (agentOf threeRegistered) "echo" = Some 0
  /\ firstOwner threeRegistered "echo" = Some 1
  /\ offers "echo" [tool "a"] = false.
Proof. repeat split. Qed.

Lemma addClients_listed mcpClients :
  forall tools w tools' w',
    addClients mcpClients tools w = (Ok tools', w') <->
    exists r : registration,
      map fst r = mcpClients
      /\ tools' = (tools ++ flat_map snd r)%list
      /\ listed r w w'.
Proof.
  induction mcpClients as [|c cs IH]; intros tools w tools' w'.
  - split.
    + intro H. injection H as <- <-. exists []. cbn [map flat_map listed].
      rewrite List.app_nil_r. auto.
    + intros ([|? ?] & Hr & -> & L); [|discriminate]. cbn [listed] in L. subst w'.
      cbn [addClients flat_map]. now rewrite List.app_nil_r.
  - cbn [addClients]. unfold bind, try. split.
    + intro H.
      destruct (Initialize c w) as [[[]|e|p|] w1] eqn:I; try discriminate.
      * destruct (ListTools c w1) as [[ts|e|p|] w2] eqn:L; try discriminate.
        -- destruct (proj1 (IH _ _ _ _) H) as (r & Hr & Ht & Hl).
           exists ((c, ts) :: r). cbn [map fst snd flat_map listed].
           rewrite Hr, Ht, List.app_assoc. repeat split. now exists w1, w2.
        -- unfold load, throw in H. destruct c as [n|]; [|discriminate].
           destruct (nth_error _ _); discriminate.
      * unfold load, throw in H. destruct c as [n|]; [|discriminate].
        destruct (nth_error _ _); discriminate.
    + intros ([|[c' ts] r] & Hr & -> & L); [discriminate|].
      cbn [map fst] in Hr. injection Hr as -> Hr.
      cbn [listed fst snd] in L. destruct L as (w1 & w2 & I & T & L).
      rewrite I, T. apply (proj2 (IH _ _ _ _)). exists r. cbn [flat_map].
      now rewrite List.app_assoc.
Qed.

(** X13.  What [AddActionGroup] registers.  It succeeds exactly when
    every client of the group, one after the other, is initialized and
    then lists its tools, each in the world the client before it has
    left; the agent it returns has the groups it had and then the new
    group, with the clients of the group and with the tools the group
    brought followed by the tools the clients have listed in this run,
    client after client. *)
Theorem AddActionGroup_registers a actionGroup w a' w' :
  AddActionGroup a actionGroup w = (Ok a', w') <->
  exists r : registration,
    map fst r = MCPClients actionGroup
    /\ listed r w w'
    /\ a' = {| FoundationModel := FoundationModel a;
               Instruction := Instruction a;
               AgentName := AgentName a;
               ActionGroups :=
                 (ActionGroups a ++
                  [{| groupName := groupName actionGroup;
                      MCPClients := MCPClients actionGroup;
                      Tools := (Tools actionGroup ++ flat_map snd r)%list |}])%list |}.
Proof.
  unfold AddActionGroup, bind. split.
  - intro H.
    destruct (addClients _ _ w) as [[tools|e|p|] w1] eqn:A; try discriminate.
    injection H as <- <-.
    destruct (proj1 (addClients_listed _ _ _ _ _) A) as (r & Hr & -> & L).
    now exists r.
  - intros (r & Hr & L & ->).
    assert (addClients (MCPClients actionGroup) (Tools actionGroup) w
            = (Ok (Tools actionGroup ++ flat_map snd r)%list, w')) as ->; [|reflexivity].
    apply (proj2 (addClients_listed _ _ _ _ _)). now exists r.
Qed.

(* ================================================================= *)
(** ** Tool use *)

Section ToolUse.

Variable json_error_text : Json.error -> string.

Lemma contentText_blocks blocks acc :
  contentText (map (fun block => textBlock (Text block)) blocks) acc
  = acc ++ joined (map Text blocks).
Proof.
  revert acc; induction blocks as [|b blocks IH]; intro acc; cbn [map contentText joined].
  - now rewrite append_nil_r.
  - change (map_get "text" (textBlock (Text b))) with (Some (GoString (Text b))).
    cbn iota. rewrite IH. now rewrite append_assoc.
Qed.

(** The step of the loop over the tool uses. *)
Lemma processToolUses_step a toolUse rest toolResults w result w1 :
  handleToolUse json_error_text a toolUse w = (Ok result, w1) ->
  processToolUses json_error_text a (toolUse :: rest) toolResults w =
  match toolResultOf result w1 with
  | (Ok toolResult, w2) =>
      processToolUses json_error_text a rest (toolResults ++ [toolResult])%list w2
  | (Err e, w2) => (Err e, w2)
  | (Panic p, w2) => (Panic p, w2)
  | (Unfinished, w2) => (Unfinished, w2)
  end.
Proof.
  intro H. cbn [processToolUses]. unfold bind at 1, try. rewrite H.
  unfold bind. reflexivity.
Qed.

Lemma processToolUses_error a toolUse rest toolResults w e w1 :
  handleToolUse json_error_text a toolUse w = (Err e, w1) ->
  processToolUses json_error_text a (toolUse :: rest) toolResults w =
  (Err (wrapError "tool execution failed: " e), w1).
Proof.
  intro H. cbn [processToolUses]. unfold bind at 1, try. now rewrite H.
Qed.

Lemma toolResultOf_map toolUseID content status w :
  toolResultOf (toolResultMap toolUseID content status) w =
  (Ok (toolResultBlock toolUseID (contentText content "")), w).
Proof. reflexivity. Qed.

(** Claim C8: for a tool nobody serves, [handleToolUse] returns, with
    no error and without touching the world, the map with the id of
    the tool use, the text "Tool '<name>' not found" and the status
    "error"; the loop of [Invoke] goes on with the block made of it. *)
Theorem handleToolUse_unknown_tool a toolUse toolUseID name w :
  asString (map_get "toolUseId" toolUse) = Some toolUseID ->
  asString (map_get "name" toolUse) = Some name ->
  findMCPClientForTool a name = None ->
  handleToolUse json_error_text a toolUse w =
    (Ok (toolResultMap toolUseID [textBlock ("Tool '" ++ name ++ "' not found")] "error"),
     w)
  /\ map_get "toolUseId"
       (toolResultMap toolUseID [textBlock ("Tool '" ++ name ++ "' not found")] "error")
     = Some (IAny (GoString toolUseID))
  /\ map_get "content"
       (toolResultMap toolUseID [textBlock ("Tool '" ++ name ++ "' not found")] "error")
     = Some (IMaps [[("text", GoString ("Tool '" ++ name ++ "' not found"))]])
  /\ map_get "status"
       (toolResultMap toolUseID [textBlock ("Tool '" ++ name ++ "' not found")] "error")
     = Some (IAny (GoString "error"))
  /\ (forall rest toolResults,
        processToolUses json_error_text a (toolUse :: rest) toolResults w =
        processToolUses json_error_text a rest
          (toolResults ++ [toolResultBlock toolUseID ("Tool '" ++ name ++ "' not found")])%list
          w).
Proof.
  intros Hid Hname Hfind.
  assert (handleToolUse json_error_text a toolUse w =
          (Ok (toolResultMap toolUseID
                 [textBlock ("Tool '" ++ name ++ "' not found")] "error"), w)) as H.
  { unfold handleToolUse. now rewrite Hid, Hname, Hfind. }
  repeat split; try exact H.
  intros rest toolResults. rewrite (processToolUses_step _ _ _ _ _ _ _ H).
  now rewrite toolResultOf_map.
Qed.

Lemma handleToolUse_result a toolUse toolUseID name addr result w w' :
  asString (map_get "toolUseId" toolUse) = Some toolUseID ->
  asString (map_get "name" toolUse) = Some name ->
  findMCPClientForTool a name = Some addr ->
  CallTool (Some addr) {| callName := name; Arguments := inputOf toolUse |} w
  = (Ok result, w') ->
  handleToolUse json_error_text a toolUse w =
  (Ok (toolResultMap toolUseID
         (map (fun block => textBlock (Text block)) (Content result))
         (if IsError result then "error" else "success")), w').
Proof.
  intros Hid Hname Hfind Hcall.
  unfold handleToolUse. rewrite Hid, Hname, Hfind.
  unfold bind, try. fold (inputOf toolUse). now rewrite Hcall.
Qed.

(** Claim C9: when the call of the tool succeeds, the block the loop
    of [Invoke] appends has the id of the tool use and one text, the
    texts of the blocks of the tool's result one after the other;
    its status is not set, whatever [IsError] says. *)
Theorem tool_result_is_one_text_block a toolUse toolUseID name addr result w w' :
  asString (map_get "toolUseId" toolUse) = Some toolUseID ->
  asString (map_get "name" toolUse) = Some name ->
  findMCPClientForTool a name = Some addr ->
  CallTool (Some addr) {| callName := name; Arguments := inputOf toolUse |} w
  = (Ok result, w') ->
  forall rest toolResults,
    processToolUses json_error_text a (toolUse :: rest) toolResults w =
    processToolUses json_error_text a rest
      (toolResults ++
       [types.ContentBlockMemberToolResult
          {| types.ResultToolUseId := Some toolUseID;
             types.ResultContent :=
               [types.ToolResultContentBlockMemberText
                  (joined (map Text (Content result)))];
             types.Status := "" |}])%list
      w'.
Proof.
  intros Hid Hname Hfind Hcall rest toolResults.
  rewrite (processToolUses_step _ _ _ _ _ _ _
             (handleToolUse_result _ _ _ _ _ _ _ _ Hid Hname Hfind Hcall)).
  rewrite toolResultOf_map, contentText_blocks. reflexivity.
Qed.

(** Claim C10, as the code has it: [handleToolUse] returns the error
    "missing tool name", without touching the world, when its map has
    no string under "name", and the loop of [Invoke] over the tool
    uses stops with that error wrapped; it is the only error
    [handleToolUse] returns.  The maps [Invoke] makes of the blocks
    of the assistant all have a name. *)
Theorem missing_tool_name a toolUse w :
  asString (map_get "name" toolUse) = None ->
  handleToolUse json_error_text a toolUse w = (Err (errorString "missing tool name"), w)
  /\ (forall rest toolResults,
        processToolUses json_error_text a (toolUse :: rest) toolResults w =
        (Err (wrapError "tool execution failed: " (errorString "missing tool name")), w))
  /\ (forall a' toolUse' w' e,
        fst (handleToolUse json_error_text a' toolUse' w') = Err e ->
        asString (map_get "name" toolUse') = None /\ e = errorString "missing tool name")
  /\ (forall v w1 w2 made,
        toolUseOf v w1 = (Ok made, w2) ->
        exists name, asString (map_get "name" made) = Some name).
Proof.
  intro Hname.
  assert (handleToolUse json_error_text a toolUse w =
          (Err (errorString "missing tool name"), w)) as H.
  { unfold handleToolUse. now rewrite Hname. }
  split; [exact H|]. split; [|split].
  - intros rest toolResults. now apply processToolUses_error.
  - intros a' toolUse' w' e. unfold handleToolUse.
    destruct (asString (map_get "name" toolUse')) as [name|].
    + destruct (findMCPClientForTool a' name) as [addr|]; [|discriminate].
      unfold bind, try. destruct (CallTool _ _ w') as [[r|e'|p|] w1]; discriminate.
    + intro E. injection E as <-. auto.
  - intros v w1 w2 made. unfold toolUseOf.
    destruct (types.ToolUseId v) as [i|]; [|discriminate].
    destruct (types.Name v) as [n|]; [|discriminate].
    intro E. injection E as <- _. now exists n.
Qed.

(** *** The conversation *)

Lemma conversation_turn fuel a input messages :
  conversation json_error_text (S fuel) a input messages
  = turn json_error_text (conversation json_error_text fuel a) a input messages.
Proof. reflexivity. Qed.

Lemma turn_more_fuel next1 next2 a input messages w :
  (forall i m w', fst (next1 i m w') <> Unfinished -> next2 i m w' = next1 i m w') ->
  fst (turn json_error_text next1 a input messages w) <> Unfinished ->
  turn json_error_text next2 a input messages w
  = turn json_error_text next1 a input messages w.
Proof.
  intro Hnext. unfold turn, bind.
  destruct (Converse input w) as [[[msg|content]|e|p|] w1]; try (intros _; reflexivity).
  destruct (scanContent content [] "" w1) as [[[toolUses text]|e|p|] w2];
    try (intros _; reflexivity).
  cbn [fst snd]. destruct toolUses as [|toolUse toolUses]; [reflexivity|].
  destruct (processToolUses json_error_text a (toolUse :: toolUses) [] w2)
    as [[results|e|p|] w3]; try (intros _; reflexivity).
  apply Hnext.
Qed.

(** A conversation that has ended ends the same way when it is
    followed for longer. *)
Lemma conversation_more_fuel fuel :
  forall a input messages w,
    fst (conversation json_error_text fuel a input messages w) <> Unfinished ->
    conversation json_error_text (S fuel) a input messages w
    = conversation json_error_text fuel a input messages w.
Proof.
  induction fuel as [|fuel IH]; intros a input messages w H.
  - now elim H.
  - rewrite (conversation_turn (S fuel)). rewrite (conversation_turn fuel) in *.
    apply turn_more_fuel; [|exact H]. intros i m w'. apply IH.
Qed.

End ToolUse.

Lemma handleToolUse_unknown_tool_witness :
  handleToolUse errorText timeAgent unknownToolUse timeWorld =
  (Ok (toolResultMap "tooluse_2" [textBlock "Tool 'X' not found"] "error"), timeWorld).
Proof.
  exact (proj1 (handleToolUse_unknown_tool errorText timeAgent unknownToolUse
                  "tooluse_2" "X" timeWorld eq_refl eq_refl eq_refl)).
Defined.

Lemma tool_result_is_one_text_block_witness :
  fst (processToolUses errorText timeAgent [timeToolUseMap] [] twoBlocksWorld) =
  Ok [toolResultBlock "tooluse_1" "12:00:00Z"].
Proof.
  rewrite (tool_result_is_one_text_block errorText timeAgent timeToolUseMap
             "tooluse_1" "time" 0 twoBlocks twoBlocksWorld
             (snd (CallTool (Some 0) {| callName := "time"; Arguments := [] |}
                     twoBlocksWorld))
             eq_refl eq_refl eq_refl eq_refl).
  reflexivity.
Defined.

Lemma missing_tool_name_witness :
  handleToolUse errorText timeAgent namelessToolUse timeWorld =
  (Err (errorString "missing tool name"), timeWorld).
Proof.
  exact (proj1 (missing_tool_name errorText timeAgent namelessToolUse timeWorld eq_refl)).
Defined.

(** Claim C10, as it is stated, fails: for a tool use of the assistant
    that has no name [Invoke] returns no error, it panics where it
    dereferences the name. *)
Lemma nameless_tool_use_panics :
  fst (Invoke errorText 1 timeAgent "time?" namelessWorld) = Panic nilDereference.
Proof. reflexivity. Qed.

(** The exchange of the specification: the model asks for the tool
    [time] and then answers.  [Invoke] returns the answer, has called
    the tool once, and has told the model the one result, under the id
    of the tool use. *)
Lemma Invoke_time :
  fst (Invoke errorText 2 timeAgent "time?" timeWorld) = Ok "It is now 12:00:00Z"
  /\ List.length (sent (snd (Invoke errorText 2 timeAgent "time?" timeWorld))) = 1
  /\ map types.Messages (asked (snd (Invoke errorText 2 timeAgent "time?" timeWorld))) =
     [[userMessage "time?"];
      [userMessage "time?";
       {| types.Role := types.ConversationRoleAssistant;
          types.Content := [types.ContentBlockMemberToolUse timeToolUse] |};
       {| types.Role := types.ConversationRoleUser;
          types.Content := [toolResultBlock "tooluse_1" "12:00:00Z"] |}]].
Proof. repeat split. Qed.

(* ================================================================= *)
(** ** More on [sendRequest]: the counter, the errors of the
    transport, the envelope *)

Lemma nth_error_update_other {A : Type} (l : list A) n m x :
  m <> n -> nth_error (update l n x) m = nth_error l m.
Proof.
  revert n m; induction l as [|y l IH]; intros [|n] [|m] H; simpl; auto; try congruence.
Qed.

Lemma length_update {A : Type} (l : list A) n x : List.length (update l n x) = List.length l.
Proof. revert n; induction l as [|y l IH]; intros [|n]; simpl; auto. Qed.

Lemma wrap64_small z : (- 2 ^ 63 <= z < 2 ^ 63)%Z -> wrap64 z = z.
Proof.
  intro H. unfold wrap64.
  change (2 ^ 64)%Z with (2 * 2 ^ 63)%Z. set (k := (2 ^ 63)%Z) in *.
  rewrite Z.mod_small; lia.
Qed.

(** The world [sendRequest] leaves. *)
Lemma sendRequest_world w a cl method params :
  nth_error (clients w) a = Some cl ->
  snd (sendRequest (Some a) method params w) =
  match bad_url w (baseURL cl) with
  | Some _ => counted w a cl
  | None => posted w a cl method params
  end.
Proof.
  intro Hcl. rewrite (sendRequest_run _ _ _ _ _ Hcl). now destruct (bad_url w (baseURL cl)).
Qed.

Lemma clients_counted w a cl :
  clients (counted w a cl)
  = update (clients w) a {| baseURL := baseURL cl; requestID := wrap64 (requestID cl + 1) |}.
Proof. reflexivity. Qed.

Lemma clients_posted w a cl method params :
  clients (posted w a cl method params) = clients (counted w a cl).
Proof. reflexivity. Qed.

(** X2.  Every call of [sendRequest] counts, whatever becomes of the
    request: afterwards the client's counter is one more (in 64-bit
    arithmetic: after the largest [int] comes the smallest), its URL
    is what it was, and no other client has changed. *)
Theorem sendRequest_counts_every_call w a cl method params :
  nth_error (clients w) a = Some cl ->
  nth_error (clients (snd (sendRequest (Some a) method params w))) a
  = Some {| baseURL := baseURL cl; requestID := wrap64 (requestID cl + 1) |}
  /\ (forall b, b <> a ->
        nth_error (clients (snd (sendRequest (Some a) method params w))) b
        = nth_error (clients w) b)
  /\ ((- 2 ^ 63 <= requestID cl < 2 ^ 63 - 1)%Z ->
      wrap64 (requestID cl + 1) = (requestID cl + 1)%Z)
  /\ (requestID cl = (2 ^ 63 - 1)%Z -> wrap64 (requestID cl + 1) = (- 2 ^ 63)%Z).
Proof.
  intro Hcl. rewrite (sendRequest_world _ _ _ _ _ Hcl).
  assert (forall w', clients w' = clients (counted w a cl) ->
            nth_error (clients w') a
            = Some {| baseURL := baseURL cl; requestID := wrap64 (requestID cl + 1) |}
            /\ (forall b, b <> a -> nth_error (clients w') b = nth_error (clients w) b)) as K.
  { intros w' ->. rewrite clients_counted. split.
    - exact (nth_error_update_same _ _ _ _ Hcl).
    - intros b Hb. now apply nth_error_update_other. }
  split; [|split; [|split]].
  - destruct (bad_url w (baseURL cl)); now apply K.
  - destruct (bad_url w (baseURL cl)); now apply K.
  - intro R. apply wrap64_small. lia.
  - intros ->. reflexivity.
Qed.

Lemma sendRequest_counts_every_call_witness :
  nth_error (clients (snd (sendRequest (Some 0) "tools/list" Nil (one_client [notFound])))) 0
  = Some {| baseURL := localhost; requestID := 1 |}.
Proof.
  exact (proj1 (sendRequest_counts_every_call (one_client [notFound]) 0 newClient
                  "tools/list" Nil eq_refl)).
Defined.

Lemma sendRequest_posts_id_witness :
  sent (snd (sendRequest (Some 0) "tools/list" Nil (one_client [notFound])))
  = [(localhost, json "{'jsonrpc':'2.0','id':1,'method':'tools/list'}")].
Proof.
  exact (sendRequest_posts_id (one_client [notFound]) 0 newClient "tools/list" Nil
           eq_refl eq_refl).
Defined.

(** X4.  The errors of the transport.  A request that cannot be
    made for the client's URL is not sent; a request that was sent and
    got no response is reported as such; and a response whose body
    cannot be read to its end is an error of reading, whatever its
    status. *)
Theorem sendRequest_transport_errors w a cl method params :
  nth_error (clients w) a = Some cl ->
  (forall msg,
      bad_url w (baseURL cl) = Some msg ->
      fst (sendRequest (Some a) method params w)
      = Err (wrapError "failed to create HTTP request: " (libError msg))
      /\ sent (snd (sendRequest (Some a) method params w)) = sent w)
  /\ (forall msg,
      bad_url w (baseURL cl) = None ->
      network w (List.length (sent w)) = DoFails msg ->
      fst (sendRequest (Some a) method params w)
      = Err (wrapError "HTTP request failed: " (libError msg))
      /\ List.length (sent (snd (sendRequest (Some a) method params w)))
         = S (List.length (sent w)))
  /\ (forall status body msg,
      bad_url w (baseURL cl) = None ->
      network w (List.length (sent w))
      = Responds status {| data := body; failure := Some msg |} ->
      fst (sendRequest (Some a) method params w)
      = Err (wrapError "failed to read response: " (libError msg))).
Proof.
  intro Hcl. rewrite (sendRequest_run _ _ _ _ _ Hcl). split; [|split].
  - intros msg H. rewrite H. split; reflexivity.
  - intros msg H H0. rewrite H, H0. split; [reflexivity|].
    unfold posted. cbn [snd]. autorewrite with world.
    rewrite length_app. cbn [List.length]. lia.
  - intros status body msg H H0. now rewrite H, H0.
Qed.

Lemma sendRequest_transport_errors_witness :
  fst (sendRequest (Some 0) "tools/list" Nil (one_client []))
  = Err (wrapError "HTTP request failed: " (libError "connection refused")).
Proof.
  destruct (sendRequest_transport_errors (one_client []) 0 newClient "tools/list" Nil
              eq_refl) as (_ & H & _).
  exact (proj1 (H "connection refused" eq_refl eq_refl)).
Defined.

(** X5.  An envelope without an error is returned as it was decoded.
    [sendRequest] compares neither its id with the id of the request
    nor its version with "2.0". *)
Theorem sendRequest_returns_the_envelope w a cl method params body resp :
  nth_error (clients w) a = Some cl ->
  bad_url w (baseURL cl) = None ->
  network w (List.length (sent w)) = Responds 200 {| data := body; failure := None |} ->
  Unmarshal_MCPResponse (payload body) = Decoded resp ->
  Error resp = None ->
  fst (sendRequest (Some a) method params w) = Ok resp.
Proof.
  intros Hcl Hurl Hnet Hresp He.
  rewrite (sendRequest_responds _ _ _ _ _ _ _ Hcl Hurl Hnet).
  unfold received, payload in *. cbn [fst Z.eqb Pos.eqb negb].
  destruct (String.length body =? 0)%nat eqn:L.
  - apply length_zero in L. subst body. cbn [HasPrefix String.prefix] in Hresp.
    rewrite Unmarshal_empty in Hresp. discriminate.
  - destruct (HasPrefix body "event:").
    + destruct (String.eqb_spec (extractSSEData body) "") as [E|NE].
      * rewrite E, Unmarshal_empty in Hresp. discriminate.
      * rewrite Hresp. cbn [enveloped]. now rewrite He.
    + rewrite Hresp. cbn [enveloped]. now rewrite He.
Qed.

Lemma sendRequest_returns_the_envelope_witness :
  fst (sendRequest (Some 0) "tools/list" Nil (one_client [staleReply]))
  = Ok {| JSONRPC := "1.0"; ID := 99; Result := GoBool true; Error := None |}.
Proof.
  exact (sendRequest_returns_the_envelope (one_client [staleReply]) 0 newClient
           "tools/list" Nil (json "{'jsonrpc':'1.0','id':99,'result':true}")
           {| JSONRPC := "1.0"; ID := 99; Result := GoBool true; Error := None |}
           eq_refl eq_refl eq_refl eq_refl eq_refl).
Defined.

(** X6.  A body with status 200 that is not an envelope is an error
    that wraps the error of the decoder, under the message of the path
    the body took. *)
Theorem sendRequest_malformed_body w a cl method params body je :
  nth_error (clients w) a = Some cl ->
  bad_url w (baseURL cl) = None ->
  network w (List.length (sent w)) = Responds 200 {| data := body; failure := None |} ->
  body <> "" -> payload body <> "" ->
  Unmarshal_MCPResponse (payload body) = Failed je ->
  fst (sendRequest (Some a) method params w)
  = Err (wrapError
           (if HasPrefix body "event:" then "failed to unmarshal SSE JSON data: "
            else "failed to unmarshal response: ")
           (jsonError je)).
Proof.
  intros Hcl Hurl Hnet Hbody Hpay Hresp.
  rewrite (sendRequest_responds _ _ _ _ _ _ _ Hcl Hurl Hnet).
  unfold received, payload in *. cbn [fst Z.eqb Pos.eqb negb].
  destruct (String.length body =? 0)%nat eqn:L; [apply length_zero in L; contradiction|].
  destruct (HasPrefix body "event:").
  - destruct (String.eqb_spec (extractSSEData body) "") as [E|NE]; [contradiction|].
    now rewrite Hresp.
  - now rewrite Hresp.
Qed.

Lemma sendRequest_malformed_body_witness :
  fst (sendRequest (Some 0) "tools/list" Nil (one_client [reply "<html>"]))
  = Err (wrapError "failed to unmarshal response: " (jsonError SyntaxError)).
Proof.
  apply (sendRequest_malformed_body (one_client [reply "<html>"]) 0 newClient
           "tools/list" Nil "<html>" SyntaxError eq_refl eq_refl eq_refl);
    [discriminate|discriminate|reflexivity].
Defined.

Lemma protocol_error_only_from_envelope_witness :
  exists body resp e,
    network (one_client [reply methodNotFoundBody]) 0
    = Responds 200 {| data := body; failure := None |}
    /\ Unmarshal_MCPResponse (payload body) = Decoded resp
    /\ Error resp = Some e
    /\ Code e = (-32601)%Z /\ Message e = "Method not found".
Proof.
  exact (protocol_error_only_from_envelope (one_client [reply methodNotFoundBody]) (Some 0)
           "tools/list" Nil methodNotFound eq_refl).
Defined.

(** X9.  [extractSSEData] never looks behind the first data line:
    what follows it, further data lines included, does not change the
    result. *)
Theorem extractSSEData_stops_at_first_data_line ls rest tail1 tail2 :
  Forall (fun l => plain_line l /\ fits l) ls ->
  free_of LF rest = true -> fits ("data:" ++ rest) ->
  extractSSEData (unlines ls ++ "data:" ++ rest ++ String LF tail1)
  = extractSSEData (unlines ls ++ "data:" ++ rest ++ String LF tail2).
Proof.
  intros Hls Hrest Hfit.
  rewrite !extract_first_data; auto; right; eauto.
Qed.

Lemma extractSSEData_stops_at_first_data_line_witness :
  extractSSEData (unlines ["event: message"; "data: 1"; "data: 2"])
  = extractSSEData (unlines ["event: message"; "data: 1"]).
Proof.
  apply (extractSSEData_stops_at_first_data_line ["event: message"] " 1"
           (unlines ["data: 2"]) "").
  - repeat constructor.
  - reflexivity.
  - reflexivity.
Defined.

(* ================================================================= *)
(** ** More on [Initialize], [ListTools] and [CallTool] *)

Lemma nth_error_posted w a cl method params :
  nth_error (clients w) a = Some cl ->
  nth_error (clients (posted w a cl method params)) a = Some (after 1 cl).
Proof. intro Hcl. exact (nth_error_update_same _ _ _ _ Hcl). Qed.

(** The run of [Initialize] for a client that exists. *)
Lemma Initialize_run w a cl :
  nth_error (clients w) a = Some cl ->
  Initialize (Some a) w =
  match bad_url w (baseURL cl) with
  | Some msg =>
      (Err (wrapError "failed to create HTTP request: " (libError msg)), counted w a cl)
  | None =>
      let w1 := posted w a cl "initialize" initializeParams in
      match answered (wrap64 (requestID cl + 1)) (network w (List.length (sent w))) with
      | Ok _ =>
          (match network w (S (List.length (sent w))) with
           | DoFails msg => Err (wrapError "notification request failed: " (libError msg))
           | Responds _ _ => Ok tt
           end, notified w1 a (after 1 cl))
      | Err e => (Err e, w1)
      | Panic p => (Panic p, w1)
      | Unfinished => (Unfinished, w1)
      end
  end.
Proof.
  intro Hcl. unfold Initialize. unfold bind at 1.
  rewrite (sendRequest_run _ _ _ _ _ Hcl).
  destruct (bad_url w (baseURL cl)) as [msg|] eqn:Hurl; [reflexivity|].
  cbv zeta.
  destruct (answered _ _) as [r|e|p|]; try reflexivity.
  pose proof (nth_error_posted w a cl "initialize" initializeParams Hcl) as Hcl1.
  set (w1 := posted w a cl "initialize" initializeParams) in *.
  unfold bind, nextRequestID, load, NewRequest, Do.
  rewrite Hcl1. cbv beta iota. autorewrite with world.
  rewrite (nth_error_update_same _ _ _ _ Hcl1).
  cbv beta iota. cbn [baseURL after]. autorewrite with world.
  change (bad_url w1 (baseURL cl)) with (bad_url w (baseURL cl)). rewrite Hurl.
  cbv beta iota. autorewrite with world.
  replace (network w1 (List.length (sent w1))) with (network w (S (List.length (sent w)))).
  - destruct (network w (S (List.length (sent w)))) as [msg|status b]; [reflexivity|].
    destruct (ReadAll b) as [[body err] b']. reflexivity.
  - subst w1. unfold posted. autorewrite with world.
    rewrite length_app. cbn [List.length]. now rewrite Nat.add_1_r.
Qed.

(** X10.  The handshake.  When the initialize request succeeds and
    the notification gets a response, whatever its status and its
    body, [Initialize] succeeds, having made exactly these two requests
    at the client's URL, the first under the client's next id; the
    client has counted twice, the notification as well. *)
Theorem Initialize_makes_two_requests w a cl r status b :
  nth_error (clients w) a = Some cl ->
  bad_url w (baseURL cl) = None ->
  fst (sendRequest (Some a) "initialize" initializeParams w) = Ok r ->
  network w (S (List.length (sent w))) = Responds status b ->
  fst (Initialize (Some a) w) = Ok tt
  /\ sent (snd (Initialize (Some a) w)) =
     (sent w ++
      [(baseURL cl,
        marshal_MCPRequest
          {| reqJSONRPC := "2.0"; reqID := wrap64 (requestID cl + 1);
             reqMethod := "initialize"; reqParams := initializeParams |});
       (baseURL cl, marshal_MCPRequest notifyReq)])%list
  /\ nth_error (clients (snd (Initialize (Some a) w))) a
     = Some {| baseURL := baseURL cl;
               requestID := wrap64 (wrap64 (requestID cl + 1) + 1) |}.
Proof.
  intros Hcl Hurl Hreq Hnet.
  rewrite (sendRequest_run _ _ _ _ _ Hcl), Hurl in Hreq. cbn [fst] in Hreq.
  rewrite (Initialize_run _ _ _ Hcl), Hurl. cbv zeta. rewrite Hreq, Hnet.
  cbn [fst snd]. split; [reflexivity|]. split.
  - unfold notified, posted. autorewrite with world. cbn [baseURL after].
    now rewrite <- List.app_assoc.
  - unfold notified. autorewrite with world. rewrite clients_counted.
    apply (nth_error_update_same _ _ _ (after 1 cl)).
    now apply nth_error_posted.
Qed.

Lemma Initialize_makes_two_requests_witness :
  fst (Initialize (Some 0) (one_client [initializeReply; notFound])) = Ok tt
  /\ List.length (sent (snd (Initialize (Some 0) (one_client [initializeReply; notFound]))))
     = 2
  /\ nth_error (clients (snd (Initialize (Some 0) (one_client [initializeReply; notFound])))) 0
     = Some {| baseURL := localhost; requestID := 2 |}.
Proof.
  destruct (Initialize_makes_two_requests (one_client [initializeReply; notFound]) 0
              newClient
              {| JSONRPC := "2.0"; ID := 1;
                 Result := GoMap (map_of
                   [("protocolVersion", GoString "2024-11-05");
                    ("capabilities", GoMap [("tools", GoMap [])]);
                    ("serverInfo", GoMap (map_of [("name", GoString "time");
                                                  ("version", GoString "1.0.0")]))]);
                 Error := None |}
              404%Z {| data := "Not Found"; failure := None |}
              eq_refl eq_refl eq_refl eq_refl) as (H1 & H2 & H3).
  split; [exact H1|]. split; [now rewrite H2|exact H3].
Defined.

Lemma ListTools_world c w : snd (ListTools c w) = snd (sendRequest c "tools/list" Nil w).
Proof.
  unfold ListTools, bind.
  destruct (sendRequest c "tools/list" Nil w) as [[resp|e|p|] w1]; try reflexivity.
  destruct (Result resp) as [| | | | |m]; try reflexivity.
  destruct (map_get "tools" m); [|reflexivity].
  now destruct (Unmarshal_Tools _).
Qed.

Lemma CallTool_world c toolCall w :
  snd (CallTool c toolCall w)
  = snd (sendRequest c "tools/call"
           (GoMap (map_of [("name", GoString (callName toolCall));
                           ("arguments", GoMap (Arguments toolCall))])) w).
Proof.
  unfold CallTool, bind.
  destruct (sendRequest c "tools/call" _ w) as [[resp|e|p|] w1]; try reflexivity.
  now destruct (Unmarshal_ToolResult _).
Qed.

(** X11.  Results [ListTools] has no tools for.  A result that is no
    object (the null result of an empty response, for one) is the
    error "unexpected response format"; an object without the key
    "tools" is the error "no tools found in response"; and an object
    whose "tools" are null is the empty list of tools, and no error. *)
Theorem ListTools_without_tools c w resp :
  fst (sendRequest c "tools/list" Nil w) = Ok resp ->
  ((forall resultMap, Result resp <> GoMap resultMap) ->
   fst (ListTools c w) = Err (errorString "unexpected response format"))
  /\ (forall resultMap,
        Result resp = GoMap resultMap -> map_get "tools" resultMap = None ->
        fst (ListTools c w) = Err (errorString "no tools found in response"))
  /\ (forall resultMap,
        Result resp = GoMap resultMap -> map_get "tools" resultMap = Some Nil ->
        fst (ListTools c w) = Ok []).
Proof.
  unfold ListTools, bind.
  destruct (sendRequest c "tools/list" Nil w) as [[resp'|e|p|] w1]; try discriminate.
  cbn [fst]. intro H. injection H as ->. split; [|split].
  - intro N. destruct (Result resp) as [| | | | |m]; try reflexivity. now elim (N m).
  - intros m -> G. now rewrite G.
  - intros m -> G. now rewrite G.
Qed.

Lemma ListTools_without_tools_witness :
  fst (ListTools (Some 0) (one_client [reply ""]))
  = Err (errorString "unexpected response format").
Proof.
  apply (proj1 (ListTools_without_tools (Some 0) (one_client [reply ""])
                  (emptyResponse 1) eq_refl)).
  discriminate.
Defined.

Lemma received_nothing id body :
  body = "" \/ (HasPrefix body "event:" = true /\ extractSSEData body = "") ->
  received id 200 body = Ok (emptyResponse id).
Proof.
  unfold received. cbn [Z.eqb Pos.eqb negb]. intros [->|[P E]]; [reflexivity|].
  rewrite P, E. now destruct (String.length body =? 0)%nat.
Qed.

(** X12.  A response to tools/call that says nothing (status 200 with
    an empty body, or an SSE body without data) makes [CallTool]
    return, without an error, a result with no content whose error
    flag is not set. *)
Theorem CallTool_empty_response w a cl toolCall body :
  nth_error (clients w) a = Some cl ->
  bad_url w (baseURL cl) = None ->
  network w (List.length (sent w)) = Responds 200 {| data := body; failure := None |} ->
  body = "" \/ (HasPrefix body "event:" = true /\ extractSSEData body = "") ->
  fst (CallTool (Some a) toolCall w) = Ok {| Content := []; IsError := false |}.
Proof.
  intros Hcl Hurl Hnet Hbody. unfold CallTool, bind.
  rewrite (sendRequest_responds _ _ _ _ _ _ _ Hcl Hurl Hnet).
  rewrite (received_nothing _ _ Hbody). reflexivity.
Qed.

Lemma CallTool_empty_response_witness :
  fst (CallTool (Some 0) timeCall (one_client [reply ""]))
  = Ok {| Content := []; IsError := false |}.
Proof.
  apply (CallTool_empty_response (one_client [reply ""]) 0 newClient timeCall ""
           eq_refl eq_refl eq_refl).
  now left.
Defined.

(* ================================================================= *)
(** ** What the calls of a client change in the world *)

Lemma requested_nil w : requested [] w w.
Proof. unfold requested. now rewrite List.app_nil_r. Qed.

Lemma requested_app m1 m2 w w1 w2 :
  requested m1 w w1 -> requested m2 w1 w2 -> requested (m1 ++ m2) w w2.
Proof.
  intros (A1 & A2 & A3 & A4 & A5 & A6) (B1 & B2 & B3 & B4 & B5 & B6).
  unfold requested. rewrite B1, B2, B3, B4, B5, B6, A6. now rewrite List.app_assoc.
Qed.

Lemma requested_eq m w w1 w2 : requested m w w1 -> w2 = w1 -> requested m w w2.
Proof. now intros H ->. Qed.

Lemma urlOf_requested m w w' c : requested m w w' -> urlOf w' c = urlOf w c.
Proof.
  intros (_ & _ & _ & _ & Hc & _). unfold urlOf. destruct c as [a|]; [|reflexivity].
  pose proof (nth_error_map_eq baseURL _ _ a Hc) as H.
  destruct (nth_error (clients w') a), (nth_error (clients w) a); try contradiction; auto.
Qed.

Lemma present_requested m w w' c : requested m w w' -> present w c -> present w' c.
Proof.
  intros (_ & _ & _ & _ & Hc & _) (a & cl & -> & Hcl).
  pose proof (nth_error_map_eq baseURL _ _ a Hc) as H. rewrite Hcl in H.
  destruct (nth_error (clients w') a) as [cl'|] eqn:E; [|contradiction].
  now exists a, cl'.
Qed.

Lemma present_before m w w' c : requested m w w' -> present w' c -> present w c.
Proof.
  intros (_ & _ & _ & _ & Hc & _) (a & cl & -> & Hcl).
  pose proof (nth_error_map_eq baseURL _ _ a Hc) as H. rewrite Hcl in H.
  destruct (nth_error (clients w) a) as [cl'|] eqn:E; [|contradiction].
  now exists a, cl'.
Qed.

Lemma urlOf_present w a cl : nth_error (clients w) a = Some cl -> urlOf w (Some a) = baseURL cl.
Proof. intro H. unfold urlOf. now rewrite H. Qed.

Lemma counted_requested w a cl :
  nth_error (clients w) a = Some cl -> requested [] w (counted w a cl).
Proof.
  intro Hcl. unfold requested, counted. autorewrite with world.
  rewrite List.app_nil_r. repeat split.
  now apply (map_update_same baseURL _ _ _ cl).
Qed.

Lemma posted_requested w a cl method params :
  nth_error (clients w) a = Some cl ->
  requested
    [(baseURL cl,
      marshal_MCPRequest
        {| reqJSONRPC := "2.0"; reqID := wrap64 (requestID cl + 1);
           reqMethod := method; reqParams := params |})]
    w (posted w a cl method params).
Proof.
  intro Hcl. destruct (counted_requested w a cl Hcl) as (A1 & A2 & A3 & A4 & A5 & A6).
  unfold requested, posted. autorewrite with world. repeat split; auto.
Qed.

Lemma notified_requested w a cl :
  nth_error (clients w) a = Some cl ->
  requested [(baseURL cl, marshal_MCPRequest notifyReq)] w (notified w a cl).
Proof.
  intro Hcl. destruct (counted_requested w a cl Hcl) as (A1 & A2 & A3 & A4 & A5 & A6).
  unfold requested, notified. autorewrite with world. repeat split; auto.
Qed.

(** The requests of one call of [sendRequest]: none or one, at the
    client's URL. *)
Lemma sendRequest_requested c method params w :
  exists more,
    requested more w (snd (sendRequest c method params w))
    /\ Forall (fun r => fst r = urlOf w c) more
    /\ List.length more <= 1.
Proof.
  destruct c as [a|];
    [|exists []; split; [apply requested_nil|split; [constructor|cbn; lia]]].
  destruct (nth_error (clients w) a) as [cl|] eqn:Hcl.
  - rewrite (sendRequest_world _ _ _ _ _ Hcl), (urlOf_present _ _ _ Hcl).
    destruct (bad_url w (baseURL cl)).
    + exists []. split; [now apply counted_requested|split; [constructor|cbn; lia]].
    + eexists. split; [now apply posted_requested|].
      split; [now repeat constructor|cbn; lia].
  - rewrite (sendRequest_unallocated _ _ _ _ Hcl).
    exists []. split; [apply requested_nil|split; [constructor|cbn; lia]].
Qed.

(** A call of [sendRequest] that succeeds has made one request. *)
Lemma sendRequest_ok c method params w r w' :
  sendRequest c method params w = (Ok r, w') ->
  present w c /\ exists body, requested [(urlOf w c, body)] w w'.
Proof.
  destruct c as [a|]; [|rewrite sendRequest_nil; discriminate].
  destruct (nth_error (clients w) a) as [cl|] eqn:Hcl;
    [|rewrite (sendRequest_unallocated _ _ _ _ Hcl); discriminate].
  rewrite (sendRequest_run _ _ _ _ _ Hcl), (urlOf_present _ _ _ Hcl).
  destruct (bad_url w (baseURL cl)); [discriminate|].
  intro H. injection H as _ <-. split; [now exists a, cl|].
  eexists. now apply posted_requested.
Qed.

Lemma Initialize_requested c w :
  exists more,
    requested more w (snd (Initialize c w))
    /\ Forall (fun r => fst r = urlOf w c) more.
Proof.
  destruct c as [a|]; [|exists []; split; [apply requested_nil|constructor]].
  destruct (nth_error (clients w) a) as [cl|] eqn:Hcl.
  - rewrite (Initialize_run _ _ _ Hcl), (urlOf_present _ _ _ Hcl).
    destruct (bad_url w (baseURL cl)).
    + exists []. split; [now apply counted_requested|constructor].
    + cbv zeta.
      pose proof (posted_requested w a cl "initialize" initializeParams Hcl) as P.
      pose proof (notified_requested _ _ _
                    (nth_error_posted w a cl "initialize" initializeParams Hcl)) as N.
      destruct (answered _ _); cbn [snd];
        try (eexists; split; [exact P|now repeat constructor]).
      eexists. split; [exact (requested_app _ _ _ _ _ P N)|]. now repeat constructor.
  - unfold Initialize. unfold bind at 1. rewrite (sendRequest_unallocated _ _ _ _ Hcl).
    exists []. split; [apply requested_nil|constructor].
Qed.

(** An [Initialize] that succeeds has made two requests. *)
Lemma Initialize_ok c w w' :
  Initialize c w = (Ok tt, w') ->
  present w c /\ exists b1 b2, requested [(urlOf w c, b1); (urlOf w c, b2)] w w'.
Proof.
  destruct c as [a|];
    [|unfold Initialize; unfold bind at 1; rewrite sendRequest_nil; discriminate].
  destruct (nth_error (clients w) a) as [cl|] eqn:Hcl;
    [|unfold Initialize; unfold bind at 1;
      rewrite (sendRequest_unallocated _ _ _ _ Hcl); discriminate].
  rewrite (Initialize_run _ _ _ Hcl), (urlOf_present _ _ _ Hcl).
  destruct (bad_url w (baseURL cl)); [discriminate|]. cbv zeta.
  pose proof (posted_requested w a cl "initialize" initializeParams Hcl) as P.
  pose proof (notified_requested _ _ _
                (nth_error_posted w a cl "initialize" initializeParams Hcl)) as N.
  destruct (answered _ _); try discriminate.
  intro H. injection H as _ <-. split; [now exists a, cl|].
  do 2 eexists. exact (requested_app _ _ _ _ _ P N).
Qed.

Lemma ListTools_requested c w :
  exists more,
    requested more w (snd (ListTools c w))
    /\ Forall (fun r => fst r = urlOf w c) more
    /\ List.length more <= 1.
Proof. rewrite ListTools_world. apply sendRequest_requested. Qed.

Lemma ListTools_ok c w tools w' :
  ListTools c w = (Ok tools, w') ->
  present w c /\ exists body, requested [(urlOf w c, body)] w w'.
Proof.
  intro H. pose proof (ListTools_world c w) as W. rewrite H in W. cbn [snd] in W.
  revert H. unfold ListTools, bind.
  destruct (sendRequest c "tools/list" Nil w) as [[resp|e|p|] w1] eqn:S; try discriminate.
  intros _. cbn [snd] in W. subst w1. exact (sendRequest_ok _ _ _ _ _ _ S).
Qed.

Lemma CallTool_requested c toolCall w :
  exists more,
    requested more w (snd (CallTool c toolCall w))
    /\ Forall (fun r => fst r = urlOf w c) more
    /\ List.length more <= 1.
Proof. rewrite CallTool_world. apply sendRequest_requested. Qed.

(* ================================================================= *)
(** ** More on [AddActionGroup] *)

Lemma flat_map_urls (f g : ptr -> string) cs :
  (forall c, f c = g c) ->
  flat_map (fun c => [f c; f c; f c]) cs = flat_map (fun c => [g c; g c; g c]) cs.
Proof. intro E. induction cs as [|c cs IH]; cbn; [reflexivity|]. now rewrite E, IH. Qed.

Lemma addClients_requests mcpClients :
  forall tools w tools' w',
    addClients mcpClients tools w = (Ok tools', w') ->
    Forall (present w) mcpClients
    /\ exists more,
         requested more w w'
         /\ map fst more = flat_map (fun c => [urlOf w c; urlOf w c; urlOf w c]) mcpClients.
Proof.
  induction mcpClients as [|c cs IH]; intros tools w tools' w' H.
  - injection H as _ <-. split; [constructor|]. exists []. split; [apply requested_nil|auto].
  - cbn [addClients] in H. unfold bind, try in H.
    destruct (Initialize c w) as [[[]|e|p|] w1] eqn:I; try discriminate.
    + destruct (Initialize_ok _ _ _ I) as (Pc & b1 & b2 & R1).
      destruct (ListTools c w1) as [[ts|e|p|] w2] eqn:L; try discriminate.
      * destruct (ListTools_ok _ _ _ _ L) as (_ & b3 & R2).
        rewrite (urlOf_requested _ _ _ c R1) in R2.
        pose proof (requested_app _ _ _ _ _ R1 R2) as R12.
        destruct (IH _ _ _ _ H) as (Pcs & more & R3 & M).
        split.
        { constructor; [exact Pc|].
          eapply Forall_impl; [|exact Pcs]. intro c'. apply (present_before _ _ _ _ R12). }
        exists (([(urlOf w c, b1); (urlOf w c, b2)] ++ [(urlOf w c, b3)]) ++ more)%list.
        split; [exact (requested_app _ _ _ _ _ R12 R3)|].
        cbn [app map fst flat_map]. rewrite M. do 3 f_equal.
        apply flat_map_urls. intro c'. exact (urlOf_requested _ _ _ c' R12).
      * unfold load, throw in H. destruct c as [n|]; [|discriminate].
        destruct (nth_error _ _); discriminate.
    + unfold load, throw in H. destruct c as [n|]; [|discriminate].
      destruct (nth_error _ _); discriminate.
Qed.

Lemma addClients_error mcpClients :
  forall tools w e w',
    addClients mcpClients tools w = (Err e, w') ->
    exists c cause,
      In c mcpClients /\ present w c
      /\ (e = wrapError ("failed to initialize MCP client " ++ urlOf w c ++ ": ") cause
          \/ e = wrapError ("failed to list tools from " ++ urlOf w c ++ ": ") cause).
Proof.
  induction mcpClients as [|c cs IH]; intros tools w e w' H; [discriminate|].
  cbn [addClients] in H. unfold bind, try in H.
  destruct (Initialize_requested c w) as (m1 & R1 & _).
  destruct (Initialize c w) as [[[]|e1|p|] w1] eqn:I; try discriminate; cbn [snd] in R1.
  - destruct (Initialize_ok _ _ _ I) as (Pc & _).
    destruct (ListTools_requested c w1) as (m2 & R2 & _).
    destruct (ListTools c w1) as [[ts|e2|p|] w2] eqn:L; try discriminate; cbn [snd] in R2.
    + pose proof (requested_app _ _ _ _ _ R1 R2) as R12.
      destruct (IH _ _ _ _ H) as (c' & cause & Hin & Pc' & He).
      exists c', cause. rewrite (urlOf_requested _ _ _ c' R12) in He.
      split; [now right|]. split; [exact (present_before _ _ _ _ R12 Pc')|exact He].
    + pose proof (requested_app _ _ _ _ _ R1 R2) as R12.
      unfold load, throw in H. destruct c as [n|]; [|discriminate].
      destruct (nth_error (clients w2) n) as [cl|] eqn:Hcl; [|discriminate].
      injection H as <- _. exists (Some n), e2.
      rewrite <- (urlOf_requested _ _ _ (Some n) R12), (urlOf_present _ _ _ Hcl).
      split; [now left|]. split; [exact Pc|now right].
  - unfold load, throw in H. destruct c as [n|]; [|discriminate].
    destruct (nth_error (clients w1) n) as [cl|] eqn:Hcl; [|discriminate].
    injection H as <- _. exists (Some n), e1.
    rewrite <- (urlOf_requested _ _ _ (Some n) R1), (urlOf_present _ _ _ Hcl).
    split; [now left|]. split; [|now left].
    apply (present_before _ _ _ _ R1). now exists n, cl.
Qed.

Lemma update_update {A : Type} (l : list A) n x y : update (update l n x) n y = update l n y.
Proof. revert n; induction l as [|z l IH]; intros [|n]; simpl; auto. now rewrite IH. Qed.

(** An [Initialize] that succeeds: the client exists, its URL is
    accepted, and the world is the one with the two requests made. *)
Lemma Initialize_success c w w1 :
  Initialize c w = (Ok tt, w1) ->
  exists a cl,
    c = Some a /\ nth_error (clients w) a = Some cl /\ bad_url w (baseURL cl) = None
    /\ w1 = notified (posted w a cl "initialize" initializeParams) a (after 1 cl).
Proof.
  intro H. destruct (Initialize_ok _ _ _ H) as ((a & cl & -> & Hcl) & _).
  exists a, cl. rewrite (Initialize_run _ _ _ Hcl) in H.
  destruct (bad_url w (baseURL cl)); [discriminate|]. cbv zeta in H.
  destruct (answered _ _); try discriminate.
  injection H as _ <-. auto.
Qed.

(** A [ListTools] that succeeds has posted its request. *)
Lemma ListTools_success c w tools w2 :
  ListTools c w = (Ok tools, w2) ->
  exists a cl,
    c = Some a /\ nth_error (clients w) a = Some cl
    /\ w2 = posted w a cl "tools/list" Nil.
Proof.
  intro H. destruct (ListTools_ok _ _ _ _ H) as ((a & cl & -> & Hcl) & _).
  exists a, cl. pose proof (ListTools_world (Some a) w) as W.
  rewrite H in W. cbn [snd] in W.
  pose proof (sendRequest_world w a cl "tools/list" Nil Hcl) as S1. rewrite <- W in S1.
  destruct (bad_url w (baseURL cl)) eqn:B; [|auto].
  exfalso. revert H. unfold ListTools, bind.
  rewrite (sendRequest_run _ _ _ _ _ Hcl), B. discriminate.
Qed.

(** The world after the registration of one client. *)
Lemma registration_world w a cl :
  nth_error (clients w) a = Some cl ->
  let w1 := notified (posted w a cl "initialize" initializeParams) a (after 1 cl) in
  nth_error (clients w1) a = Some (after 2 cl)
  /\ sent (posted w1 a (after 2 cl) "tools/list" Nil)
     = (sent w ++ registrationRequests cl)%list
  /\ clients (posted w1 a (after 2 cl) "tools/list" Nil)
     = update (clients w) a (after 3 cl)
  /\ asked (posted w1 a (after 2 cl) "tools/list" Nil) = asked w.
Proof.
  intros Hcl w1. subst w1.
  pose proof (nth_error_posted w a cl "initialize" initializeParams Hcl) as H1.
  split; [|split; [|split]].
  - unfold notified. autorewrite with world. rewrite clients_counted.
    exact (nth_error_update_same _ _ _ _ H1).
  - unfold posted, notified. autorewrite with world. unfold registrationRequests.
    cbn [baseURL after requestID Nat.iter nat_rect]. rewrite <- !List.app_assoc. reflexivity.
  - unfold posted, notified, counted. autorewrite with world.
    rewrite !update_update. reflexivity.
  - reflexivity.
Qed.

Lemma addClients_posts mcpClients :
  forall tools w tools' w',
    addClients mcpClients tools w = (Ok tools', w') ->
    sent w' = (sent w ++ groupRequests mcpClients (clients w))%list.
Proof.
  induction mcpClients as [|c cs IH]; intros tools w tools' w' H.
  - injection H as _ <-. cbn. now rewrite List.app_nil_r.
  - destruct (proj1 (addClients_listed _ _ _ _ _) H) as ([|[c' ts] r] & Hr & Ht & L);
      [discriminate|].
    cbn [map fst] in Hr. injection Hr as -> Hr. cbn [listed fst snd] in L.
    destruct L as (w1 & w2 & I & T & L).
    destruct (Initialize_success _ _ _ I) as (a & cl & -> & Hcl & _ & ->).
    destruct (registration_world w a cl Hcl) as (H2 & Hs & Hc & _).
    destruct (ListTools_success _ _ _ _ T) as (a' & cl' & E & Hcl' & ->).
    injection E as <-. rewrite H2 in Hcl'. injection Hcl' as <-.
    assert (addClients cs (tools ++ ts)%list
              (posted (notified (posted w a cl "initialize" initializeParams) a (after 1 cl))
                 a (after 2 cl) "tools/list" Nil) = (Ok tools', w')) as A.
    { apply (proj2 (addClients_listed _ _ _ _ _)). exists r. rewrite Ht.
      cbn [flat_map snd]. now rewrite List.app_assoc. }
    rewrite (IH _ _ _ _ A), Hs, Hc. cbn [groupRequests]. rewrite Hcl.
    now rewrite List.app_assoc.
Qed.

(** X14.  The requests of [AddActionGroup].  When it succeeds, it
    has posted, for every client of the group in the order of the
    group, the initialize request, the notification and the request
    for the tools, each at the URL of the client and with the ids the
    client has come to (a client that is in the group twice goes on
    counting); it has posted nothing else, three requests for each
    client, and it has not called the model. *)
Theorem AddActionGroup_requests a actionGroup w a' w' :
  AddActionGroup a actionGroup w = (Ok a', w') ->
  sent w' = (sent w ++ groupRequests (MCPClients actionGroup) (clients w))%list
  /\ map fst (groupRequests (MCPClients actionGroup) (clients w))
     = flat_map (fun c => [urlOf w c; urlOf w c; urlOf w c]) (MCPClients actionGroup)
  /\ List.length (groupRequests (MCPClients actionGroup) (clients w))
     = 3 * List.length (MCPClients actionGroup)
  /\ asked w' = asked w.
Proof.
  unfold AddActionGroup, bind. intro H.
  destruct (addClients _ _ w) as [[tools|e|p|] w1] eqn:A; try discriminate.
  injection H as _ <-.
  pose proof (addClients_posts _ _ _ _ _ A) as P.
  destruct (addClients_requests _ _ _ _ _ A) as (_ & more & R & M).
  destruct R as (_ & _ & _ & Ha & _ & Hs).
  rewrite P in Hs. apply List.app_inv_head in Hs. subst more.
  repeat split; auto.
  rewrite <- (length_map fst), M.
  clear. induction (MCPClients actionGroup) as [|c cs IH]; cbn [flat_map app List.length];
    [reflexivity|]. rewrite IH. lia.
Qed.

(** X15.  The errors of [AddActionGroup].  Each of them names, by its
    URL, a client of the group: the client that could not be
    initialized, or whose tools could not be listed. *)
Theorem AddActionGroup_error_names_the_client a actionGroup w e :
  fst (AddActionGroup a actionGroup w) = Err e ->
  exists c cause,
    In c (MCPClients actionGroup) /\ present w c
    /\ (e = wrapError ("failed to initialize MCP client " ++ urlOf w c ++ ": ") cause
        \/ e = wrapError ("failed to list tools from " ++ urlOf w c ++ ": ") cause).
Proof.
  unfold AddActionGroup, bind.
  destruct (addClients _ _ w) as [[tools|e'|p|] w1] eqn:A; try discriminate.
  cbn [fst]. intro H. injection H as ->. exact (addClients_error _ _ _ _ _ A).
Qed.

Lemma sound_requested m w w' a : requested m w w' -> sound w a -> sound w' a.
Proof.
  intros R S. unfold sound in *. eapply Forall_impl; [|exact S].
  intros g Hg. eapply Forall_impl; [|exact Hg]. intro c. apply (present_requested _ _ _ _ R).
Qed.

Lemma AddActionGroup_groups a actionGroup w a' w' :
  AddActionGroup a actionGroup w = (Ok a', w') ->
  exists tools,
    addClients (MCPClients actionGroup) (Tools actionGroup) w = (Ok tools, w')
    /\ ActionGroups a'
       = (ActionGroups a ++
          [{| groupName := groupName actionGroup;
              MCPClients := MCPClients actionGroup;
              Tools := tools |}])%list.
Proof.
  unfold AddActionGroup, bind. intro H.
  destruct (addClients _ _ w) as [[tools|e|p|] w1] eqn:A; try discriminate.
  injection H as <- <-. now exists tools.
Qed.

Lemma sound_after_AddActionGroup a actionGroup w a' w' :
  sound w a ->
  AddActionGroup a actionGroup w = (Ok a', w') ->
  sound w' a'.
Proof.
  intros S H. destruct (AddActionGroup_groups _ _ _ _ _ H) as (tools & A & G).
  destruct (addClients_requests _ _ _ _ _ A) as (P & more & R & _).
  unfold sound. rewrite G. apply Forall_app. split.
  - exact (sound_requested _ _ _ _ R S).
  - constructor; [|constructor]. cbn [MCPClients].
    eapply Forall_impl; [|exact P]. intro c. apply (present_requested _ _ _ _ R).
Qed.

(** X16.  [AddActionGroup] keeps the agent sound.  Every client of a
    group it has added exists: for a group with a nil client the call
    does not return. *)
Theorem AddActionGroup_keeps_sound a actionGroup w a' w' :
  sound w a ->
  AddActionGroup a actionGroup w = (Ok a', w') ->
  sound w' a' /\ Forall (present w) (MCPClients actionGroup).
Proof.
  intros S H. split; [exact (sound_after_AddActionGroup _ _ _ _ _ S H)|].
  destruct (AddActionGroup_groups _ _ _ _ _ H) as (tools & A & _).
  exact (proj1 (addClients_requests _ _ _ _ _ A)).
Qed.

Lemma find_first {A : Type} (f : A -> bool) l x :
  In x l -> f x = true -> exists y, find f l = Some y.
Proof.
  intros Hin Hf. destruct (find f l) as [y|] eqn:E; [now exists y|].
  rewrite (find_none f l E x Hin) in Hf. discriminate.
Qed.

(** The client found for a tool is the first client of one of the
    agent's groups. *)
Lemma findMCPClientForTool_is_a_client a toolName :
  findMCPClientForTool a toolName = None
  \/ exists g first others,
       In g (ActionGroups a) /\ answers toolName g = true
       /\ MCPClients g = first :: others
       /\ findMCPClientForTool a toolName = first.
Proof.
  unfold findMCPClientForTool. rewrite findInGroups_first.
  destruct (find (answers toolName) (ActionGroups a)) as [g|] eqn:F; [|now left].
  destruct (find_some _ _ F) as [Hin Hans].
  destruct (MCPClients g) as [|first others] eqn:E.
  - unfold answers in Hans. rewrite E in Hans. cbn in Hans.
    now rewrite andb_false_r in Hans.
  - right. exists g, first, others. cbn [hd]. auto.
Qed.

Lemma sound_found w a toolName addr :
  sound w a -> findMCPClientForTool a toolName = Some addr ->
  exists cl, nth_error (clients w) addr = Some cl.
Proof.
  intros S F. destruct (findMCPClientForTool_is_a_client a toolName) as [N|H].
  - rewrite N in F. discriminate.
  - destruct H as (g & first & others & Hin & _ & E & Hf). rewrite Hf in F. subst first.
    unfold sound in S. rewrite Forall_forall in S. specialize (S g Hin).
    rewrite E in S. inversion S as [|? ? (n & cl & Hn & Hcl) _]. injection Hn as ->.
    now exists cl.
Qed.

(** X17.  The tools of a group that was added are found.  After
    [AddActionGroup] has succeeded for a group with a client,
    [findMCPClientForTool] returns, for every tool the group has got, a
    client that exists (the first client of that group, or that of an
    earlier group with a tool of the same name). *)
Theorem registered_tools_are_found a actionGroup w a' w' :
  sound w a ->
  AddActionGroup a actionGroup w = (Ok a', w') ->
  MCPClients actionGroup <> [] ->
  exists tools,
    ActionGroups a'
    = (ActionGroups a ++
       [{| groupName := groupName actionGroup;
           MCPClients := MCPClients actionGroup;
           Tools := tools |}])%list
    /\ forall toolName,
         offers toolName tools = true ->
         present w' (findMCPClientForTool a' toolName).
Proof.
  intros S H NE. pose proof (sound_after_AddActionGroup _ _ _ _ _ S H) as S'.
  destruct (AddActionGroup_groups _ _ _ _ _ H) as (tools & _ & G).
  exists tools. split; [exact G|]. intros toolName O.
  destruct (findMCPClientForTool_is_a_client a' toolName) as [N|F].
  - exfalso. revert N. unfold findMCPClientForTool. rewrite findInGroups_first, G.
    destruct (find_first (answers toolName)
                (ActionGroups a ++
                 [{| groupName := groupName actionGroup;
                     MCPClients := MCPClients actionGroup;
                     Tools := tools |}])%list
                {| groupName := groupName actionGroup;
                   MCPClients := MCPClients actionGroup;
                   Tools := tools |}) as [g F].
    + apply in_or_app. right. now left.
    + unfold answers. cbn [Tools MCPClients]. rewrite O.
      destruct (MCPClients actionGroup); [contradiction|reflexivity].
    + rewrite F. destruct (find_some _ _ F) as [Hin Hans]. rewrite <- G in Hin.
      destruct (MCPClients g) as [|first others] eqn:E.
      * unfold answers in Hans. rewrite E in Hans. cbn in Hans.
        now rewrite andb_false_r in Hans.
      * cbn [hd]. intros ->. unfold sound in S'. rewrite Forall_forall in S'.
        specialize (S' g Hin). rewrite E in S'.
        inversion S' as [|? ? (n & cl & Hn & _) _]. discriminate.
  - destruct F as (g & first & others & Hin & _ & E & ->).
    unfold sound in S'. rewrite Forall_forall in S'. specialize (S' g Hin).
    rewrite E in S'. now inversion S'.
Qed.

Lemma AddActionGroup_requests_witness :
  sent (snd (AddActionGroup emptyAgent sampleGroup timeServer))
  = (sent timeServer ++
     [(localhost,
       json "{'jsonrpc':'2.0','id':1,'method':'initialize','params':{'capabilities':{'tools':{'listChanged':true}},'clientInfo':{'name':'bedrock-mcp-client','version':'1.0.0'},'protocolVersion':'2024-11-05'}}");
      (localhost, json "{'jsonrpc':'2.0','id':0,'method':'notifications/initialized','params':{}}");
      (localhost, json "{'jsonrpc':'2.0','id':3,'method':'tools/list'}")])%list
  /\ asked (snd (AddActionGroup emptyAgent sampleGroup timeServer)) = asked timeServer.
Proof.
  destruct (AddActionGroup_requests emptyAgent sampleGroup timeServer
              (agentOf [("SampleActionGroup", [(Some 0, [tool "time"])])])
              (snd (AddActionGroup emptyAgent sampleGroup timeServer)) eq_refl)
    as (H & _ & _ & K).
  split; [exact H|exact K].
Defined.

Lemma AddActionGroup_error_names_the_client_witness :
  exists c cause,
    In c [Some 0] /\ present (one_client [notFound]) c
    /\ (wrapError ("failed to initialize MCP client " ++ localhost ++ ": ")
          (httpError 404 "Not Found")
        = wrapError ("failed to initialize MCP client "
                     ++ urlOf (one_client [notFound]) c ++ ": ") cause
        \/ wrapError ("failed to initialize MCP client " ++ localhost ++ ": ")
             (httpError 404 "Not Found")
           = wrapError ("failed to list tools from "
                        ++ urlOf (one_client [notFound]) c ++ ": ") cause).
Proof.
  exact (AddActionGroup_error_names_the_client emptyAgent sampleGroup (one_client [notFound])
           (wrapError ("failed to initialize MCP client " ++ localhost ++ ": ")
              (httpError 404 "Not Found"))
           eq_refl).
Defined.

Lemma sound_emptyAgent w : sound w emptyAgent.
Proof. constructor. Qed.

Lemma AddActionGroup_keeps_sound_witness :
  sound (snd (AddActionGroup emptyAgent sampleGroup timeServer))
    (agentOf [("SampleActionGroup", [(Some 0, [tool "time"])])])
  /\ Forall (present timeServer) [Some 0].
Proof.
  exact (AddActionGroup_keeps_sound emptyAgent sampleGroup timeServer
           (agentOf [("SampleActionGroup", [(Some 0, [tool "time"])])])
           (snd (AddActionGroup emptyAgent sampleGroup timeServer))
           (sound_emptyAgent timeServer) eq_refl).
Defined.

Lemma registered_tools_are_found_witness :
  present (snd (AddActionGroup emptyAgent sampleGroup timeServer))
    (findMCPClientForTool (agentOf [("SampleActionGroup", [(Some 0, [tool "time"])])]) "time").
Proof.
  destruct (registered_tools_are_found emptyAgent sampleGroup timeServer
              (agentOf [("SampleActionGroup", [(Some 0, [tool "time"])])])
              (snd (AddActionGroup emptyAgent sampleGroup timeServer))
              (sound_emptyAgent timeServer) eq_refl) as (tools & G & F).
  - discriminate.
  - apply F. injection G as <-. reflexivity.
Defined.

(* ================================================================= *)
(** ** More on tool use and on the conversation *)

Lemma answered_returns id ex :
  (exists r, answered id ex = Ok r) \/ (exists e, answered id ex = Err e).
Proof.
  assert (forall msg d, (exists r, enveloped msg d = Ok r) \/ (exists e, enveloped msg d = Err e))
    as K.
  { intros msg [r|je]; cbn [enveloped]; [|right; eauto].
    destruct (Error r); [right|left]; eauto. }
  destruct ex as [msg|status [body [msg|]]]; cbn [answered failure data];
    [right; eauto|right; eauto|].
  unfold received. destruct (negb _); [right; eauto|].
  destruct (_ =? 0)%nat; [left; eauto|].
  destruct (HasPrefix _ _); [|apply K].
  destruct (String.eqb _ _); [left; eauto|apply K].
Qed.

(** On a client that exists [CallTool] returns, a result or an error. *)
Lemma CallTool_returns w a cl toolCall :
  nth_error (clients w) a = Some cl ->
  exists w',
    (exists result, CallTool (Some a) toolCall w = (Ok result, w'))
    \/ (exists e, CallTool (Some a) toolCall w = (Err e, w')).
Proof.
  intro Hcl. unfold CallTool, bind. rewrite (sendRequest_run _ _ _ _ _ Hcl).
  destruct (bad_url w (baseURL cl)); [eexists; right; eexists; reflexivity|].
  destruct (answered_returns (wrap64 (requestID cl + 1)) (network w (List.length (sent w))))
    as [[r ->]|[e ->]]; [|eexists; right; eexists; reflexivity].
  destruct (Unmarshal_ToolResult (marshal (Result r)));
    eexists; [left|right]; eexists; reflexivity.
Qed.

Section MoreToolUse.

Variable json_error_text : Json.error -> string.

(** What [handleToolUse] comes to: the map of a result under the id
    of the tool use, or the error of the missing name. *)
Lemma handleToolUse_outcome a toolUse w :
  match fst (handleToolUse json_error_text a toolUse w) with
  | Ok result => named toolUse
                 /\ exists content status, result = toolResultMap (idOf toolUse) content status
  | Err e => e = errorString "missing tool name" /\ asString (map_get "name" toolUse) = None
  | _ => named toolUse
  end.
Proof.
  unfold handleToolUse, named. fold (idOf toolUse).
  destruct (asString (map_get "name" toolUse)) as [name|]; [|now split].
  destruct (findMCPClientForTool a name) as [addr|]; [|cbn; eauto 6].
  unfold bind, try. destruct (CallTool _ _ w) as [[r|e|p|] w1]; cbn; eauto 6.
Qed.

Lemma handleToolUse_requested a toolUse w :
  exists more,
    requested more w (snd (handleToolUse json_error_text a toolUse w))
    /\ List.length more <= 1
    /\ (findMCPClientForTool a
          (match asString (map_get "name" toolUse) with Some n => n | None => "" end) = None
        -> more = []).
Proof.
  unfold handleToolUse.
  destruct (asString (map_get "name" toolUse)) as [name|];
    [|exists []; split; [apply requested_nil|split; [cbn; lia|reflexivity]]].
  destruct (findMCPClientForTool a name) as [addr|];
    [|exists []; split; [apply requested_nil|split; [cbn; lia|reflexivity]]].
  unfold bind, try.
  match goal with |- context [CallTool ?c ?tc w] =>
    destruct (CallTool_requested c tc w) as (more & R & _ & L);
    destruct (CallTool c tc w) as [[r|e|p|] w1]
  end; cbn [snd] in *; exists more; (split; [exact R|split; [exact L|discriminate]]).
Qed.


(** X19.  A call of the tool that fails is no failure of
    [handleToolUse].  The error becomes the text "Error executing
    tool: <error>" of a result with the status "error", and the loop of
    [Invoke] goes on with the block made of it. *)
Theorem handleToolUse_call_failure a toolUse name addr e w w' :
  asString (map_get "name" toolUse) = Some name ->
  findMCPClientForTool a name = Some addr ->
  CallTool (Some addr) {| callName := name; Arguments := inputOf toolUse |} w = (Err e, w') ->
  handleToolUse json_error_text a toolUse w =
  (Ok (toolResultMap (idOf toolUse)
         [textBlock ("Error executing tool: " ++ ErrorText json_error_text e)] "error"),
   w')
  /\ forall rest toolResults,
       processToolUses json_error_text a (toolUse :: rest) toolResults w =
       processToolUses json_error_text a rest
         (toolResults ++
          [toolResultBlock (idOf toolUse)
             ("Error executing tool: " ++ ErrorText json_error_text e)])%list
         w'.
Proof.
  intros Hname Hfind Hcall.
  assert (handleToolUse json_error_text a toolUse w =
          (Ok (toolResultMap (idOf toolUse)
                 [textBlock ("Error executing tool: " ++ ErrorText json_error_text e)]
                 "error"), w')) as H.
  { unfold handleToolUse. rewrite Hname, Hfind.
    unfold bind, try. fold (inputOf toolUse). now rewrite Hcall. }
  split; [exact H|]. intros rest toolResults.
  rewrite (processToolUses_step _ _ _ _ _ _ _ _ H). now rewrite toolResultOf_map.
Qed.

(** X20.  For an agent whose clients exist [handleToolUse] always
    returns: a result, or the error of the missing name (and then it
    has done nothing). *)
Theorem handleToolUse_returns a toolUse w :
  sound w a ->
  (exists result w', handleToolUse json_error_text a toolUse w = (Ok result, w'))
  \/ handleToolUse json_error_text a toolUse w = (Err (errorString "missing tool name"), w).
Proof.
  intro S. unfold handleToolUse.
  destruct (asString (map_get "name" toolUse)) as [name|]; [left|now right].
  destruct (findMCPClientForTool a name) as [addr|] eqn:F; [|do 2 eexists; reflexivity].
  destruct (sound_found _ _ _ _ S F) as [cl Hcl].
  unfold bind, try.
  match goal with |- context [CallTool ?c ?tc w] =>
    destruct (CallTool_returns w addr cl tc Hcl) as (w1 & [[r ->]|[e ->]])
  end; do 2 eexists; reflexivity.
Qed.

(** The map [Invoke] makes of a tool use of the assistant. *)
Lemma toolUseOf_made v w made w' :
  toolUseOf v w = (Ok made, w') ->
  w' = w
  /\ exists toolUseId name,
       types.ToolUseId v = Some toolUseId /\ types.Name v = Some name
       /\ asString (map_get "toolUseId" made) = Some toolUseId
       /\ asString (map_get "name" made) = Some name
       /\ inputOf made = [].
Proof.
  unfold toolUseOf.
  destruct (types.ToolUseId v) as [i|]; [|discriminate].
  destruct (types.Name v) as [n|]; [|discriminate].
  intro E. injection E as <- <-. split; [reflexivity|]. exists i, n. repeat split.
Qed.

(** X21.  The input of a tool use does not reach the tool.  [Invoke]
    puts the document of the SDK under "input", [handleToolUse] looks
    for a map there: the call of the tool is made with the name of the
    tool and with no arguments. *)
Theorem tool_input_is_dropped v w0 made w0' a addr cl w name :
  toolUseOf v w0 = (Ok made, w0') ->
  types.Name v = Some name ->
  findMCPClientForTool a name = Some addr ->
  nth_error (clients w) addr = Some cl ->
  bad_url w (baseURL cl) = None ->
  inputOf made = []
  /\ sent (snd (handleToolUse json_error_text a made w)) =
     (sent w ++
      [(baseURL cl,
        marshal_MCPRequest
          {| reqJSONRPC := "2.0"; reqID := wrap64 (requestID cl + 1);
             reqMethod := "tools/call";
             reqParams := GoMap [("arguments", GoMap []); ("name", GoString name)] |})])%list.
Proof.
  intros Hmade Hname Hfind Hcl Hurl.
  destruct (toolUseOf_made _ _ _ _ Hmade) as (_ & i & n & _ & Hn & _ & Hname' & Hin).
  rewrite Hname in Hn. injection Hn as <-.
  split; [exact Hin|].
  unfold handleToolUse. rewrite Hname', Hfind. fold (inputOf made). rewrite Hin.
  unfold bind, try.
  pose proof (CallTool_world (Some addr) {| callName := name; Arguments := [] |} w) as W.
  rewrite (sendRequest_world _ _ _ _ _ Hcl), Hurl in W.
  destruct (CallTool (Some addr) {| callName := name; Arguments := [] |} w)
    as [[r|e|p|] w1]; cbn [snd] in *; subst w1; reflexivity.
Qed.

(** The loop over the tool uses, seen from outside. *)
Lemma processToolUses_requested a toolUses :
  forall toolResults w,
  exists more,
    requested more w (snd (processToolUses json_error_text a toolUses toolResults w))
    /\ List.length more <= List.length toolUses.
Proof.
  induction toolUses as [|toolUse rest IH]; intros toolResults w.
  - exists []. split; [apply requested_nil|cbn; lia].
  - cbn [processToolUses]. unfold bind at 1, try.
    destruct (handleToolUse_requested a toolUse w) as (m1 & R1 & L1 & _).
    pose proof (handleToolUse_outcome a toolUse w) as O.
    destruct (handleToolUse json_error_text a toolUse w) as [[result|e|p|] w1];
      cbn [fst snd List.length] in *; try (exists m1; split; [exact R1|lia]).
    destruct O as (_ & content & status & ->).
    unfold bind. rewrite toolResultOf_map.
    destruct (IH (toolResults ++ [toolResultBlock (idOf toolUse) (contentText content "")])%list
                w1) as (m2 & R2 & L2).
    exists (m1 ++ m2)%list. split; [exact (requested_app _ _ _ _ _ R1 R2)|].
    rewrite length_app. lia.
Qed.

Lemma processToolUses_blocks a toolUses :
  forall toolResults w results w',
    processToolUses json_error_text a toolUses toolResults w = (Ok results, w') ->
    exists texts,
      List.length texts = List.length toolUses
      /\ results =
         (toolResults ++
          map (fun made => toolResultBlock (idOf (fst made)) (snd made))
            (combine toolUses texts))%list.
Proof.
  induction toolUses as [|toolUse rest IH]; intros toolResults w results w' H.
  - injection H as <- _. exists []. now rewrite List.app_nil_r.
  - cbn [processToolUses] in H. unfold bind at 1, try in H.
    pose proof (handleToolUse_outcome a toolUse w) as O.
    destruct (handleToolUse json_error_text a toolUse w) as [[result|e|p|] w1];
      cbn [fst] in O; try discriminate.
    destruct O as (_ & content & status & ->).
    unfold bind in H. rewrite toolResultOf_map in H.
    destruct (IH _ _ _ _ H) as (texts & L & ->).
    exists (contentText content "" :: texts). split; [cbn; now rewrite L|].
    cbn [combine map fst snd]. now rewrite <- List.app_assoc.
Qed.

(** X22.  One block for every tool use.  When the loop of [Invoke]
    over the tool uses of a turn ends, it has made one block for each
    of them, in their order, each under the id of its tool use, and at
    most one request for each. *)
Theorem processToolUses_answers_each a toolUses w results w' :
  processToolUses json_error_text a toolUses [] w = (Ok results, w') ->
  (exists texts,
      List.length texts = List.length toolUses
      /\ results =
         map (fun made => toolResultBlock (idOf (fst made)) (snd made))
           (combine toolUses texts))
  /\ exists more,
       sent w' = (sent w ++ more)%list /\ List.length more <= List.length toolUses.
Proof.
  intro H. split; [exact (processToolUses_blocks _ _ _ _ _ _ H)|].
  destruct (processToolUses_requested a toolUses [] w) as (more & R & L).
  rewrite H in R. exists more. split; [apply R|exact L].
Qed.

(** The loop over the content of the assistant's message. *)
Lemma scanContent_run content :
  forall toolUses textResponse w,
    snd (scanContent content toolUses textResponse w) = w
    /\ match fst (scanContent content toolUses textResponse w) with
       | Ok scanned =>
           (Forall named toolUses -> Forall named (fst scanned))
           /\ (existsb asksForTool content = false ->
               scanned = (toolUses, textResponse ++ textOf content))
       | Err _ | Unfinished => False
       | Panic _ => existsb asksForTool content = true
       end.
Proof.
  induction content as [|block rest IH]; intros toolUses textResponse w.
  - cbn. rewrite append_nil_r. auto.
  - destruct block as [v|v|v|]; cbn [scanContent existsb asksForTool orb textOf].
    + destruct (IH toolUses (textResponse ++ v) w) as [W O]. split; [exact W|].
      destruct (fst (scanContent rest toolUses (textResponse ++ v) w)); auto.
      destruct O as [N T]. split; [exact N|]. intro E. rewrite (T E).
      now rewrite append_assoc.
    + unfold bind. destruct (toolUseOf v w) as [[made|e|p|] w1] eqn:M;
        try (unfold toolUseOf in M; destruct (types.ToolUseId v), (types.Name v);
             discriminate).
      * destruct (toolUseOf_made _ _ _ _ M) as (-> & i & n & _ & _ & _ & Hn & _).
        destruct (IH (toolUses ++ [made])%list textResponse w) as [W O]. split; [exact W|].
        destruct (fst (scanContent rest (toolUses ++ [made])%list textResponse w)); auto.
        destruct O as [N _]. split; [|discriminate].
        intro F. apply N. apply Forall_app. split; [exact F|].
        constructor; [now exists n|constructor].
      * assert (w1 = w) as ->.
        { unfold toolUseOf, panic, ret in M.
          destruct (types.ToolUseId v), (types.Name v); now injection M. }
        cbn. auto.
    + apply IH.
    + apply IH.
Qed.

Lemma processToolUses_named a toolUses :
  Forall named toolUses ->
  forall toolResults w e,
    fst (processToolUses json_error_text a toolUses toolResults w) <> Err e.
Proof.
  induction 1 as [|toolUse rest [name Hname] _ IH]; intros toolResults w e; [discriminate|].
  cbn [processToolUses]. unfold bind at 1, try.
  pose proof (handleToolUse_outcome a toolUse w) as O.
  destruct (handleToolUse json_error_text a toolUse w) as [[result|e'|p|] w1];
    cbn [fst] in O; try discriminate.
  - destruct O as (_ & content & status & ->).
    unfold bind. rewrite toolResultOf_map. apply IH.
  - destruct O as [_ N]. rewrite Hname in N. discriminate.
Qed.

Lemma conversation_errors fuel :
  forall a input messages w e,
    fst (conversation json_error_text fuel a input messages w) = Err e ->
    exists msg, e = wrapError "bedrock converse failed: " (libError msg).
Proof.
  induction fuel as [|fuel IH]; intros a input messages w e; [discriminate|].
  rewrite conversation_turn. unfold turn, bind at 1, Converse.
  destruct (backend w (List.length (asked w))) as [msg|content].
  - cbn. intro H. injection H as <-. now exists msg.
  - unfold bind at 1.
    destruct (scanContent_run content [] "" (with_asked w (asked w ++ [input])%list)) as [W O].
    destruct (scanContent content [] "" (with_asked w (asked w ++ [input])%list))
      as [[[toolUses text]|e'|p|] w1]; cbn [fst snd] in *; try contradiction;
      try discriminate.
    destruct O as [N _]. specialize (N (Forall_nil _)).
    destruct toolUses as [|toolUse toolUses]; [discriminate|].
    unfold bind.
    pose proof (processToolUses_named a _ N [] w1) as P.
    destruct (processToolUses json_error_text a (toolUse :: toolUses) [] w1)
      as [[results|e'|p|] w2]; cbn [fst] in *; try discriminate.
    + apply IH.
    + now elim (P e').
Qed.

(** X23.  [Invoke] returns an error only when a call of the model
    has failed, and the error says so.  No failure of a tool, of its
    server or of the transport ends the conversation with an error. *)
Theorem Invoke_fails_only_with_the_model fuel a inputText w e :
  fst (Invoke json_error_text fuel a inputText w) = Err e ->
  exists msg, e = wrapError "bedrock converse failed: " (libError msg).
Proof. unfold Invoke. apply conversation_errors. Qed.

(** X24.  An answer without a tool use ends the conversation at
    once.  [Invoke] returns the texts of its text blocks, one after the
    other, having called the model once, with the text of the user as
    the only message, and having made no request to any server. *)
Theorem Invoke_plain_answer fuel a inputText w content :
  backend w (List.length (asked w)) = ConverseReturns content ->
  existsb asksForTool content = false ->
  Invoke json_error_text (S fuel) a inputText w =
  (Ok (textOf content), with_asked w (asked w ++ [firstInput a inputText])%list).
Proof.
  intros Hb Hc. unfold Invoke. fold (userMessage inputText). fold (firstInput a inputText).
  rewrite conversation_turn. unfold turn, bind at 1, Converse. rewrite Hb.
  unfold bind.
  destruct (scanContent_run content [] "" (with_asked w (asked w ++ [firstInput a inputText])%list))
    as [W O].
  destruct (scanContent content [] "" (with_asked w (asked w ++ [firstInput a inputText])%list))
    as [[scanned|e'|p|] w1]; cbn [fst snd] in *; try contradiction.
  - destruct O as [_ T]. rewrite (T Hc). cbn [fst snd]. now subst w1.
  - rewrite Hc in O. discriminate.
Qed.

Lemma conversation_history fuel :
  forall a first messages w,
  exists calls,
    asked (snd (conversation json_error_text fuel a (withMessages first messages) messages w))
    = (asked w ++ calls)%list
    /\ ((fuel = 0 /\ calls = [])
        \/ exists rest,
             calls = withMessages first messages :: rest
             /\ continues json_error_text a first messages w rest).
Proof.
  induction fuel as [|fuel IH]; intros a first messages w.
  - exists []. cbn. rewrite List.app_nil_r. auto.
  - rewrite conversation_turn. unfold turn, bind at 1, Converse.
    set (input := withMessages first messages).
    set (w0 := with_asked w (asked w ++ [input])%list).
    assert (exists calls,
              asked w0 = (asked w ++ calls)%list
              /\ ((S fuel = 0 /\ calls = [])
                  \/ exists rest,
                       calls = input :: rest
                       /\ continues json_error_text a first messages w rest))
      as Stop.
    { exists [input]. split; [reflexivity|]. right. exists []. now split. }
    destruct (backend w (List.length (asked w))) as [msg|content] eqn:B; [exact Stop|].
    unfold bind at 1.
    destruct (scanContent_run content [] "" w0) as [W _].
    destruct (scanContent content [] "" w0) as [[[toolUses text]|e|p|] w1] eqn:Sc;
      cbn [fst snd] in *; subst w1; try exact Stop.
    destruct toolUses as [|toolUse toolUses]; [exact Stop|].
    unfold bind.
    destruct (processToolUses_requested a (toolUse :: toolUses) [] w0)
      as (more & R & _).
    destruct (processToolUses json_error_text a (toolUse :: toolUses) [] w0)
      as [[results|e|p|] w2] eqn:P; cbn [snd] in R;
      try (destruct R as (_ & _ & _ & A & _ & _); cbn [snd]; rewrite A; exact Stop).
    destruct R as (_ & _ & _ & A & _ & _).
    match goal with |- context [conversation _ fuel a ?i ?m w2] =>
      destruct (IH a first m w2) as (calls & E & C);
      change i with (withMessages first m)
    end.
    exists (input :: calls). split.
    + rewrite E, A. unfold w0. cbn [asked with_asked]. now rewrite <- List.app_assoc.
    + right. exists calls. split; [reflexivity|].
      destruct C as [[_ ->]|(rest & -> & C)]; [exact I|].
      cbn [continues].
      exists content, (toolUse :: toolUses, text), results, w0, w2.
      split; [unfold Converse; fold input; fold w0; now rewrite B|].
      split; [exact Sc|]. split; [discriminate|]. split; [exact P|].
      split; [now rewrite <- List.app_assoc|].
      exact C.
Qed.

(** X25.  The history of the conversation.  The calls of the model
    [Invoke] makes start with the text of the user as the only
    message.  Every later call is made after the model has answered the
    call before it with a content that asks for a tool, and has the
    messages of the call before it, then that content as the reply of
    the assistant, then one message of the user with the results the
    loop over the tool uses of that content has returned; the model,
    the system prompt and the tool configuration are those of the
    first call throughout. *)
Theorem Invoke_history fuel a inputText w :
  exists calls,
    asked (snd (Invoke json_error_text fuel a inputText w)) = (asked w ++ calls)%list
    /\ ((fuel = 0 /\ calls = [])
        \/ exists rest,
             calls = firstInput a inputText :: rest
             /\ continues json_error_text a (firstInput a inputText)
                  [userMessage inputText] w rest).
Proof.
  exact (conversation_history fuel a (firstInput a inputText) [userMessage inputText] w).
Qed.

End MoreToolUse.

Lemma handleToolUse_call_failure_witness :
  fst (handleToolUse errorText timeAgent timeToolUseMap (one_client [notFound]))
  = Ok (toolResultMap "tooluse_1"
          [textBlock "Error executing tool: HTTP error: 404 - Not Found"] "error").
Proof.
  rewrite (proj1 (handleToolUse_call_failure errorText timeAgent timeToolUseMap "time" 0
                    (httpError 404 "Not Found") (one_client [notFound])
                    (snd (CallTool (Some 0) {| callName := "time"; Arguments := [] |}
                            (one_client [notFound])))
                    eq_refl eq_refl eq_refl)).
  reflexivity.
Defined.

Lemma handleToolUse_returns_witness :
  (exists result w',
      handleToolUse errorText timeAgent timeToolUseMap timeWorld = (Ok result, w'))
  \/ handleToolUse errorText timeAgent timeToolUseMap timeWorld
     = (Err (errorString "missing tool name"), timeWorld).
Proof.
  apply (handleToolUse_returns errorText timeAgent timeToolUseMap timeWorld).
  repeat constructor. now exists 0, {| baseURL := localhost; requestID := 3 |}.
Defined.

Lemma tool_input_is_dropped_witness :
  inputOf timeToolUseMap = []
  /\ sent (snd (handleToolUse errorText timeAgent timeToolUseMap timeWorld)) =
     [(localhost,
       json "{'jsonrpc':'2.0','id':4,'method':'tools/call','params':{'arguments':{},'name':'time'}}")].
Proof.
  exact (tool_input_is_dropped errorText timeToolUse timeWorld timeToolUseMap timeWorld
           timeAgent 0 {| baseURL := localhost; requestID := 3 |} timeWorld "time"
           eq_refl eq_refl eq_refl eq_refl eq_refl).
Defined.

Lemma processToolUses_answers_each_witness :
  (exists texts,
      List.length texts = 1
      /\ [toolResultBlock "tooluse_1" "12:00:00Z"] =
         map (fun made => toolResultBlock (idOf (fst made)) (snd made))
           (combine [timeToolUseMap] texts))
  /\ exists more,
       sent (snd (processToolUses errorText timeAgent [timeToolUseMap] [] twoBlocksWorld))
       = (sent twoBlocksWorld ++ more)%list
       /\ List.length more <= 1.
Proof.
  exact (processToolUses_answers_each errorText timeAgent [timeToolUseMap] twoBlocksWorld
           [toolResultBlock "tooluse_1" "12:00:00Z"]
           (snd (processToolUses errorText timeAgent [timeToolUseMap] [] twoBlocksWorld))
           eq_refl).
Defined.

Lemma Invoke_fails_only_with_the_model_witness :
  exists msg,
    wrapError "bedrock converse failed: " (libError "no more turns")
    = wrapError "bedrock converse failed: " (libError msg).
Proof.
  exact (Invoke_fails_only_with_the_model errorText 1 timeAgent "time?" (world_of [] [])
           (wrapError "bedrock converse failed: " (libError "no more turns")) eq_refl).
Defined.

Lemma Invoke_plain_answer_witness :
  fst (Invoke errorText 1 timeAgent "hello" greetingWorld) = Ok "Hello there".
Proof.
  now rewrite (Invoke_plain_answer errorText 0 timeAgent "hello" greetingWorld
                 [types.ContentBlockMemberText "Hello"; types.ContentBlockMemberOther;
                  types.ContentBlockMemberText " there"] eq_refl eq_refl).
Defined.

(* ================================================================= *)
(** ** The tool handler program *)

(** The run of its [sendRequest] for a client that exists. *)
Lemma ToolHandler_sendRequest_run w a cl method params :
  nth_error (clients w) a = Some cl ->
  ToolHandler.sendRequest (Some a) method params w =
  match bad_url w (baseURL cl) with
  | Some msg =>
      (Err (wrapError "failed to create HTTP request: " (libError msg)), counted w a cl)
  | None =>
      (drained (wrap64 (requestID cl + 1)) (network w (List.length (sent w))),
       posted w a cl method params)
  end.
Proof.
  intros Hcl.
  unfold ToolHandler.sendRequest, bind, nextRequestID, load, NewRequest, Do.
  rewrite Hcl. cbv beta iota. autorewrite with world.
  rewrite (nth_error_update_same _ _ _ _ Hcl).
  cbv beta iota. cbn [baseURL]. autorewrite with world.
  destruct (bad_url w (baseURL cl)); [reflexivity|].
  cbv beta iota. autorewrite with world.
  destruct (network w (List.length (sent w))) as [msg|status [body [msg|]]];
    try reflexivity.
  unfold drained, posted, counted. cbn [ReadAll failure data].
  destruct (negb (status =? 200)%Z); reflexivity.
Qed.

Lemma ToolHandler_sendRequest_unallocated w a method params :
  nth_error (clients w) a = None ->
  ToolHandler.sendRequest (Some a) method params w = (Panic nilDereference, w).
Proof.
  intros Hcl. unfold ToolHandler.sendRequest, bind, nextRequestID. now rewrite Hcl.
Qed.

Lemma ToolHandler_sendRequest_null c method params w r :
  fst (ToolHandler.sendRequest c method params w) = Ok r ->
  exists id, r = emptyResponse id.
Proof.
  destruct c as [a|]; [|discriminate].
  destruct (nth_error (clients w) a) as [cl|] eqn:Hcl;
    [|rewrite (ToolHandler_sendRequest_unallocated _ _ _ _ Hcl); discriminate].
  rewrite (ToolHandler_sendRequest_run _ _ _ _ _ Hcl).
  destruct (bad_url w (baseURL cl)); [discriminate|].
  destruct (network w (List.length (sent w))) as [msg|status [body [msg|]]];
    try discriminate.
  cbn [fst drained failure data]. destruct (negb _); [discriminate|].
  intro H. injection H as <-. eauto.
Qed.

(** X26.  The [sendRequest] of the tool handler program never
    returns what the server said.  It reads the body a second time,
    from the stream it has just read to its end, so every response it
    accepts comes back as the envelope with a null result; the result
    with the raw text and the path of the SSE body are never taken. *)
Theorem ToolHandler_result_is_always_null c method params w r :
  fst (ToolHandler.sendRequest c method params w) = Ok r ->
  Result r = Nil /\ Error r = None /\ JSONRPC r = "2.0".
Proof.
  intro H. destruct (ToolHandler_sendRequest_null _ _ _ _ _ H) as [id ->]. now repeat split.
Qed.

Lemma ToolHandler_result_is_always_null_witness :
  Result (emptyResponse 1) = Nil /\ Error (emptyResponse 1) = None
  /\ JSONRPC (emptyResponse 1) = "2.0".
Proof.
  exact (ToolHandler_result_is_always_null (Some 0) "tools/list" Nil
           (one_client [toolsReply "time"]) (emptyResponse 1) eq_refl).
Defined.

Lemma ToolHandler_ListTools_fails c w tools : fst (ToolHandler.ListTools c w) <> Ok tools.
Proof.
  unfold ToolHandler.ListTools, bind.
  destruct (ToolHandler.sendRequest c "tools/list" Nil w) as [[r|e|p|] w1] eqn:S;
    try discriminate.
  assert (fst (ToolHandler.sendRequest c "tools/list" Nil w) = Ok r) as H by now rewrite S.
  destruct (ToolHandler_sendRequest_null _ _ _ _ _ H) as [id ->]. discriminate.
Qed.

(** X27.  In the tool handler program [ListTools] never succeeds.
    Whatever the server answers, the call ends in an error; when the
    request itself went well, in the error "unexpected response
    format". *)
Theorem ToolHandler_ListTools_never_succeeds c w :
  (forall tools, fst (ToolHandler.ListTools c w) <> Ok tools)
  /\ (forall r,
        fst (ToolHandler.sendRequest c "tools/list" Nil w) = Ok r ->
        fst (ToolHandler.ListTools c w) = Err (errorString "unexpected response format")).
Proof.
  split; [intro tools; apply ToolHandler_ListTools_fails|].
  intros r H. destruct (ToolHandler_sendRequest_null _ _ _ _ _ H) as [id ->].
  revert H. unfold ToolHandler.ListTools, bind.
  destruct (ToolHandler.sendRequest c "tools/list" Nil w) as [[r|e|p|] w1];
    try discriminate.
  cbn [fst]. intro H. injection H as ->. reflexivity.
Qed.

Lemma Handler_Initialize_fails h w tools : fst (Handler.Initialize h w) <> Ok tools.
Proof.
  unfold Handler.Initialize, bind, try.
  destruct (ToolHandler.Initialize (Handler.mcpClient h) w) as [[[]|e|p|] w1];
    try discriminate.
  pose proof (ToolHandler_ListTools_fails (Handler.mcpClient h) w1) as L.
  destruct (ToolHandler.ListTools (Handler.mcpClient h) w1) as [[ts|e|p|] w2];
    try discriminate.
  now elim (L ts).
Qed.

Lemma checkNotification_checked text w :
  ToolHandler.checkNotification text w = (checked text, w).
Proof.
  unfold ToolHandler.checkNotification, checked.
  destruct (Unmarshal_MCPResponse text) as [r|je]; [|reflexivity].
  destruct (Error r); reflexivity.
Qed.

Lemma checked_nothing : checked "" = Ok tt.
Proof. unfold checked. now rewrite Unmarshal_empty. Qed.

(** The run of its [Initialize] for a client that exists. *)
Lemma ToolHandler_Initialize_run w a cl :
  nth_error (clients w) a = Some cl ->
  ToolHandler.Initialize (Some a) w =
  match bad_url w (baseURL cl) with
  | Some msg =>
      (Err (wrapError "failed to create HTTP request: " (libError msg)), counted w a cl)
  | None =>
      let w1 := posted w a cl "initialize" initializeParams in
      match drained (wrap64 (requestID cl + 1)) (network w (List.length (sent w))) with
      | Ok _ =>
          (match network w (S (List.length (sent w))) with
           | DoFails msg => Err (wrapError "notification request failed: " (libError msg))
           | Responds _ b =>
               match failure b with
               | Some msg =>
                   Err (wrapError "failed to read notification response: " (libError msg))
               | None => checked (payload (data b))
               end
           end, notified w1 a (after 1 cl))
      | Err e => (Err e, w1)
      | Panic p => (Panic p, w1)
      | Unfinished => (Unfinished, w1)
      end
  end.
Proof.
  intro Hcl. unfold ToolHandler.Initialize. unfold bind at 1.
  rewrite (ToolHandler_sendRequest_run _ _ _ _ _ Hcl).
  destruct (bad_url w (baseURL cl)) as [msg|] eqn:Hurl; [reflexivity|].
  cbv zeta.
  destruct (drained _ _) as [r|e|p|]; try reflexivity.
  pose proof (nth_error_posted w a cl "initialize" initializeParams Hcl) as Hcl1.
  set (w1 := posted w a cl "initialize" initializeParams) in *.
  unfold bind, nextRequestID, load, NewRequest, Do.
  rewrite Hcl1. cbv beta iota. autorewrite with world.
  rewrite (nth_error_update_same _ _ _ _ Hcl1).
  cbv beta iota. cbn [baseURL after]. autorewrite with world.
  change (bad_url w1 (baseURL cl)) with (bad_url w (baseURL cl)). rewrite Hurl.
  cbv beta iota. autorewrite with world.
  replace (network w1 (List.length (sent w1))) with (network w (S (List.length (sent w)))).
  - destruct (network w (S (List.length (sent w)))) as [msg|status [body [msg|]]];
      try reflexivity.
    cbn [ReadAll failure data]. unfold payload.
    destruct body as [|c body].
    { change (HasPrefix "" "event:") with false.
      change (0 <? String.length "")%nat with false. cbv iota.
      now rewrite checked_nothing. }
    change (0 <? String.length (String c body))%nat with true. cbv iota.
    destruct (HasPrefix (String c body) "event:"); [|apply checkNotification_checked].
    destruct (String.eqb_spec (extractSSEData (String c body)) "") as [->|NE]; cbn [negb];
      [now rewrite checked_nothing|apply checkNotification_checked].
  - subst w1. unfold posted. autorewrite with world.
    rewrite length_app. cbn [List.length]. now rewrite Nat.add_1_r.
Qed.

Lemma drained_returns id ex :
  (exists r, drained id ex = Ok r) \/ (exists e, drained id ex = Err e).
Proof.
  destruct ex as [msg|status [body [msg|]]]; cbn [drained failure data];
    [right; eauto|right; eauto|].
  destruct (negb _); [right|left]; eauto.
Qed.

Lemma checked_returns text : checked text = Ok tt \/ exists e, checked text = Err e.
Proof.
  unfold checked. destruct (Unmarshal_MCPResponse text) as [r|je]; [|now left].
  destruct (Error r); [right|left]; eauto.
Qed.

Lemma ToolHandler_Initialize_returns w a cl :
  nth_error (clients w) a = Some cl ->
  exists more,
    requested more w (snd (ToolHandler.Initialize (Some a) w))
    /\ (fst (ToolHandler.Initialize (Some a) w) = Ok tt
        \/ exists e, fst (ToolHandler.Initialize (Some a) w) = Err e).
Proof.
  intro Hcl. rewrite (ToolHandler_Initialize_run _ _ _ Hcl).
  destruct (bad_url w (baseURL cl)).
  - exists []. split; [now apply counted_requested|right; eexists; reflexivity].
  - cbv zeta.
    pose proof (posted_requested w a cl "initialize" initializeParams Hcl) as P.
    pose proof (notified_requested _ _ _
                  (nth_error_posted w a cl "initialize" initializeParams Hcl)) as N.
    destruct (drained_returns (wrap64 (requestID cl + 1)) (network w (List.length (sent w))))
      as [[r ->]|[e ->]]; [|eexists; split; [exact P|right; eexists; reflexivity]].
    eexists. split; [exact (requested_app _ _ _ _ _ P N)|]. cbn [fst].
    destruct (network w (S (List.length (sent w)))) as [msg|status [body [msg|]]];
      [right; eexists; reflexivity|right; eexists; reflexivity|apply checked_returns].
Qed.

Lemma ToolHandler_ListTools_returns w a cl :
  nth_error (clients w) a = Some cl ->
  exists e, fst (ToolHandler.ListTools (Some a) w) = Err e.
Proof.
  intro Hcl. unfold ToolHandler.ListTools, bind.
  rewrite (ToolHandler_sendRequest_run _ _ _ _ _ Hcl).
  destruct (bad_url w (baseURL cl)); [eexists; reflexivity|].
  destruct (drained_returns (wrap64 (requestID cl + 1)) (network w (List.length (sent w))))
    as [[r E]|[e ->]]; [|eexists; reflexivity].
  rewrite E. revert E.
  destruct (network w (List.length (sent w))) as [msg|status [body [msg|]]];
    cbn [drained failure data]; try discriminate.
  destruct (negb _); [discriminate|]. intro H. injection H as <-.
  eexists; reflexivity.
Qed.

Lemma Handler_Initialize_returns h w :
  present w (Handler.mcpClient h) -> exists e, fst (Handler.Initialize h w) = Err e.
Proof.
  intros (a & cl & Hc & Hcl). unfold Handler.Initialize, bind, try. rewrite Hc.
  destruct (ToolHandler_Initialize_returns w a cl Hcl) as (more & R & [O|[e O]]).
  - destruct (ToolHandler.Initialize (Some a) w) as [[[]|e|p|] w1]; cbn [fst snd] in *;
      try discriminate.
    destruct (present_requested _ _ _ _ R (ex_intro _ a (ex_intro _ cl (conj eq_refl Hcl))))
      as (a' & cl' & Ha & Hcl').
    injection Ha as <-.
    destruct (ToolHandler_ListTools_returns w1 a cl' Hcl') as [e E].
    destruct (ToolHandler.ListTools (Some a) w1) as [[ts|e'|p|] w2]; cbn [fst] in *;
      try discriminate.
    eexists; reflexivity.
  - destruct (ToolHandler.Initialize (Some a) w) as [[[]|e'|p|] w1]; cbn [fst] in *;
      try discriminate.
    eexists; reflexivity.
Qed.

Section Serving.

Variable json_error_text : Json.error -> string.

(** X30.  The tool handler program never gets to serve.  The
    [Initialize] of its handler never succeeds, since [ListTools] does
    not, and [main] ends with [log.Fatal] before it registers its
    endpoints. *)
Theorem main_never_serves w :
  (forall h tools, fst (Handler.Initialize h w) <> Ok tools)
  /\ exists msg, fst (Handler.main json_error_text w) = Ok (Handler.Fatal msg).
Proof.
  split; [intros h tools; apply Handler_Initialize_fails|].
  unfold Handler.main. cbn [Handler.connect]. unfold bind at 1 2.
  unfold Handler.NewBedrockToolHandler, bind at 1. unfold NewMCPClient at 1. cbv beta iota.
  unfold ret at 1. cbv beta iota. unfold bind at 1, try at 1.
  cbn [Handler.mcpClient].
  set (w0 := with_clients w _).
  assert (nth_error (clients w0) (List.length (clients w))
          = Some {| baseURL := "http://localhost:3001/mcp"; requestID := 0 |}) as Hcl.
  { unfold w0. autorewrite with world. rewrite nth_error_app2 by lia.
    now rewrite Nat.sub_diag. }
  destruct (ToolHandler_Initialize_returns w0 _ _ Hcl) as (more & R & [O|[e O]]).
  - destruct (ToolHandler.Initialize (Some (List.length (clients w))) w0)
      as [[[]|e|p|] w1]; cbn [fst snd] in *; try discriminate.
    unfold ret at 1. cbv beta iota. unfold bind, try.
    destruct (Handler_Initialize_returns
                {| Handler.mcpClient := Some (List.length (clients w)) |} w1) as [e E].
    { apply (present_requested _ _ _ _ R). eexists _, _. split; [reflexivity|exact Hcl]. }
    destruct (Handler.Initialize _ w1) as [[ts|e'|p|] w2]; cbn [fst] in *; try discriminate.
    eexists; reflexivity.
  - destruct (ToolHandler.Initialize (Some (List.length (clients w))) w0)
      as [[[]|e'|p|] w1]; cbn [fst] in *; try discriminate.
    eexists; reflexivity.
Qed.

End Serving.

Section HandlerToolUse.

Variable json_error_text : Json.error -> string.

(** X29.  The handler of the tool handler program reports a success
    without content for every response with status 200, whatever the
    tool has answered, an error of the tool or of the protocol
    included. *)
Theorem HandleToolUse_reports_an_empty_success h toolUse name a cl w body :
  asString (map_get "name" toolUse) = Some name ->
  Handler.mcpClient h = Some a ->
  nth_error (clients w) a = Some cl ->
  bad_url w (baseURL cl) = None ->
  network w (List.length (sent w)) = Responds 200 {| data := body; failure := None |} ->
  fst (Handler.HandleToolUse json_error_text h toolUse w)
  = Ok (toolResultMap (idOf toolUse) [] "success").
Proof.
  intros Hname Hh Hcl Hurl Hnet.
  unfold Handler.HandleToolUse. rewrite Hname, Hh. fold (idOf toolUse).
  unfold bind, try, ToolHandler.CallTool, bind.
  rewrite (ToolHandler_sendRequest_run _ _ _ _ _ Hcl), Hurl, Hnet.
  reflexivity.
Qed.

End HandlerToolUse.

Lemma HandleToolUse_reports_an_empty_success_witness :
  fst (Handler.HandleToolUse errorText timeHandler echoToolUse
         (one_client [reply methodNotFoundBody]))
  = Ok (toolResultMap "tooluse_9" [] "success").
Proof.
  exact (HandleToolUse_reports_an_empty_success errorText timeHandler echoToolUse "echo" 0
           newClient (one_client [reply methodNotFoundBody]) methodNotFoundBody
           eq_refl eq_refl eq_refl eq_refl eq_refl).
Defined.

Lemma ToolHandler_ListTools_never_succeeds_witness :
  fst (ToolHandler.ListTools (Some 0) (one_client [toolsReply "time"]))
  = Err (errorString "unexpected response format").
Proof.
  exact (proj2 (ToolHandler_ListTools_never_succeeds (Some 0) (one_client [toolsReply "time"]))
           (emptyResponse 1) eq_refl).
Defined.

(** X28.  The [Initialize] of the tool handler program and the
    response to its notification.  When the initialize request went
    well and the response to the notification was read, the call fails
    exactly if that response, whatever its status, holds an envelope
    with an error; a body that is empty or is no envelope lets it
    succeed. *)
Theorem ToolHandler_Initialize_checks_the_notification w a cl r status body :
  nth_error (clients w) a = Some cl ->
  bad_url w (baseURL cl) = None ->
  fst (ToolHandler.sendRequest (Some a) "initialize" initializeParams w) = Ok r ->
  network w (S (List.length (sent w)))
  = Responds status {| data := body; failure := None |} ->
  fst (ToolHandler.Initialize (Some a) w) =
  match Unmarshal_MCPResponse (payload body) with
  | Decoded notifyResp =>
      match Error notifyResp with
      | Some e => Err (ToolHandler.notificationError e)
      | None => Ok tt
      end
  | Failed _ => Ok tt
  end.
Proof.
  intros Hcl Hurl Hreq Hnet.
  rewrite (ToolHandler_sendRequest_run _ _ _ _ _ Hcl), Hurl in Hreq. cbn [fst] in Hreq.
  rewrite (ToolHandler_Initialize_run _ _ _ Hcl), Hurl. cbv zeta. rewrite Hreq, Hnet.
  reflexivity.
Qed.

Lemma ToolHandler_Initialize_checks_the_notification_witness :
  fst (ToolHandler.Initialize (Some 0)
         (one_client [initializeReply;
                      Responds 500 {| data := methodNotFoundBody; failure := None |}]))
  = Err (ToolHandler.notificationError methodNotFound).
Proof.
  exact (ToolHandler_Initialize_checks_the_notification
           (one_client [initializeReply;
                        Responds 500 {| data := methodNotFoundBody; failure := None |}])
           0 newClient (emptyResponse 1) 500%Z methodNotFoundBody
           eq_refl eq_refl eq_refl eq_refl).
Defined.

Lemma sendRequest_too_long_witness :
  fst (sendRequest (Some 0) "tools/list" Nil (one_client [reply longBody]))
  = Ok (emptyResponse 1).
Proof.
  apply (sendRequest_too_long (one_client [reply longBody]) 0 newClient "tools/list" Nil
           ["event: message"] longLine "" eq_refl eq_refl eq_refl).
  - reflexivity.
  - repeat constructor.
  - vm_compute. reflexivity.
  - vm_compute. reflexivity.
Defined.

(** Clients are apart.  [NewMCPClient] makes a client of its
    own: the clients that exist are what they were, and the first
    request of the new client has the id 1. *)
Theorem NewMCPClient_is_fresh url w :
  fst (NewMCPClient url w) = Ok (Some (List.length (clients w)))
  /\ nth_error (clients (snd (NewMCPClient url w))) (List.length (clients w))
     = Some {| baseURL := url; requestID := 0 |}
  /\ (forall a cl,
        nth_error (clients w) a = Some cl ->
        nth_error (clients (snd (NewMCPClient url w))) a = Some cl)
  /\ (forall method params,
        bad_url w url = None ->
        sent (snd (sendRequest (Some (List.length (clients w))) method params
                     (snd (NewMCPClient url w))))
        = (sent w ++
           [(url,
             marshal_MCPRequest
               {| reqJSONRPC := "2.0"; reqID := 1;
                  reqMethod := method; reqParams := params |})])%list).
Proof.
  unfold NewMCPClient. cbn [fst snd]. autorewrite with world.
  assert (nth_error (clients w ++ [{| baseURL := url; requestID := 0 |}])
            (List.length (clients w))
          = Some {| baseURL := url; requestID := 0 |}) as Hnew.
  { rewrite nth_error_app2 by lia. now rewrite Nat.sub_diag. }
  split; [reflexivity|]. split; [exact Hnew|]. split.
  - intros a cl Hcl. rewrite nth_error_app1; [exact Hcl|].
    apply nth_error_Some. now rewrite Hcl.
  - intros method params Hurl.
    set (w' := with_clients w _).
    assert (nth_error (clients w') (List.length (clients w))
            = Some {| baseURL := url; requestID := 0 |}) as Hcl by exact Hnew.
    rewrite (sendRequest_world _ _ _ _ _ Hcl). cbn [baseURL].
    change (bad_url w' url) with (bad_url w url). rewrite Hurl. reflexivity.
Qed.

Lemma NewMCPClient_is_fresh_witness :
  sent (snd (sendRequest (Some 0) "tools/list" Nil (one_client [])))
  = [(localhost, json "{'jsonrpc':'2.0','id':1,'method':'tools/list'}")].
Proof.
  destruct (NewMCPClient_is_fresh localhost (world_of [] [])) as (_ & _ & _ & H).
  exact (H "tools/list" Nil eq_refl).
Defined.

Lemma AddActionGroup_registers_witness :
  exists r : registration,
    map fst r = [Some 0]
    /\ listed r timeServer (snd (AddActionGroup emptyAgent sampleGroup timeServer))
    /\ agentOf [("SampleActionGroup", [(Some 0, [tool "time"])])]
       = {| FoundationModel := FoundationModel emptyAgent;
            Instruction := Instruction emptyAgent;
            AgentName := AgentName emptyAgent;
            ActionGroups :=
              (ActionGroups emptyAgent ++
               [{| groupName := "SampleActionGroup";
                   MCPClients := [Some 0];
                   Tools := ([] ++ flat_map snd r)%list |}])%list |}.
Proof.
  exact (proj1 (AddActionGroup_registers emptyAgent sampleGroup timeServer
                  (agentOf [("SampleActionGroup", [(Some 0, [tool "time"])])])
                  (snd (AddActionGroup emptyAgent sampleGroup timeServer)))
           eq_refl).
Defined.

(** The tool configuration follows the groups.  [buildToolConfig]
    makes one specification for every tool of every group, in the
    order of the groups and of their tools, under the name and the
    description of the tool; tools of the same name are all kept. *)
Theorem buildToolConfig_lists_every_tool a :
  map (fun spec => (types.SpecName spec, types.SpecDescription spec)) (buildToolConfig a)
  = map (fun tool => (Name tool, Description tool)) (flat_map Tools (ActionGroups a)).
Proof.
  unfold buildToolConfig.
  induction (ActionGroups a) as [|g groups IH]; cbn [flat_map map]; [reflexivity|].
  rewrite !map_app, IH, map_map. reflexivity.
Qed.

(* ================================================================= *)
(** ** [json.Marshal] and back: what is written is read as it was *)

(* ================================================================= *)
(** ** Strings through [json.Marshal] and [json.Unmarshal] *)

Lemma scan_string_escape c tail :
  (code c <? 128)%N = true ->
  scan_string (escape_ascii c ++ tail) =
  match scan_string tail with
  | Some (raw, rest) => Some (escape_ascii c ++ raw, rest)
  | None => None
  end.
Proof.
  destruct c as [b0 b1 b2 b3 b4 b5 b6 b7]. intro H.
  destruct b7; [destruct b0, b1, b2, b3, b4, b5, b6; discriminate H|].
  destruct b0, b1, b2, b3, b4, b5, b6; cbn;
    destruct (scan_string tail) as [[raw rest]|]; reflexivity.
Qed.

Lemma unquote_escape f c tail :
  (code c <? 128)%N = true ->
  unquote (S f) (escape_ascii c ++ tail) = String c (unquote f tail).
Proof.
  destruct c as [b0 b1 b2 b3 b4 b5 b6 b7]. intro H.
  destruct b7; [destruct b0, b1, b2, b3, b4, b5, b6; discriminate H|].
  destruct b0, b1, b2, b3, b4, b5, b6; reflexivity.
Qed.

Lemma escape_ascii_length c : 1 <= String.length (escape_ascii c).
Proof.
  unfold escape_ascii, escape_u00.
  repeat match goal with |- context [if ?b then _ else _] => destruct b end; cbn; lia.
Qed.

Lemma quote_body_step n c s :
  (code c <? 128)%N = true ->
  quote_body (S n) (String c s) = escape_ascii c ++ quote_body n s.
Proof. intro H. cbn [quote_body]. now rewrite H. Qed.

Lemma asciiText_cons c s :
  asciiText (String c s) = true -> (code c <? 128)%N = true /\ asciiText s = true.
Proof. cbn [asciiText]. apply andb_true_iff. Qed.

Lemma quote_body_nil n : quote_body n "" = "".
Proof. now destruct n. Qed.

(** A quoted text is scanned as one string literal. *)
Lemma scan_string_quoted s :
  asciiText s = true ->
  forall n rest,
    String.length s <= n ->
    scan_string (quote_body n s ++ dquote ++ rest) = Some (quote_body n s, rest).
Proof.
  induction s as [|c s IH]; intros A n rest L.
  - now rewrite quote_body_nil.
  - destruct (asciiText_cons _ _ A) as [Hc Hs].
    destruct n as [|n]; [cbn in L; lia|]. cbn [String.length] in L.
    rewrite (quote_body_step _ _ _ Hc), append_assoc, (scan_string_escape _ _ Hc).
    rewrite (IH Hs n rest) by lia. reflexivity.
Qed.

(** The literal of a text denotes the text. *)
Lemma unquote_quoted s :
  asciiText s = true ->
  forall n f,
    String.length s <= n -> String.length s <= f ->
    unquote f (quote_body n s) = s.
Proof.
  induction s as [|c s IH]; intros A n f Ln Lf.
  - rewrite quote_body_nil. now destruct f.
  - destruct (asciiText_cons _ _ A) as [Hc Hs].
    destruct n as [|n]; [cbn in Ln; lia|]. destruct f as [|f]; [cbn in Lf; lia|].
    cbn [String.length] in *.
    rewrite (quote_body_step _ _ _ Hc), (unquote_escape _ _ _ Hc).
    rewrite (IH Hs n f) by lia. reflexivity.
Qed.

Lemma quote_body_length s :
  asciiText s = true ->
  forall n, String.length s <= n -> String.length s <= String.length (quote_body n s).
Proof.
  induction s as [|c s IH]; intros A n L; [cbn; lia|].
  destruct (asciiText_cons _ _ A) as [Hc Hs].
  destruct n as [|n]; [cbn in L; lia|]. cbn [String.length] in *.
  rewrite (quote_body_step _ _ _ Hc), append_length.
  pose proof (escape_ascii_length c). pose proof (IH Hs n ltac:(lia)). lia.
Qed.

Lemma unquoted_quoted s :
  asciiText s = true -> unquoted (quote_body (String.length s) s) = s.
Proof.
  intro A. unfold unquoted. apply unquote_quoted; auto.
  now apply quote_body_length.
Qed.

(** Written by [json.Marshal] and read again, a text of ASCII bytes is
    what it was. *)
Lemma parse_value_quoted d s rest :
  asciiText s = true ->
  parse_value d (quote s ++ rest) = Some (JString s, rest).
Proof.
  intro A. unfold quote.
  change (dquote ++ quote_body (String.length s) s ++ dquote)
    with (String (byte 34) (quote_body (String.length s) s ++ dquote)).
  change (String (byte 34) (quote_body (String.length s) s ++ dquote) ++ rest)
    with (String (byte 34) ((quote_body (String.length s) s ++ dquote) ++ rest)).
  rewrite append_assoc.
  destruct d; cbn [parse_value]; change (chr (byte 34) 34) with true; cbv iota;
    rewrite (scan_string_quoted s A) by auto; now rewrite (unquoted_quoted s A).
Qed.

(* ================================================================= *)
(** ** Values through [json.Marshal] and [json.Unmarshal] *)

Lemma marshal_slice elems : marshal (GoSlice elems) = "[" ++ elementsText elems ++ "]".
Proof. reflexivity. Qed.

Lemma marshal_map entries : marshal (GoMap entries) = "{" ++ entriesText entries ++ "}".
Proof. reflexivity. Qed.

Lemma opens_app s t : opens s -> opens (s ++ t).
Proof. intros (c & s' & -> & H). exists c, (s' ++ t). now split. Qed.

Lemma quote_opens s : opens (quote s).
Proof. unfold quote. eexists _, _. repeat split. Qed.

Lemma marshal_opens d v : plain d v -> opens (marshal v).
Proof.
  intro P.
  destruct v as [|[]|lit|s|elems|entries].
  - exists "n"%char, "ull". now repeat split.
  - exists "t"%char, "rue". now repeat split.
  - exists "f"%char, "alse". now repeat split.
  - now destruct d.
  - apply quote_opens.
  - rewrite marshal_slice. eexists _, _. split; [reflexivity|]. now repeat split.
  - rewrite marshal_map. eexists _, _. split; [reflexivity|]. now repeat split.
Qed.

Lemma skip_ws_opens s : opens s -> skip_ws s = s.
Proof. intros (c & s' & -> & W & _). cbn [skip_ws]. now rewrite W. Qed.

Lemma opens_nonempty s : opens s -> 1 <= String.length s.
Proof. intros (c & s' & -> & _). cbn. lia. Qed.

Lemma elementsText_length d elems :
  Forall (plain d) elems -> List.length elems <= String.length (elementsText elems).
Proof.
  induction 1 as [|x xs Px _ IH]; [cbn; lia|].
  cbn [elementsText List.length]. rewrite append_length.
  pose proof (opens_nonempty _ (marshal_opens _ _ Px)).
  destruct xs as [|y ys]; [cbn; lia|].
  change (String.length ("," ++ elementsText (y :: ys)))
    with (S (String.length (elementsText (y :: ys)))).
  cbn [List.length] in *. lia.
Qed.

Lemma entriesText_length (entries : list (string * any)) :
  List.length entries <= String.length (entriesText entries).
Proof.
  induction entries as [|[k x] xs IH]; [cbn; lia|].
  cbn [entriesText List.length]. unfold quote. rewrite !append_length.
  destruct xs as [|y ys]; [cbn; lia|].
  change (String.length ("," ++ entriesText (y :: ys)))
    with (S (String.length (entriesText (y :: ys)))).
  cbn [List.length String.length] in *. lia.
Qed.

Section Marshalled.

Variable d : nat.

(** The values one level down are read as they were written. *)
Hypothesis inner :
  forall v rest, plain d v -> parse_value d (marshal v ++ rest) = Some (value_of v, rest).

Lemma parse_elements_marshalled elems :
  elems <> [] -> Forall (plain d) elems ->
  forall fuel rest,
    List.length elems <= fuel ->
    parse_elements (parse_value d) fuel (elementsText elems ++ String "]" rest)
    = Some (map value_of elems, rest).
Proof.
  intros NE F. induction F as [|x xs Px Pxs IH]; [contradiction|]. clear NE.
  intros fuel rest L. destruct fuel as [|fuel]; [cbn in L; lia|].
  cbn [List.length] in L. cbn [parse_elements elementsText map].
  rewrite append_assoc.
  rewrite (skip_ws_opens _ (opens_app _ _ (marshal_opens _ _ Px))).
  rewrite (inner _ _ Px).
  destruct xs as [|y ys].
  - reflexivity.
  - change (("," ++ elementsText (y :: ys)) ++ String "]" rest)
      with (String "," (elementsText (y :: ys) ++ String "]" rest)).
    cbn [skip_ws]. change (is_ws ",") with false. cbv iota.
    change (chr "," 44) with true. cbv iota.
    rewrite IH; [reflexivity|discriminate|cbn [List.length] in *; lia].
Qed.

Lemma parse_members_marshalled entries :
  entries <> [] ->
  Forall (fun entry => asciiText (fst entry) = true /\ plain d (snd entry)) entries ->
  forall fuel rest,
    List.length entries <= fuel ->
    parse_members (parse_value d) fuel (entriesText entries ++ String "}" rest)
    = Some (map (fun entry => match entry with (k, x) => (k, value_of x) end) entries, rest).
Proof.
  intros NE F. induction F as [|[k x] xs [Ak Px] Pxs IH]; [contradiction|]. clear NE.
  intros fuel rest L. destruct fuel as [|fuel]; [cbn in L; lia|].
  cbn [List.length fst snd] in *. cbn [parse_members entriesText map].
  rewrite !append_assoc.
  rewrite (skip_ws_opens _ (opens_app _ _ (quote_opens k))).
  unfold quote at 1.
  change ((dquote ++ quote_body (String.length k) k ++ dquote) ++
          ":" ++ marshal x ++
          match xs with [] => "" | _ :: _ => "," ++ entriesText xs end ++ String "}" rest)
    with (String (byte 34)
            ((quote_body (String.length k) k ++ dquote) ++
             ":" ++ marshal x ++
             match xs with [] => "" | _ :: _ => "," ++ entriesText xs end
             ++ String "}" rest)).
  change (chr (byte 34) 34) with true. cbv iota.
  rewrite append_assoc, (scan_string_quoted k Ak) by auto.
  rewrite (unquoted_quoted k Ak).
  change (":" ++ marshal x ++
          match xs with [] => "" | _ :: _ => "," ++ entriesText xs end ++ String "}" rest)
    with (String ":" (marshal x ++
          match xs with [] => "" | _ :: _ => "," ++ entriesText xs end ++ String "}" rest)).
  cbn [skip_ws]. change (is_ws ":") with false. cbv iota.
  change (chr ":" 58) with true. cbv iota.
  rewrite (skip_ws_opens _ (opens_app _ _ (marshal_opens _ _ Px))).
  rewrite (inner _ _ Px).
  destruct xs as [|y ys].
  - reflexivity.
  - change (("," ++ entriesText (y :: ys)) ++ String "}" rest)
      with (String "," (entriesText (y :: ys) ++ String "}" rest)).
    cbn [skip_ws]. change (is_ws ",") with false. cbv iota.
    change (chr "," 44) with true. cbv iota.
    rewrite IH; [reflexivity|discriminate|cbn [List.length] in *; lia].
Qed.

End Marshalled.

Lemma parse_null d rest : parse_value d ("null" ++ rest) = Some (JNull, rest).
Proof. destruct d; cbn; unfold scan_literal, HasPrefix; cbn; now destruct rest. Qed.

Lemma parse_true d rest : parse_value d ("true" ++ rest) = Some (JBool true, rest).
Proof. destruct d; cbn; unfold scan_literal, HasPrefix; cbn; now destruct rest. Qed.

Lemma parse_false d rest : parse_value d ("false" ++ rest) = Some (JBool false, rest).
Proof. destruct d; cbn; unfold scan_literal, HasPrefix; cbn; now destruct rest. Qed.

(** What [json.Marshal] writes for a plain value is read as that
    value, and what follows it is left. *)
Lemma parse_marshalled d :
  forall v rest, plain d v -> parse_value d (marshal v ++ rest) = Some (value_of v, rest).
Proof.
  induction d as [|d IH]; intros v rest P.
  - destruct v as [|[]|lit|s|elems|entries]; try contradiction.
    + apply parse_null.
    + apply parse_true.
    + apply parse_false.
    + now apply parse_value_quoted.
  - destruct v as [|[]|lit|s|elems|entries]; try contradiction.
    + apply parse_null.
    + apply parse_true.
    + apply parse_false.
    + now apply parse_value_quoted.
    + cbn [plain] in P. rewrite marshal_slice. cbn [value_of].
      change (("[" ++ elementsText elems ++ "]") ++ rest)
        with (String "[" ((elementsText elems ++ "]") ++ rest)).
      rewrite append_assoc. change ("]" ++ rest) with (String "]" rest).
      cbn [parse_value]. change (chr "[" 34) with false. change (chr "[" 91) with true.
      cbv iota.
      destruct elems as [|x xs]; [reflexivity|].
      assert (opens (elementsText (x :: xs) ++ String "]" rest)) as O.
      { cbn [elementsText]. rewrite append_assoc. apply opens_app.
        inversion P; subst. eapply marshal_opens; eauto. }
      rewrite (skip_ws_opens _ O).
      destruct O as (c & s' & E & _ & N & _). rewrite E at 1. rewrite N.
      rewrite (parse_elements_marshalled d IH (x :: xs)); [reflexivity|discriminate|exact P|].
      pose proof (elementsText_length _ _ P). rewrite append_length. lia.
    + cbn [plain] in P. destruct P as [P _]. rewrite marshal_map. cbn [value_of].
      change (("{" ++ entriesText entries ++ "}") ++ rest)
        with (String "{" ((entriesText entries ++ "}") ++ rest)).
      rewrite append_assoc. change ("}" ++ rest) with (String "}" rest).
      cbn [parse_value]. change (chr "{" 34) with false. change (chr "{" 91) with false.
      change (chr "{" 123) with true. cbv iota.
      destruct entries as [|[k x] xs]; [reflexivity|].
      assert (opens (entriesText ((k, x) :: xs) ++ String "}" rest)) as O.
      { cbn [entriesText]. rewrite append_assoc. apply opens_app, quote_opens. }
      rewrite (skip_ws_opens _ O).
      destruct O as (c & s' & E & _ & _ & N). rewrite E at 1. rewrite N.
      rewrite (parse_members_marshalled d IH ((k, x) :: xs));
        [reflexivity|discriminate|exact P|].
      pose proof (entriesText_length ((k, x) :: xs)). rewrite append_length. lia.
Qed.

(** The value read is the value written. *)
Lemma to_any_value_of d : forall v, plain d v -> to_any (value_of v) = Some v.
Proof.
  induction d as [|d IH]; intros v P.
  - destruct v as [|[]|lit|s|elems|entries]; try contradiction; reflexivity.
  - destruct v as [|[]|lit|s|elems|entries]; try contradiction; try reflexivity.
    + cbn [plain] in P. cbn [value_of to_any].
      match goal with |- option_map _ ?e = _ => assert (e = Some elems) as -> end;
        [|reflexivity].
      induction P as [|x xs Px _ IHl]; [reflexivity|].
      cbn [map]. now rewrite (IH _ Px), IHl.
    + cbn [plain] in P. destruct P as [P M]. cbn [value_of to_any].
      match goal with |- option_map _ (?f _ []) = _ =>
        assert (forall acc,
                  f (map (fun entry => match entry with (k, x) => (k, value_of x) end) entries)
                    acc
                  = Some (fold_left (fun m kv => map_set (fst kv) (snd kv) m) entries acc))
          as E
      end.
      { clear M. induction P as [|[k x] xs [_ Px] _ IHl]; intro acc; [reflexivity|].
        cbn [fst snd] in Px. cbn [map fold_left fst snd]. rewrite (IH _ Px). apply IHl. }
      rewrite E. cbn [option_map]. unfold map_of in M. now rewrite M.
Qed.

Lemma plain_deeper d : forall v, plain d v -> plain (S d) v.
Proof.
  induction d as [|d IH]; intros v P.
  - destruct v as [|[]|lit|s|elems|entries]; try contradiction; exact P.
  - destruct v as [|[]|lit|s|elems|entries]; try contradiction; try exact P.
    + cbn [plain] in *. eapply Forall_impl; [|exact P]. exact IH.
    + cbn [plain] in *. destruct P as [P M]. split; [|exact M].
      eapply Forall_impl; [|exact P]. intros [k x] [A Px]. split; [exact A|now apply IH].
Qed.

Lemma plain_deep d e : d <= e -> forall v, plain d v -> plain e v.
Proof. induction 1; auto using plain_deeper. Qed.

(** [json.Marshal] and then [json.Unmarshal] into [T], for a plain
    value nested at most 10000 deep: the value is stored as it is. *)
Lemma Unmarshal_marshalled {T : Type} (into : T -> value -> option T) (zero : T) d v :
  d <= maxNestingDepth -> plain d v ->
  Unmarshal into zero (marshal v) =
  match into zero (value_of v) with
  | Some x => Decoded x
  | None => Failed UnmarshalTypeError
  end.
Proof.
  intros L P. pose proof (plain_deep _ _ L v P) as Pm.
  unfold Unmarshal, parse.
  rewrite (skip_ws_opens _ (marshal_opens _ _ Pm)).
  rewrite <- (append_nil_r (marshal v)) at 1.
  now rewrite (parse_marshalled _ _ _ Pm).
Qed.

(* ================================================================= *)
(** ** What the server sent is what [CallTool] and [ListTools] return *)

Lemma into_ContentBlock_blockValue b :
  into_ContentBlock zero_ContentBlock (value_of (blockValue b)) = Some b.
Proof. now destruct b. Qed.

Lemma into_ContentBlocks_blockValues blocks :
  into_ContentBlocks [] (value_of (GoSlice (map blockValue blocks))) = Some blocks.
Proof.
  cbn [value_of into_ContentBlocks]. induction blocks as [|b bs IH]; [reflexivity|].
  cbn [map into_slice hd tl]. now rewrite into_ContentBlock_blockValue, IH.
Qed.

Lemma plain_blockValue b :
  asciiText (Type_ b) = true -> asciiText (Text b) = true -> plain 1 (blockValue b).
Proof. intros A B. cbn. repeat constructor; assumption. Qed.

Lemma plain_blockValues blocks :
  Forall (fun b => asciiText (Type_ b) = true /\ asciiText (Text b) = true) blocks ->
  plain 2 (GoSlice (map blockValue blocks)).
Proof.
  intro F. cbn [plain]. induction F as [|b bs [A B] _ IH]; constructor; [|exact IH].
  now apply plain_blockValue.
Qed.

Lemma into_Tool_toolValue d t :
  match InputSchema t with Some m => plain d (GoMap m) | None => True end ->
  into_Tool zero_Tool (value_of (toolValue t)) = Some t.
Proof.
  destruct t as [name description [m|]]; cbn [InputSchema]; intro P; [|reflexivity].
  unfold toolValue. cbn [Name Description InputSchema].
  pose proof (to_any_value_of _ _ P) as E. cbn [value_of] in E.
  cbn [value_of map into_Tool into_struct].
  change (store_Tool zero_Tool "description" (JString description))
    with (Some {| Name := ""; Description := description; InputSchema := None |}).
  cbv iota.
  match goal with |- match store_Tool ?cur "inputSchema" ?v with _ => _ end = _ =>
    change (store_Tool cur "inputSchema" v)
      with (option_map
              (fun x => {| Name := Name cur; Description := Description cur; InputSchema := x |})
              (into_map (InputSchema cur) v))
  end.
  unfold into_map. rewrite E. cbn [InputSchema option_map Name Description].
  destruct d as [|d]; [contradiction|]. destruct P as [_ M]. unfold map_of in M. rewrite M.
  reflexivity.
Qed.

Lemma into_Tools_toolValues d tools :
  Forall (fun t => match InputSchema t with Some m => plain d (GoMap m) | None => True end)
    tools ->
  into_Tools [] (value_of (GoSlice (map toolValue tools))) = Some tools.
Proof.
  intro F. cbn [value_of into_Tools].
  induction F as [|t ts P _ IH]; [reflexivity|].
  cbn [map into_slice hd tl]. now rewrite (into_Tool_toolValue d t P), IH.
Qed.

Lemma plain_toolValue d t :
  asciiText (Name t) = true -> asciiText (Description t) = true ->
  match InputSchema t with Some m => plain d (GoMap m) | None => True end ->
  plain (S d) (toolValue t).
Proof.
  intros A B P. unfold toolValue. cbn [plain]. split; [|reflexivity].
  constructor; [split; [reflexivity|]; cbn [snd]; now destruct d|].
  constructor; [split; [reflexivity|]; cbn [snd]|].
  { destruct (InputSchema t); [exact P|]. now destruct d. }
  constructor; [split; [reflexivity|]; cbn [snd]; now destruct d|]. constructor.
Qed.

(** X1.  The content a server sends arrives as it was sent.  When the
    tools/call request succeeds and its result is the object of a list
    of content blocks whose texts are ASCII, with or without the key
    [isError], [CallTool] returns these blocks unchanged (quotation
    marks, backslashes, control characters and the characters that
    [json.Marshal] escapes included) and the flag, false if there was
    none: re-encoding the result and decoding it again loses
    nothing. *)
Theorem CallTool_returns_the_content c toolCall w resp w' blocks :
  sendRequest c "tools/call"
    (GoMap (map_of [("name", GoString (callName toolCall));
                    ("arguments", GoMap (Arguments toolCall))])) w = (Ok resp, w') ->
  Forall (fun b => asciiText (Type_ b) = true /\ asciiText (Text b) = true) blocks ->
  (Result resp = GoMap [("content", GoSlice (map blockValue blocks))] ->
   CallTool c toolCall w = (Ok {| Content := blocks; IsError := false |}, w'))
  /\ (forall isError,
        Result resp = GoMap [("content", GoSlice (map blockValue blocks));
                             ("isError", GoBool isError)] ->
        CallTool c toolCall w = (Ok {| Content := blocks; IsError := isError |}, w')).
Proof.
  intros Hs F. pose proof (plain_blockValues _ F) as P.
  pose proof (into_ContentBlocks_blockValues blocks) as D.
  assert (3 <= maxNestingDepth) as L by (unfold maxNestingDepth; lia).
  set (content := GoSlice (map blockValue blocks)) in *.
  assert (store_ToolResult zero_ToolResult "content" (value_of content)
          = Some {| Content := blocks; IsError := false |}) as K.
  { change (store_ToolResult zero_ToolResult "content" (value_of content))
      with (option_map (fun x => {| Content := x; IsError := false |})
              (into_ContentBlocks [] (value_of content))).
    now rewrite D. }
  split; [|intro isError]; intro R; unfold CallTool, bind; rewrite Hs, R;
    unfold Unmarshal_ToolResult.
  - rewrite (Unmarshal_marshalled _ _ 3); [|exact L|].
    + cbn [value_of map into_ToolResult into_struct]. now rewrite K.
    + cbn [plain]. split; [|reflexivity]. repeat constructor. exact P.
  - rewrite (Unmarshal_marshalled _ _ 3); [|exact L|].
    + cbn [value_of map into_ToolResult into_struct]. now rewrite K.
    + cbn [plain]. split; [|reflexivity]. repeat constructor. exact P.
Qed.

Lemma CallTool_returns_the_content_witness :
  CallTool (Some 0) timeCall (one_client [callReply])
  = (Ok timeResult,
     snd (sendRequest (Some 0) "tools/call"
            (GoMap (map_of [("name", GoString "time"); ("arguments", GoMap [])]))
            (one_client [callReply]))).
Proof.
  refine (proj1 (CallTool_returns_the_content (Some 0) timeCall (one_client [callReply])
                   _ _ [{| Type_ := "text"; Text := "12:00:00Z" |}] eq_refl _) eq_refl).
  repeat constructor.
Defined.

(** X18.  The tools a server lists are the tools [ListTools] returns.
    When the tools/list request succeeds and its result has under
    [tools] the list of the objects of some tools, each with an ASCII
    name and description and a schema (if it has one) without numbers
    and with ASCII texts, nested at most 9998 deep, [ListTools]
    returns these tools, in this order, with their schemas
    unchanged. *)
Theorem ListTools_returns_the_tools c w resp resultMap tools d :
  fst (sendRequest c "tools/list" Nil w) = Ok resp ->
  Result resp = GoMap resultMap ->
  map_get "tools" resultMap = Some (GoSlice (map toolValue tools)) ->
  Forall (fun t => asciiText (Name t) = true /\ asciiText (Description t) = true
                   /\ match InputSchema t with
                      | Some m => plain d (GoMap m)
                      | None => True
                      end) tools ->
  d + 2 <= maxNestingDepth ->
  fst (ListTools c w) = Ok tools.
Proof.
  intros Hs R G F L. unfold ListTools, bind.
  destruct (sendRequest c "tools/list" Nil w) as [o w'] eqn:E. cbn [fst] in Hs. subst o.
  rewrite R, G. unfold Unmarshal_Tools.
  rewrite (Unmarshal_marshalled _ _ (S (S d))); [|lia|].
  - rewrite (into_Tools_toolValues d); [reflexivity|].
    eapply Forall_impl; [|exact F]. now intros t (_ & _ & P).
  - cbn [plain]. apply Forall_map. eapply Forall_impl; [|exact F].
    intros t (A & B & P). now apply plain_toolValue.
Qed.

Lemma ListTools_returns_the_tools_witness :
  fst (ListTools (Some 0) freshWorld) = Ok [tool "time"].
Proof.
  refine (ListTools_returns_the_tools (Some 0) freshWorld _ _ [tool "time"] 1
            eq_refl eq_refl eq_refl _ _).
  - repeat constructor.
  - unfold maxNestingDepth. lia.
Defined.
